(** * DavidAI: a shallow embedding of the orchestration core

    The development follows the Python sources
      - [davidai/utils/file_utils.py]  (PathGuard, ProjectStructure),
      - [davidai/core/loader.py]       (ModelInterface, DummyModel, DavidAIModelManager),
      - [davidai/core/agents.py]       (BaseAgent, CEO, Manager, ANT, KnowledgeCurator),
      - [davidai/ui/command_center.py] (Dashboard, CommandInterface),
      - [davidai/core/orchestrator.py] (DavidAI).

    Python objects become records, dict literals become insertion-ordered
    association lists, the model registry becomes a [gmap], and every method
    is a computation in a small state/exception/output monad: the state is
    the receiver object, the output is the stream of [logging] records and
    [print]ed lines the call emits.

    The file system is what the operating system answers: an interface for
    the reads and writes, a snapshot of the directory for the scan.

    A call is modelled as sequential code, from its first statement to its
    last; the threads of the process take turns, one pass through a loop at
    a time.  Module [Interleaving] has the cycle thread statement by
    statement, for what depends on a call of one thread coming between two
    statements of another.

    Left out: the graphical launcher and [CEO.validate_architecture], whose
    answer holds a float.  Texts are byte strings, exact for ASCII. *)

From Stdlib Require Import ZArith Ascii String List.
From stdpp Require Import list strings pretty gmap.

Local Open Scope string_scope.
Local Open Scope list_scope.
Local Open Scope Z_scope.

(** ** Python strings *)

Module PyString.

Definition backslash : ascii := ascii_of_nat 92.
Definition dquote : ascii := ascii_of_nat 34.
Definition squote : ascii := ascii_of_nat 39.
Definition slash : ascii := ascii_of_nat 47.

(** [s.startswith(p)] *)
Definition startswith (s p : string) : bool := String.prefix p s.

(** [s.endswith(p)] for a one-character [p] *)
Fixpoint endswith_char (s : string) (c : ascii) : bool :=
  match s with
  | EmptyString => false
  | String a EmptyString => Ascii.eqb a c
  | String _ rest => endswith_char rest c
  end.

(** [c in s] for a one-character [c] *)
Fixpoint contains_char (s : string) (c : ascii) : bool :=
  match s with
  | EmptyString => false
  | String a rest => Ascii.eqb a c || contains_char rest c
  end.

(** [s.split(sep)] for a one-character [sep]: the pieces between the
    separators, empty pieces included; never the empty list. *)
Fixpoint split (sep : ascii) (s : string) : list string :=
  match s with
  | EmptyString => [EmptyString]
  | String a rest =>
      if Ascii.eqb a sep then EmptyString :: split sep rest
      else match split sep rest with
           | [] => [String a EmptyString]
           | piece :: pieces => String a piece :: pieces
           end
  end.

(** [sep.join(pieces)] *)
Fixpoint join (sep : string) (pieces : list string) : string :=
  match pieces with
  | [] => EmptyString
  | [p] => p
  | p :: rest => p +:+ sep +:+ join sep rest
  end.

(** [s * n] *)
Fixpoint times (s : string) (n : nat) : string :=
  match n with
  | O => EmptyString
  | S k => s +:+ times s k
  end.

(** [s[:n]] *)
Definition take (n : nat) (s : string) : string := String.substring 0 n s.

(** A lower-case hexadecimal digit, as in the escape [\x1b]. *)
Definition hex_digit (n : N) : ascii :=
  match String.get (N.to_nat n) "0123456789abcdef" with
  | Some c => c
  | None => "0"%char
  end.

(** One character of [repr(s)], for the chosen quote character. *)
Definition repr_char (quote c : ascii) : string :=
  let n := N_of_ascii c in
  if Ascii.eqb c quote || Ascii.eqb c backslash then String backslash (String c EmptyString)
  else if (n =? 9)%N then String backslash "t"
  else if (n =? 10)%N then String backslash "n"
  else if (n =? 13)%N then String backslash "r"
  else if ((n <? 32) || (n =? 127))%N then
    String backslash (String "x"%char
      (String (hex_digit (n / 16)) (String (hex_digit (n mod 16)) EmptyString)))
  else String c EmptyString.

Fixpoint repr_chars (quote : ascii) (s : string) : string :=
  match s with
  | EmptyString => EmptyString
  | String c rest => repr_char quote c +:+ repr_chars quote rest
  end.

(** [repr(s)] of a [str]: single quotes unless the text holds a single
    quote and no double quote; bytes above 127 (UTF-8 encoded printable
    characters) are copied. *)
Definition repr (s : string) : string :=
  let quote :=
    if contains_char s squote && negb (contains_char s dquote) then dquote else squote in
  String quote (repr_chars quote s) +:+ String quote EmptyString.

End PyString.

(** ** Python values

    The values that occur in tasks, results, metrics and ledger entries:
    [None], [bool], [int], [str], [list] and [dict] with [str] keys.  A dict
    is kept as an association list in insertion order. *)

#[local] Set Warnings "-register-all".

Inductive pyval : Type :=
| PNone
| PBool (b : bool)
| PInt (z : Z)
| PStr (s : string)
| PList (items : list pyval)
| PDict (entries : list (string * pyval)).

Definition pydict : Type := list (string * pyval).

Module Py.

(** [repr(v)] *)
Fixpoint repr (v : pyval) : string :=
  match v with
  | PNone => "None"
  | PBool true => "True"
  | PBool false => "False"
  | PInt z => pretty z
  | PStr s => PyString.repr s
  | PList items => "[" +:+ PyString.join ", " (map repr items) +:+ "]"
  | PDict entries =>
      "{" +:+ PyString.join ", "
               (map (fun kv => PyString.repr (fst kv) +:+ ": " +:+ repr (snd kv)) entries)
          +:+ "}"
  end.

(** [str(v)], which is what an f-string placeholder [{v}] renders. *)
Definition str (v : pyval) : string :=
  match v with
  | PStr s => s
  | _ => repr v
  end.

(** [v == s] for a [str] literal [s] *)
Definition eq_str (v : pyval) (s : string) : bool :=
  match v with
  | PStr s' => String.eqb s' s
  | _ => false
  end.

(** [d.get(k)]: the value stored under [k], [None] when absent. *)
Fixpoint get (k : string) (d : pydict) : pyval :=
  match d with
  | [] => PNone
  | (k', v) :: rest => if String.eqb k' k then v else get k rest
  end.

(** [d.get(k, default)] *)
Fixpoint get_default (k : string) (default : pyval) (d : pydict) : pyval :=
  match d with
  | [] => default
  | (k', v) :: rest => if String.eqb k' k then v else get_default k default rest
  end.

(** [d[k] = v]: overwrite in place, or append a new key at the end. *)
Fixpoint set (k : string) (v : pyval) (d : pydict) : pydict :=
  match d with
  | [] => [(k, v)]
  | (k', v') :: rest =>
      if String.eqb k' k then (k', v) :: rest else (k', v') :: set k v rest
  end.

(** [d.update(new)] *)
Definition update (new : pydict) (d : pydict) : pydict :=
  fold_left (fun acc kv => set (fst kv) (snd kv) acc) new d.

End Py.

(** ** Outcomes, output and the method monad *)

(** The exceptions the modelled code raises itself. *)
Inductive exn : Type :=
| NotImplementedError (msg : string).

(** How a call ends: it returns a value or an exception propagates. *)
Inductive outcome (A : Type) : Type :=
| Returned (a : A)
| Raised (e : exn).
Arguments Returned {A} a.
Arguments Raised {A} e.

Inductive level : Type := INFO | WARNING | ERROR.

(** What a call writes: a record sent to one of the module loggers
    ([logging.getLogger(name)]) or a [print(text, end=terminator)]. *)
Inductive output : Type :=
| Log (logger : string) (lvl : level) (msg : string)
| Print (text : string) (terminator : string).

(** A method with receiver state [S] and result [A].  The state reached when
    an exception is raised is kept, as attribute writes made before a [raise]
    are in Python. *)
Definition M (S A : Type) : Type := S -> outcome A * S * list output.

Definition ret {S A} (a : A) : M S A := fun s => (Returned a, s, []).

Definition raise {S A} (e : exn) : M S A := fun s => (Raised e, s, []).

Definition bind {S A B} (m : M S A) (k : A -> M S B) : M S B :=
  fun s =>
    match m s with
    | (Returned a, s1, o1) =>
        match k a s1 with
        | (r, s2, o2) => (r, s2, o1 ++ o2)
        end
    | (Raised e, s1, o1) => (Raised e, s1, o1)
    end.

Declare Scope method_scope.
Delimit Scope method_scope with method.
Notation "x <~ m ;; k" := (bind m (fun x => k))
  (at level 100, m at next level, k at level 200, right associativity) : method_scope.
Notation "m ;;; k" := (bind m (fun _ => k))
  (at level 100, k at level 200, right associativity) : method_scope.
Local Open Scope method_scope.

(** Read the receiver, or a field of it. *)
Definition gets {S A} (f : S -> A) : M S A := fun s => (Returned (f s), s, []).

(** Write the receiver: [self.field = ...]. *)
Definition modify {S} (f : S -> S) : M S unit := fun s => (Returned tt, f s, []).

Definition emit {S} (o : output) : M S unit := fun s => (Returned tt, s, [o]).

(** [print(text)] *)
Definition print {S} (text : string) : M S unit :=
  emit (Print text (String (ascii_of_nat 10) EmptyString)).

(** Run a method of an object held in a local variable; the object after
    the call is returned with the result. *)
Definition on_object {S T A} (obj : T) (m : M T A) : M S (A * T) :=
  fun s =>
    match m obj with
    | (Returned a, obj1, o) => (Returned (a, obj1), s, o)
    | (Raised e, _, o) => (Raised e, s, o)
    end.

(** Run a method of the attribute reached by [get]/[set] of the receiver. *)
Definition zoom {S T A} (get : S -> T) (set : T -> S -> S) (m : M T A) : M S A :=
  fun s =>
    match m (get s) with
    | (r, t, o) => (r, set t s, o)
    end.

(** [for x in xs: results.append(body(x))], the elements being receivers of
    [body]: the calls are made first to last; when one raises, the loop stops
    and the later elements are left as they were. *)
Fixpoint for_each {T A} (body : M T A) (xs : list T) : outcome (list A) * list T * list output :=
  match xs with
  | [] => (Returned [], [], [])
  | x :: rest =>
      match body x with
      | (Raised e, x1, o1) => (Raised e, x1 :: rest, o1)
      | (Returned a, x1, o1) =>
          match for_each body rest with
          | (Returned results, rest1, o2) => (Returned (a :: results), x1 :: rest1, o1 ++ o2)
          | (Raised e, rest1, o2) => (Raised e, x1 :: rest1, o1 ++ o2)
          end
      end
  end.

(** Projections of a finished call. *)
Definition result_of {A S} (r : outcome A * S * list output) : outcome A := fst (fst r).
Definition state_of {A S} (r : outcome A * S * list output) : S := snd (fst r).
Definition output_of {A S} (r : outcome A * S * list output) : list output := snd r.

(** ** The process environment: what the operating system answers

    One environment is the moment of one call: every reading of the clock
    made during the call gets the same answer. *)

Record Env : Type := {
  (** [os.getcwd()] *)
  cwd : string;
  (** [time.time()], in seconds *)
  now : Z;
  (** [datetime.now().strftime(format)] *)
  strftime : string -> string
}.

(** ** [os.path] on POSIX *)

Module PosixPath.

Definition sep : string := "/".

(** [os.path.isabs] *)
Definition isabs (path : string) : bool := PyString.startswith path sep.

(** [os.path.join(a, b)] *)
Definition join (a b : string) : string :=
  if PyString.startswith b sep then b
  else if String.eqb a "" || PyString.endswith_char a PyString.slash then a +:+ b
  else a +:+ sep +:+ b.

(** One round of the component loop of [normpath]. *)
Definition normpath_step (initial_slashes : nat) (new_comps : list string) (comp : string)
  : list string :=
  if String.eqb comp "" || String.eqb comp "." then new_comps
  else if negb (String.eqb comp "..")
          || (Nat.eqb initial_slashes 0 && bool_decide (new_comps = []))
          || match last new_comps with
             | Some top => String.eqb top ".."
             | None => false
             end
       then new_comps ++ [comp]
       else removelast new_comps.

(** [os.path.normpath] *)
Definition normpath (path : string) : string :=
  if String.eqb path "" then "."
  else
    let initial_slashes : nat :=
      if PyString.startswith path sep then
        if PyString.startswith path (PyString.times sep 2)
           && negb (PyString.startswith path (PyString.times sep 3))
        then 2%nat else 1%nat
      else 0%nat in
    let comps := PyString.split PyString.slash path in
    let new_comps := fold_left (normpath_step initial_slashes) comps [] in
    let path := PyString.join sep new_comps in
    let path := PyString.times sep initial_slashes +:+ path in
    if String.eqb path "" then "." else path.

(** [os.path.abspath], in a process that has a working directory: where
    the directory has been removed, [os.getcwd()] raises for a relative
    path, a case the environment does not have. *)
Definition abspath (env : Env) (path : string) : string :=
  let path := if isabs path then path else join (cwd env) path in
  normpath path.

End PosixPath.

(** ** [davidai/utils/file_utils.py] *)

Module FileUtils.

(** [logger = logging.getLogger(__name__)] *)
Definition logger : string := "davidai.utils.file_utils".

Record PathGuard : Type := { allowed_root : string }.

(** [PathGuard.__init__] *)
Definition PathGuard_new {S} (env : Env) (root : string) : M S PathGuard :=
  let self := {| allowed_root := PosixPath.abspath env root |} in
  emit (Log logger INFO ("PathGuard initialized. Allowed root: " +:+ allowed_root self)) ;;;
  ret self.

(** [PathGuard.is_safe_path] *)
Definition is_safe_path (env : Env) (path : string) : M PathGuard bool :=
  let abs_path := PosixPath.abspath env path in
  root <~ gets allowed_root ;;
  if PyString.startswith abs_path root then ret true
  else
    emit (Log logger WARNING ("PathGuard blocked access to: " +:+ abs_path)) ;;;
    ret false.

(** The attributes of [ProjectStructure]; its directory scan reads the
    file system and is outside this development. *)
Record ProjectStructure : Type := {
  root_path : string;
  path_guard : PathGuard;
  file_map : list (string * string)
}.

(** [ProjectStructure.__init__] *)
Definition ProjectStructure_new (root_path : string) (path_guard : PathGuard)
  : ProjectStructure :=
  {| root_path := root_path; path_guard := path_guard; file_map := [] |}.

End FileUtils.

(** ** [davidai/core/loader.py] *)

Module Loader.

Definition logger : string := "davidai.core.loader".

(** [class ModelInterface(ABC)]: an object is the table of its two
    methods.  The models of the repository keep no attributes, so a method
    has no receiver state; the [**kwargs] of [generate] are passed by no
    caller. *)
Record ModelInterface : Type := {
  generate : string -> M unit string;
  load : M unit unit
}.

(** Call a method of a model object from a method of another object. *)
Definition call {S A} (m : M unit A) : M S A :=
  zoom (fun _ => tt) (fun _ s => s) m.

(** [class DummyModel(ModelInterface)] *)
Definition DummyModel : ModelInterface := {|
  generate prompt :=
    emit (Log logger INFO
            ("DummyModel generating response for prompt: "
             +:+ PyString.take 50 prompt +:+ "...")) ;;;
    ret ("[Dummy Response] Processed: " +:+ prompt);
  load := emit (Log logger INFO "DummyModel loaded.")
|}.

Record DavidAIModelManager : Type := {
  models : gmap string ModelInterface;
  gpu_vram_available : Z;
  ram_available : Z
}.

(** [DavidAIModelManager.__init__] *)
Definition DavidAIModelManager_new : DavidAIModelManager :=
  {| models := ∅; gpu_vram_available := 12; ram_available := 32 |}.

(** [self.models[name] = model] *)
Definition set_model (name : string) (model : ModelInterface)
    (self : DavidAIModelManager) : DavidAIModelManager :=
  {| models := <[name := model]> (models self);
     gpu_vram_available := gpu_vram_available self;
     ram_available := ram_available self |}.

(** [DavidAIModelManager.register_model] *)
Definition register_model (name : string) (model : ModelInterface)
  : M DavidAIModelManager unit :=
  modify (set_model name model) ;;;
  emit (Log logger INFO ("Model registered: " +:+ name)).

(** [DavidAIModelManager.get_model]: [self.models.get(name, DummyModel())],
    a dictionary read with a default, which neither raises nor writes. *)
Definition get_model (self : DavidAIModelManager) (name : string) : ModelInterface :=
  default DummyModel (models self !! name).

(** The body of [for i in range(1, 7)] in [load_all]. *)
Definition load_ant_model (i : Z) : M DavidAIModelManager unit :=
  let ant_model := DummyModel in
  call (load ant_model) ;;;
  register_model ("ANT" +:+ Py.str (PInt i)) ant_model.

(** [DavidAIModelManager.load_all] *)
Definition load_all : M DavidAIModelManager unit :=
  emit (Log logger INFO "Initializing DavidAI Core Models...") ;;;
  (let ceo_model := DummyModel in
   call (load ceo_model) ;;;
   register_model "CEO" ceo_model) ;;;
  (let manager_model := DummyModel in
   call (load manager_model) ;;;
   register_model "Manager" manager_model) ;;;
  load_ant_model 1 ;;; load_ant_model 2 ;;; load_ant_model 3 ;;;
  load_ant_model 4 ;;; load_ant_model 5 ;;; load_ant_model 6 ;;;
  emit (Log logger INFO "All models initialized.").

(** [DavidAIModelManager.get_status] *)
Definition get_status : M DavidAIModelManager pydict :=
  self <~ gets (fun self => self) ;;
  ret [("models_loaded", PInt (Z.of_nat (size (models self))));
       ("gpu_vram_gb", PInt (gpu_vram_available self));
       ("ram_gb", PInt (ram_available self))].

End Loader.

(** ** [davidai/core/agents.py] *)

Module Agents.

Import Loader.

Definition logger : string := "davidai.core.agents".

Definition newline : string := String (ascii_of_nat 10) EmptyString.

(** The attributes every agent has.  [self.model_manager] is a reference
    to the manager shared by the whole system, which lives in the [DavidAI]
    record; no agent reads it after its constructor. *)
Record BaseAgent : Type := {
  name : string;
  model : ModelInterface;
  is_active : bool;
  stats : pydict
}.

(** [BaseAgent.__init__] *)
Definition BaseAgent_new (name : string) (model_manager : DavidAIModelManager) : BaseAgent :=
  {| name := name;
     model := get_model model_manager name;
     is_active := false;
     stats := [("tasks_completed", PInt 0); ("errors", PInt 0)] |}.

Definition set_is_active (b : bool) (self : BaseAgent) : BaseAgent :=
  {| name := name self; model := model self; is_active := b; stats := stats self |}.

(** A class derived from [BaseAgent]: where its [BaseAgent] attributes
    are, and its [execute]. *)
Class Agent (Self : Type) : Type := {
  base : Self -> BaseAgent;
  with_base : BaseAgent -> Self -> Self;
  execute : pydict -> M Self pydict
}.

(** [BaseAgent.run], inherited by every agent class. *)
Definition run {Self} `{Agent Self} (task : pydict) : M Self pydict :=
  self_name <~ gets (fun self => name (base self)) ;;
  emit (Log logger INFO
          (self_name +:+ " executing task: " +:+ Py.str (Py.get "type" task))) ;;;
  modify (fun self => with_base (set_is_active true (base self)) self) ;;;
  result <~ execute task ;;
  modify (fun self => with_base (set_is_active false (base self)) self) ;;;
  ret result.

(** [BaseAgent.execute] *)
#[export] Instance BaseAgent_Agent : Agent BaseAgent := {|
  base self := self;
  with_base b _ := b;
  execute _ := raise (NotImplementedError "Subclasses must implement this")
|}.

(** *** [class CEO(BaseAgent)] *)

Record CEO : Type := { ceo_base : BaseAgent }.

(** [CEO.__init__] *)
Definition CEO_new (model_manager : DavidAIModelManager) : CEO :=
  {| ceo_base := BaseAgent_new "CEO" model_manager |}.

(** [CEO.execute] *)
Definition CEO_execute (task : pydict) : M CEO pydict :=
  let prompt :=
    newline +:+
    "        Role: Chief Architect for DavidAI." +:+ newline +:+
    "        Task: " +:+ Py.str (Py.get "description" task) +:+ newline +:+
    "        Context: Recursive code generation ecosystem." +:+ newline +:+
    "        Output: Structured architecture plan." +:+ newline +:+
    "        " in
  self <~ gets ceo_base ;;
  response <~ call (generate (model self) prompt) ;;
  ret [("agent", PStr (name self));
       ("status", PStr "completed");
       ("output", PStr response);
       ("type", PStr "architecture_plan")].

#[export] Instance CEO_Agent : Agent CEO := {|
  base := ceo_base;
  with_base b _ := {| ceo_base := b |};
  execute := CEO_execute
|}.

(** *** [class ANT(BaseAgent)] *)

Record ANT : Type := {
  ant_base : BaseAgent;
  role_id : Z;
  specialty : string
}.

(** [ANT.__init__] *)
Definition ANT_new (role_id : Z) (name : string) (model_manager : DavidAIModelManager) : ANT :=
  {| ant_base :=
       BaseAgent_new ("ANT" +:+ Py.str (PInt role_id) +:+ "_" +:+ name) model_manager;
     role_id := role_id;
     specialty := name |}.

(** [ANT.execute] *)
Definition ANT_execute (task : pydict) : M ANT pydict :=
  self <~ gets (fun self => self) ;;
  emit (Log logger INFO
          (name (ant_base self) +:+ " executing specialty: " +:+ specialty self)) ;;;
  ret [("agent", PStr (name (ant_base self)));
       ("specialty", PStr (specialty self));
       ("status", PStr "done");
       ("output", PStr ("Processed " +:+ Py.str (Py.get "type" task)
                        +:+ " by " +:+ name (ant_base self)))].

#[export] Instance ANT_Agent : Agent ANT := {|
  base := ant_base;
  with_base b self :=
    {| ant_base := b; role_id := role_id self; specialty := specialty self |};
  execute := ANT_execute
|}.

(** *** [class Manager(BaseAgent)] *)

Record Manager : Type := {
  manager_base : BaseAgent;
  ants : list ANT
}.

(** [Manager.__init__] *)
Definition Manager_new (model_manager : DavidAIModelManager) : Manager :=
  {| manager_base := BaseAgent_new "Manager" model_manager; ants := [] |}.

Definition set_ants (workers : list ANT) (self : Manager) : Manager :=
  {| manager_base := manager_base self; ants := workers |}.

(** [Manager.register_ants] *)
Definition register_ants (workers : list ANT) : M Manager unit :=
  modify (set_ants workers).

(** [Manager._assign_task] *)
Definition _assign_task (task : pydict) : M Manager pydict :=
  self_name <~ gets (fun self => name (manager_base self)) ;;
  emit (Log logger INFO (self_name +:+ " assigning task to ANTS...")) ;;;
  results <~ zoom ants set_ants (for_each (run task)) ;;
  ret [("agent", PStr self_name);
       ("status", PStr "distributed");
       ("results", PList (map PDict results))].

(** [Manager._integrate_feedback] *)
Definition _integrate_feedback (task : pydict) : M Manager pydict :=
  self_name <~ gets (fun self => name (manager_base self)) ;;
  emit (Log logger INFO (self_name +:+ " integrating feedback...")) ;;;
  ret [("status", PStr "feedback_integrated")].

(** [Manager.execute] *)
Definition Manager_execute (task : pydict) : M Manager pydict :=
  let task_type := Py.get "type" task in
  if Py.eq_str task_type "assign_task" then _assign_task task
  else if Py.eq_str task_type "integrate_feedback" then _integrate_feedback task
  else ret [("error", PStr "Unknown task type")].

#[export] Instance Manager_Agent : Agent Manager := {|
  base := manager_base;
  with_base b self := {| manager_base := b; ants := ants self |};
  execute := Manager_execute
|}.

(** *** [class KnowledgeCurator] *)

Record KnowledgeCurator : Type := {
  ledger_path : string;
  ledger : list pydict
}.

(** [KnowledgeCurator.__init__] *)
Definition KnowledgeCurator_new (ledger_path : string) : KnowledgeCurator :=
  {| ledger_path := ledger_path; ledger := [] |}.

(** [KnowledgeCurator.log_success] *)
Definition log_success (patch_data : pydict) : M KnowledgeCurator unit :=
  emit (Log logger INFO ("Curator logging success: " +:+ Py.str (PDict patch_data))) ;;;
  modify (fun self =>
    {| ledger_path := ledger_path self; ledger := ledger self ++ [patch_data] |}).

(** [KnowledgeCurator.get_consolidated_knowledge] *)
Definition get_consolidated_knowledge : M KnowledgeCurator (list pydict) :=
  gets ledger.

End Agents.

(** ** [davidai/ui/command_center.py] *)

Module CommandCenter.

Definition logger : string := "DavidAI-UI".

Record Dashboard : Type := {
  is_running : bool;
  metrics : pydict;
  logs : list string
}.

(** [Dashboard.__init__] *)
Definition Dashboard_new : Dashboard :=
  {| is_running := false;
     metrics := [("gpu_vram", PStr "0 / 12 GB");
                 ("cpu_load", PStr "0%");
                 ("active_agents", PInt 0);
                 ("tasks_completed", PInt 0);
                 ("errors", PInt 0)];
     logs := [] |}.

Definition set_is_running (b : bool) (self : Dashboard) : Dashboard :=
  {| is_running := b; metrics := metrics self; logs := logs self |}.

Definition set_logs (l : list string) (self : Dashboard) : Dashboard :=
  {| is_running := is_running self; metrics := metrics self; logs := l |}.

(** [Dashboard.log_message] *)
Definition log_message (env : Env) (source message : string) : M Dashboard unit :=
  let timestamp := strftime env "%H:%M:%S" in
  let formatted := "[" +:+ timestamp +:+ "] [" +:+ source +:+ "] " +:+ message in
  modify (fun self => set_logs (logs self ++ [formatted]) self) ;;;
  modify (fun self =>
    if (50 <? length (logs self))%nat then set_logs (tail (logs self)) self else self) ;;;
  print formatted.

(** [Dashboard.update_metrics] *)
Definition update_metrics (new_metrics : pydict) : M Dashboard unit :=
  modify (fun self =>
    {| is_running := is_running self;
       metrics := Py.update new_metrics (metrics self);
       logs := logs self |}).

(** [for log in self.logs[-10:]: print(f"  {log}")] *)
Fixpoint print_logs {S} (lines : list string) : M S unit :=
  match lines with
  | [] => ret tt
  | line :: rest => print ("  " +:+ line) ;;; print_logs rest
  end.

(** [Dashboard.render], as sequential code: both readings of
    [self.is_running] find the same flag.  [Interleaving.render_between]
    has the call with the writes of other threads between the two. *)
Definition render (env : Env) : M Dashboard unit :=
  self <~ gets (fun self => self) ;;
  if negb (is_running self) then ret tt
  else
    emit (Print (String (ascii_of_nat 27) "[H") "") ;;;
    print (PyString.times "=" 60) ;;;
    print (" DAVIDAI COMMAND CENTER - " +:+ strftime env "%Y-%m-%d %H:%M:%S" +:+ " ") ;;;
    print (PyString.times "=" 60) ;;;
    print (" [SYSTEM STATUS] " +:+ (if is_running self then "RUNNING" else "PAUSED")) ;;;
    print (PyString.times "-" 60) ;;;
    print " [METRICS]" ;;;
    print ("  GPU VRAM: " +:+ Py.str (Py.get_default "gpu_vram" (PStr "N/A") (metrics self))) ;;;
    print ("  CPU Load: " +:+ Py.str (Py.get_default "cpu_load" (PStr "N/A") (metrics self))) ;;;
    print ("  Active Agents: "
           +:+ Py.str (Py.get_default "active_agents" (PInt 0) (metrics self))) ;;;
    print ("  Tasks Completed: "
           +:+ Py.str (Py.get_default "tasks_completed" (PInt 0) (metrics self))) ;;;
    print ("  Errors: " +:+ Py.str (Py.get_default "errors" (PInt 0) (metrics self))) ;;;
    print (PyString.times "-" 60) ;;;
    print " [RECENT LOGS]" ;;;
    print_logs (skipn (length (logs self) - 10) (logs self)) ;;;
    print (PyString.times "=" 60).

(** [Dashboard.stop] *)
Definition stop : M Dashboard unit :=
  modify (set_is_running false) ;;;
  emit (Log logger INFO "Dashboard stopped.").

(** Where a thread running [Dashboard.start] is: not yet begun, at the
    test of the [while] of [render_loop], or returned. *)
Inductive DashboardThread : Type := DashNew | DashLoop | DashDone.

(** One scheduling step of [Dashboard.start]: the statements before the
    loop, or one test of [while self.is_running] with the body it guards
    ([self.render()], then a sleep). *)
Definition start_step (env : Env) (pc : DashboardThread) : M Dashboard DashboardThread :=
  match pc with
  | DashNew =>
      modify (set_is_running true) ;;;
      emit (Log logger INFO "Dashboard started.") ;;;
      ret DashLoop
  | DashLoop =>
      running <~ gets is_running ;;
      if running then render env ;;; ret DashLoop
      else ret DashDone
  | DashDone => ret DashDone
  end.

End CommandCenter.

(** ** [davidai/core/orchestrator.py] *)

Module Orchestrator.

Import Loader Agents.

Definition logger : string := "davidai.core.orchestrator".

(** The attributes of [DavidAI].  [self.ants] and [self.manager.ants] are
    one list object ([register_ants] stores the reference), so the workers
    are kept once, in the manager.  The two thread attributes hold the
    identifiers of the threads started last.  [self.interface], the
    interactive shell, holds no state of its own and has no field here:
    its methods are in [Shell], on the process. *)
Record DavidAI : Type := {
  workspace_root : string;
  is_running : bool;
  is_paused : bool;
  model_manager : DavidAIModelManager;
  path_guard : FileUtils.PathGuard;
  project_structure : FileUtils.ProjectStructure;
  ceo : CEO;
  manager : Manager;
  knowledge_curator : KnowledgeCurator;
  dashboard : CommandCenter.Dashboard;
  dashboard_thread : option nat;
  main_loop_thread : option nat
}.

(** [self.ants] *)
Definition ants (self : DavidAI) : list ANT := Agents.ants (manager self).

Definition set_is_running (b : bool) (self : DavidAI) : DavidAI :=
  {| workspace_root := workspace_root self; is_running := b; is_paused := is_paused self;
     model_manager := model_manager self; path_guard := path_guard self;
     project_structure := project_structure self; ceo := ceo self;
     manager := manager self; knowledge_curator := knowledge_curator self;
     dashboard := dashboard self; dashboard_thread := dashboard_thread self;
     main_loop_thread := main_loop_thread self |}.

Definition set_is_paused (b : bool) (self : DavidAI) : DavidAI :=
  {| workspace_root := workspace_root self; is_running := is_running self; is_paused := b;
     model_manager := model_manager self; path_guard := path_guard self;
     project_structure := project_structure self; ceo := ceo self;
     manager := manager self; knowledge_curator := knowledge_curator self;
     dashboard := dashboard self; dashboard_thread := dashboard_thread self;
     main_loop_thread := main_loop_thread self |}.

Definition set_ceo (c : CEO) (self : DavidAI) : DavidAI :=
  {| workspace_root := workspace_root self; is_running := is_running self;
     is_paused := is_paused self;
     model_manager := model_manager self; path_guard := path_guard self;
     project_structure := project_structure self; ceo := c;
     manager := manager self; knowledge_curator := knowledge_curator self;
     dashboard := dashboard self; dashboard_thread := dashboard_thread self;
     main_loop_thread := main_loop_thread self |}.

Definition set_manager (m : Manager) (self : DavidAI) : DavidAI :=
  {| workspace_root := workspace_root self; is_running := is_running self;
     is_paused := is_paused self;
     model_manager := model_manager self; path_guard := path_guard self;
     project_structure := project_structure self; ceo := ceo self;
     manager := m; knowledge_curator := knowledge_curator self;
     dashboard := dashboard self; dashboard_thread := dashboard_thread self;
     main_loop_thread := main_loop_thread self |}.

Definition set_knowledge_curator (k : KnowledgeCurator) (self : DavidAI) : DavidAI :=
  {| workspace_root := workspace_root self; is_running := is_running self;
     is_paused := is_paused self;
     model_manager := model_manager self; path_guard := path_guard self;
     project_structure := project_structure self; ceo := ceo self;
     manager := manager self; knowledge_curator := k;
     dashboard := dashboard self; dashboard_thread := dashboard_thread self;
     main_loop_thread := main_loop_thread self |}.

Definition set_dashboard (d : CommandCenter.Dashboard) (self : DavidAI) : DavidAI :=
  {| workspace_root := workspace_root self; is_running := is_running self;
     is_paused := is_paused self;
     model_manager := model_manager self; path_guard := path_guard self;
     project_structure := project_structure self; ceo := ceo self;
     manager := manager self; knowledge_curator := knowledge_curator self;
     dashboard := d; dashboard_thread := dashboard_thread self;
     main_loop_thread := main_loop_thread self |}.

Definition set_dashboard_thread (t : option nat) (self : DavidAI) : DavidAI :=
  {| workspace_root := workspace_root self; is_running := is_running self;
     is_paused := is_paused self;
     model_manager := model_manager self; path_guard := path_guard self;
     project_structure := project_structure self; ceo := ceo self;
     manager := manager self; knowledge_curator := knowledge_curator self;
     dashboard := dashboard self; dashboard_thread := t;
     main_loop_thread := main_loop_thread self |}.

Definition set_main_loop_thread (t : option nat) (self : DavidAI) : DavidAI :=
  {| workspace_root := workspace_root self; is_running := is_running self;
     is_paused := is_paused self;
     model_manager := model_manager self; path_guard := path_guard self;
     project_structure := project_structure self; ceo := ceo self;
     manager := manager self; knowledge_curator := knowledge_curator self;
     dashboard := dashboard self; dashboard_thread := dashboard_thread self;
     main_loop_thread := t |}.

(** A method of [self.dashboard], called from a method of [DavidAI]. *)
Definition on_dashboard {A} (m : M CommandCenter.Dashboard A) : M DavidAI A :=
  zoom dashboard set_dashboard m.

(** The six workers of [ant_roles], in the order of the list. *)
Definition ant_roles : list (Z * string) :=
  [(1, "Boilerplate"); (2, "LogicStubs"); (3, "DebugPatch");
   (4, "AutoTest"); (5, "Docs"); (6, "DeepLogic")].

(** [DavidAI.__init__] *)
Definition DavidAI_new {S} (env : Env) (workspace_root : string) : M S DavidAI :=
  emit (Log logger INFO "Initializing DavidAI components...") ;;;
  let model_manager := DavidAIModelManager_new in
  path_guard <~ FileUtils.PathGuard_new env workspace_root ;;
  let project_structure := FileUtils.ProjectStructure_new workspace_root path_guard in
  loaded <~ on_object model_manager load_all ;;
  let model_manager := snd loaded in
  let ceo := CEO_new model_manager in
  let manager := Manager_new model_manager in
  let knowledge_curator := KnowledgeCurator_new "global_ledger.json" in
  let workers := map (fun role => ANT_new (fst role) (snd role) model_manager) ant_roles in
  registered <~ on_object manager (register_ants workers) ;;
  let manager := snd registered in
  let dashboard := CommandCenter.Dashboard_new in
  emit (Log logger INFO "DavidAI initialized successfully.") ;;;
  ret {| workspace_root := workspace_root;
         is_running := false;
         is_paused := false;
         model_manager := model_manager;
         path_guard := path_guard;
         project_structure := project_structure;
         ceo := ceo;
         manager := manager;
         knowledge_curator := knowledge_curator;
         dashboard := dashboard;
         dashboard_thread := None;
         main_loop_thread := None |}.

(** The default of the [workspace_root] argument. *)
Definition default_workspace_root : string := "/home/engine/project".

(** [DavidAI.pause_cycle] *)
Definition pause_cycle (env : Env) : M DavidAI unit :=
  modify (fun self => set_is_paused (negb (is_paused self)) self) ;;;
  paused <~ gets is_paused ;;
  let status := if paused then "Paused" else "Resumed" in
  on_dashboard (CommandCenter.log_message env "SYSTEM" ("Cycle " +:+ status +:+ ".")) ;;;
  paused <~ gets is_paused ;;
  on_dashboard (modify (CommandCenter.set_is_running (negb paused))).

(** [DavidAI.shutdown] *)
Definition shutdown : M DavidAI unit :=
  modify (set_is_running false) ;;;
  on_dashboard CommandCenter.stop ;;;
  emit (Log logger INFO "DavidAI shutting down.").

(** [DavidAI._simulate_work] *)
Definition _simulate_work (env : Env) : M DavidAI unit :=
  on_dashboard (CommandCenter.update_metrics
                  [("active_agents", PInt 6); ("tasks_completed", PInt 10)]) ;;;
  plan <~ zoom ceo set_ceo
            (run [("type", PStr "plan"); ("description", PStr "New coding task")]) ;;
  on_dashboard (CommandCenter.log_message env "CEO" "Architecture planned.") ;;;
  let task := [("type", PStr "assign_task"); ("description", PStr "Implement feature X")] in
  results <~ zoom manager set_manager (run task) ;;
  on_dashboard (CommandCenter.log_message env "Manager" "Tasks assigned to ANTS.") ;;;
  zoom knowledge_curator set_knowledge_curator
    (log_success [("task", PStr "simulated_task"); ("success", PBool true)]).

(** [cycle_duration = 12 * 60 * 60] *)
Definition cycle_duration : Z := 12 * 60 * 60.

(** Where a thread running [DavidAI._run_cycle] is: not yet begun, at the
    test of its [while] with the [start_time] it read, or finished. *)
Inductive CycleThread : Type :=
| CycleNew
| CycleLoop (start_time : Z)
| CycleDone.

(** One scheduling step of [_run_cycle]: the two assignments before the
    loop, or one test of [while self.is_running] together with the
    iteration it guards (the sleeps change no state).  This is the pass as
    sequential code; [Interleaving.cycle_statement] has the same thread
    statement by statement. *)
Definition _run_cycle_step (env : Env) (pc : CycleThread) : M DavidAI CycleThread :=
  match pc with
  | CycleNew => ret (CycleLoop (now env))
  | CycleLoop start_time =>
      running <~ gets is_running ;;
      if negb running then ret CycleDone
      else
        paused <~ gets is_paused ;;
        if paused then ret (CycleLoop start_time)
        else if now env - start_time >? cycle_duration then
          on_dashboard (CommandCenter.log_message env "SYSTEM" "Cycle complete.") ;;;
          shutdown ;;;
          ret CycleDone
        else
          _simulate_work env ;;;
          ret (CycleLoop start_time)
  | CycleDone => ret CycleDone
  end.

(** [DavidAI.get_status] *)
Definition get_status : M DavidAI pydict :=
  self <~ gets (fun self => self) ;;
  knowledge <~ zoom knowledge_curator set_knowledge_curator get_consolidated_knowledge ;;
  ret [("running", PBool (is_running self));
       ("paused", PBool (is_paused self));
       ("agents_active",
        PInt (Z.of_nat (length (List.filter (fun ant => is_active (ant_base ant)) (ants self)))));
       ("knowledge_base_size", PInt (Z.of_nat (length knowledge)))].

(** *** The process: the [DavidAI] object and the threads it has started *)

(** A started thread, by its target: [self.dashboard.start] or
    [self._run_cycle]. *)
Inductive Thread : Type :=
| DashboardThread (pc : CommandCenter.DashboardThread)
| MainLoopThread (pc : CycleThread).

Record World : Type := {
  system : DavidAI;
  threads : list Thread
}.

Definition set_system (d : DavidAI) (w : World) : World :=
  {| system := d; threads := threads w |}.

Definition set_threads (ts : list Thread) (w : World) : World :=
  {| system := system w; threads := ts |}.

(** A method of the [DavidAI] object, run in the process. *)
Definition on_system {A} (m : M DavidAI A) : M World A :=
  zoom system set_system m.

(** [threading.Thread(target=...)] followed by [.start()]: the new thread is
    added to the threads of the process; its position identifies it. *)
Definition spawn (t : Thread) : M World nat :=
  tid <~ gets (fun w => length (threads w)) ;;
  modify (fun w => set_threads (threads w ++ [t]) w) ;;;
  ret tid.

(** [DavidAI.start_cycle] *)
Definition start_cycle (env : Env) : M World unit :=
  running <~ gets (fun w => is_running (system w)) ;;
  if running then ret tt
  else
    on_system (modify (set_is_running true)) ;;;
    on_system (on_dashboard
      (CommandCenter.log_message env "SYSTEM" "Starting autonomous cycle...")) ;;;
    tid <~ spawn (DashboardThread CommandCenter.DashNew) ;;
    on_system (modify (set_dashboard_thread (Some tid))) ;;;
    tid <~ spawn (MainLoopThread CycleNew) ;;
    on_system (modify (set_main_loop_thread (Some tid))).

(** One scheduling step of a thread, on the object it works on. *)
Definition thread_step (env : Env) (t : Thread) : M DavidAI Thread :=
  match t with
  | DashboardThread pc =>
      pc1 <~ on_dashboard (CommandCenter.start_step env pc) ;;
      ret (DashboardThread pc1)
  | MainLoopThread pc =>
      pc1 <~ _run_cycle_step env pc ;;
      ret (MainLoopThread pc1)
  end.

(** A thread whose target has returned, or died of an exception. *)
Definition finished (t : Thread) : Thread :=
  match t with
  | DashboardThread _ => DashboardThread CommandCenter.DashDone
  | MainLoopThread _ => MainLoopThread CycleDone
  end.

(** The scheduler lets thread [tid] make one step.  An exception ends that
    thread only; an identifier that names no thread does nothing. *)
Definition tick (env : Env) (tid : nat) : M World unit :=
  fun w =>
    match threads w !! tid with
    | None => (Returned tt, w, [])
    | Some t =>
        match thread_step env t (system w) with
        | (Returned t1, d, o) =>
            (Returned tt, {| system := d; threads := <[tid := t1]> (threads w) |}, o)
        | (Raised _, d, o) =>
            (Returned tt, {| system := d; threads := <[tid := finished t]> (threads w) |}, o)
        end
    end.

(** What can happen to the process next: one of the control calls of the
    operator, or a step of one of the threads. *)
Inductive Call : Type :=
| Start
| Pause
| Shutdown
| GetStatus
| Tick (tid : nat).

Definition perform (env : Env) (c : Call) : M World unit :=
  match c with
  | Start => start_cycle env
  | Pause => on_system (pause_cycle env)
  | Shutdown => on_system shutdown
  | GetStatus => on_system get_status ;;; ret tt
  | Tick tid => tick env tid
  end.

(** A history: calls made one after the other, each at its own moment. *)
Fixpoint perform_all (history : list (Env * Call)) : M World unit :=
  match history with
  | [] => ret tt
  | (env, c) :: rest => perform env c ;;; perform_all rest
  end.

(** The process just after [DavidAI(workspace_root)]: no thread started. *)
Definition boot {S} (env : Env) (workspace_root : string) : M S World :=
  d <~ DavidAI_new env workspace_root ;;
  ret {| system := d; threads := [] |}.

(** The records the agents module logs: one opens every [BaseAgent.run],
    every [execute] of a worker and every [log_success]. *)
Definition agent_record (o : output) : bool :=
  match o with
  | Log name _ _ => String.eqb name Agents.logger
  | Print _ _ => false
  end.

(** What the agents did during a call, read off its output. *)
Definition agent_activity (o : list output) : list output := List.filter agent_record o.

End Orchestrator.

(** ** Histories of the knowledge ledger *)

Module LedgerHistory.

Import Agents.

(** The two operations of [KnowledgeCurator]. *)
Inductive LedgerCall : Type :=
| LogSuccess (patch_data : pydict)
| GetConsolidatedKnowledge.

(** One call; a read answers with the list it returns. *)
Definition ledger_call (c : LedgerCall) : M KnowledgeCurator (option (list pydict)) :=
  match c with
  | LogSuccess patch_data => log_success patch_data ;;; ret None
  | GetConsolidatedKnowledge =>
      knowledge <~ get_consolidated_knowledge ;; ret (Some knowledge)
  end.

(** Calls made one after the other. *)
Fixpoint ledger_calls (history : list LedgerCall) : M KnowledgeCurator unit :=
  match history with
  | [] => ret tt
  | c :: rest => ledger_call c ;;; ledger_calls rest
  end.

Definition is_log_success (c : LedgerCall) : bool :=
  match c with
  | LogSuccess _ => true
  | GetConsolidatedKnowledge => false
  end.

(** The entries handed to [log_success] in a history, in call order. *)
Fixpoint logged (history : list LedgerCall) : list pydict :=
  match history with
  | [] => []
  | LogSuccess patch_data :: rest => patch_data :: logged rest
  | GetConsolidatedKnowledge :: rest => logged rest
  end.

End LedgerHistory.

(** ** [PathGuard.safe_read] and [PathGuard.safe_write] *)

Module FileAccess.

Import FileUtils.

(** The calls the two methods make to the operating system.  What a call
    does is the file system's business; a call either succeeds or raises,
    and then the text of the exception is what the method logs. *)
Class FileSystem (FS : Type) : Type := {
  (** [open(path, 'r')] followed by [f.read()] *)
  read_text : string -> FS -> string + string;
  (** [os.makedirs(directory, exist_ok=True)]: the file system it leaves,
      and the exception if it raised *)
  makedirs : string -> FS -> FS * option string;
  (** [open(path, 'w')] followed by [f.write(content)] *)
  write_text : string -> string -> FS -> FS * option string
}.

(** [p[:p.rfind('/') + 1]]: the text up to the last slash, the slash
    included; empty when there is none. *)
Fixpoint upto_last_slash (p : string) : string :=
  match p with
  | EmptyString => EmptyString
  | String c rest =>
      if Ascii.eqb c PyString.slash || PyString.contains_char rest PyString.slash
      then String c (upto_last_slash rest)
      else EmptyString
  end.

(** [s.rstrip('/')] *)
Fixpoint rstrip_slash (s : string) : string :=
  match s with
  | EmptyString => EmptyString
  | String c rest =>
      match rstrip_slash rest with
      | EmptyString => if Ascii.eqb c PyString.slash then EmptyString else String c EmptyString
      | stripped => String c stripped
      end
  end.

(** [os.path.dirname] *)
Definition dirname (p : string) : string :=
  let head := upto_last_slash p in
  if negb (String.eqb head "")
     && negb (String.eqb head (PyString.times "/" (String.length head)))
  then rstrip_slash head
  else head.

(** [PathGuard.safe_read] *)
Definition safe_read {FS} `{FileSystem FS} (env : Env) (self : PathGuard) (path : string)
  : M FS (option string) :=
  safe <~ on_object self (is_safe_path env path) ;;
  if fst safe then
    fs <~ gets (fun fs => fs) ;;
    match read_text path fs with
    | inl content => ret (Some content)
    | inr e =>
        emit (Log logger ERROR ("Error reading file " +:+ path +:+ ": " +:+ e)) ;;;
        ret None
    end
  else ret None.

(** [PathGuard.safe_write] *)
Definition safe_write {FS} `{FileSystem FS} (env : Env) (self : PathGuard)
    (path content : string) : M FS bool :=
  safe <~ on_object self (is_safe_path env path) ;;
  if fst safe then
    fs <~ gets (fun fs => fs) ;;
    match makedirs (dirname path) fs with
    | (fs1, Some e) =>
        modify (fun _ => fs1) ;;;
        emit (Log logger ERROR ("Error writing file " +:+ path +:+ ": " +:+ e)) ;;;
        ret false
    | (fs1, None) =>
        match write_text path content fs1 with
        | (fs2, Some e) =>
            modify (fun _ => fs2) ;;;
            emit (Log logger ERROR ("Error writing file " +:+ path +:+ ": " +:+ e)) ;;;
            ret false
        | (fs2, None) =>
            modify (fun _ => fs2) ;;;
            ret true
        end
    end
  else ret false.

End FileAccess.

(** ** Histories of the dashboard log *)

Module DashboardHistory.

Import CommandCenter.

(** A message to log: the moment, the source and the text. *)
Definition Message : Type := (Env * string * string)%type.

(** The line [log_message] makes of a message. *)
Definition formatted (m : Message) : string :=
  "[" +:+ strftime (fst (fst m)) "%H:%M:%S" +:+ "] [" +:+ snd (fst m) +:+ "] " +:+ snd m.

(** [log_message] called for one message after the other. *)
Fixpoint log_messages (messages : list Message) : M Dashboard unit :=
  match messages with
  | [] => ret tt
  | m :: rest => log_message (fst (fst m)) (snd (fst m)) (snd m) ;;; log_messages rest
  end.

End DashboardHistory.

(** ** The prompt of the planner and the tasks of the cycle *)

Module Planner.

(** The text [CEO.execute] hands to its model for a task. *)
Definition prompt (task : pydict) : string :=
  Agents.newline +:+
  "        Role: Chief Architect for DavidAI." +:+ Agents.newline +:+
  "        Task: " +:+ Py.str (Py.get "description" task) +:+ Agents.newline +:+
  "        Context: Recursive code generation ecosystem." +:+ Agents.newline +:+
  "        Output: Structured architecture plan." +:+ Agents.newline +:+
  "        ".

(** The task [_simulate_work] gives the planner. *)
Definition plan_task : pydict :=
  [("type", PStr "plan"); ("description", PStr "New coding task")].

(** The task [_simulate_work] gives the dispatcher. *)
Definition assign_task : pydict :=
  [("type", PStr "assign_task"); ("description", PStr "Implement feature X")].

(** The entry [_simulate_work] hands to the ledger. *)
Definition simulated_entry : pydict :=
  [("task", PStr "simulated_task"); ("success", PBool true)].

(** A worker after [run]: its [is_active] flag cleared, the rest as it
    was. *)
Definition rested (ant : Agents.ANT) : Agents.ANT :=
  {| Agents.ant_base := Agents.set_is_active false (Agents.ant_base ant);
     Agents.role_id := Agents.role_id ant;
     Agents.specialty := Agents.specialty ant |}.

End Planner.

(** ** [ProjectStructure]: the scan of the project directory *)

Module ProjectTree.

Import FileUtils.

(** What [os.walk] finds at a path: a file, or a directory with its
    entries in the order the operating system lists them.  Symbolic links
    are not part of the picture. *)
Inductive Node : Type :=
| File
| Directory (entries : list (string * Node)).

Definition is_directory (node : Node) : bool :=
  match node with
  | File => false
  | Directory _ => true
  end.

(** The names [os.walk] puts in [files] for a directory. *)
Definition file_names (entries : list (string * Node)) : list string :=
  map fst (List.filter (fun entry => negb (is_directory (snd entry))) entries).

(** [not d.startswith('.')], the test of the list [scan_directory] writes
    back into [dirs]. *)
Definition shown (d : string) : bool := negb (PyString.startswith d ".").

(** [os.walk(top)], top-down, as [scan_directory] drives it: after each
    directory is yielded with its files, its sub-directories are visited in
    listing order, those the caller removed from [dirs] left out.  A top
    that is no directory yields nothing. *)
Fixpoint walk (top : string) (node : Node) : list (string * list string) :=
  match node with
  | File => []
  | Directory entries =>
      (top, file_names entries)
      :: (fix visit (rest : list (string * Node)) : list (string * list string) :=
            match rest with
            | [] => []
            | (name, sub) :: rest' =>
                (if is_directory sub && shown name
                 then walk (PosixPath.join top name) sub
                 else [])
                ++ visit rest'
            end) entries
  end.

(** Whether the first character of a name is a dot. *)
Definition hidden (name : string) : bool :=
  match name with
  | EmptyString => false
  | String c _ => Ascii.eqb c "."
  end.

(** A snapshot without its hidden directories: every directory whose name
    begins with a dot is removed with all it holds, at every depth below
    the top; files are kept, whatever their names. *)
Fixpoint visible (node : Node) : Node :=
  match node with
  | File => File
  | Directory entries =>
      Directory
        ((fix keep (rest : list (string * Node)) : list (string * Node) :=
            match rest with
            | [] => []
            | (name, sub) :: rest' =>
                if is_directory sub && hidden name then keep rest'
                else (name, visible sub) :: keep rest'
            end) entries)
  end.

(** The number of leading elements two lists share:
    [len(commonprefix([a, b]))]. *)
Fixpoint common_length (a b : list string) : nat :=
  match a, b with
  | x :: a', y :: b' => if String.eqb x y then S (common_length a' b') else O
  | _, _ => O
  end.

(** The names of a canonical path: [[x for x in p.split('/') if x]]. *)
Definition names_of (p : string) : list string :=
  List.filter (fun x => negb (String.eqb x "")) (PyString.split PyString.slash p).

(** [os.path.relpath(path, start)] for a non-empty [path]; on the empty
    path the library raises [ValueError], a case [scan_directory] does not
    reach, the path it passes being a directory joined with a file name. *)
Definition relpath (env : Env) (path start : string) : string :=
  let start_list := names_of (PosixPath.abspath env start) in
  let path_list := names_of (PosixPath.abspath env path) in
  let i := common_length start_list path_list in
  let rel_list := repeat ".." (length start_list - i) ++ skipn i path_list in
  match rel_list with
  | [] => "."
  | _ => PyString.join "/" rel_list
  end.

(** [file_map[key] = value] on a dict kept in insertion order. *)
Fixpoint assign (key value : string) (d : list (string * string)) : list (string * string) :=
  match d with
  | [] => [(key, value)]
  | (k, v) :: rest =>
      if String.eqb k key then (k, value) :: rest else (k, v) :: assign key value rest
  end.

(** The body of [for file in files] for one file. *)
Definition scan_file (env : Env) (self : ProjectStructure) (root file : string)
    (file_map : list (string * string)) : M ProjectStructure (list (string * string)) :=
  let full_path := PosixPath.join root file in
  let rel_path := relpath env full_path (root_path self) in
  safe <~ on_object (path_guard self) (is_safe_path env full_path) ;;
  if fst safe then ret (assign rel_path full_path file_map) else ret file_map.

Fixpoint scan_files (env : Env) (self : ProjectStructure) (root : string)
    (files : list string) (file_map : list (string * string))
  : M ProjectStructure (list (string * string)) :=
  match files with
  | [] => ret file_map
  | file :: rest =>
      file_map1 <~ scan_file env self root file file_map ;;
      scan_files env self root rest file_map1
  end.

(** The loop over what [os.walk] yields. *)
Fixpoint scan_walk (env : Env) (self : ProjectStructure)
    (yielded : list (string * list string)) (file_map : list (string * string))
  : M ProjectStructure (list (string * string)) :=
  match yielded with
  | [] => ret file_map
  | (root, files) :: rest =>
      file_map1 <~ scan_files env self root files file_map ;;
      scan_walk env self rest file_map1
  end.

Definition set_file_map (file_map : list (string * string)) (self : ProjectStructure)
  : ProjectStructure :=
  {| root_path := root_path self; path_guard := path_guard self; file_map := file_map |}.

(** [ProjectStructure.scan_directory], [tree] being what is at
    [self.root_path]. *)
Definition scan_directory (env : Env) (tree : Node)
  : M ProjectStructure (list (string * string)) :=
  self <~ gets (fun self => self) ;;
  file_map <~ scan_walk env self (walk (root_path self) tree) [] ;;
  modify (set_file_map file_map) ;;;
  ret file_map.

(** Insertion into a list in ascending order of the texts. *)
Fixpoint insert_sorted (x : string) (l : list string) : list string :=
  match l with
  | [] => [x]
  | y :: rest => if String.leb x y then x :: l else y :: insert_sorted x rest
  end.

(** [sorted(names)] for texts: ascending by code point. *)
Definition sorted (names : list string) : list string :=
  fold_right insert_sorted [] names.

(** [ProjectStructure.get_tree] *)
Definition get_tree (env : Env) (tree : Node) (prefix : string)
  : M ProjectStructure (list string) :=
  cached <~ gets file_map ;;
  (match cached with
   | [] => scan_directory env tree ;;; ret tt
   | _ => ret tt
   end) ;;;
  file_map <~ gets file_map ;;
  ret (map (fun path => prefix +:+ path) (sorted (map fst file_map))).

(** Induction on a snapshot, with the hypothesis for every entry of a
    directory. *)
Section NodeInduction.

Variable P : Node -> Prop.
Hypothesis file_case : P File.
Hypothesis directory_case :
  forall entries, Forall (fun entry => P (snd entry)) entries -> P (Directory entries).

Fixpoint Node_induction (node : Node) : P node :=
  match node with
  | File => file_case
  | Directory entries =>
      directory_case entries
        ((fix each (rest : list (string * Node))
            : Forall (fun entry => P (snd entry)) rest :=
            match rest with
            | [] => @List.Forall_nil _ _
            | entry :: rest' =>
                @List.Forall_cons _ _ entry rest' (Node_induction (snd entry)) (each rest')
            end) entries)
  end.

End NodeInduction.

End ProjectTree.


(** ** [CommandInterface]: the interactive shell

    The shell keeps two references, [self.dashboard] and
    [self.ecosystem]: the dashboard of the system and the system itself.
    Both are reached through the process, so the shell has no state of its
    own and its methods are computations on the process. *)

Module Shell.

Import Orchestrator.

(** A computation that returns from every state, with a result for which
    [P] holds. *)
Definition yields {S A} (P : A -> Prop) (m : M S A) : Prop :=
  forall s, exists a s1 o, m s = (Returned a, s1, o) /\ P a.

(** Whether a text holds ASCII characters only.  The four operations on
    texts below are those of Python on such texts; on others Python also
    takes the Unicode blanks for white space and changes the case of
    letters outside ASCII, which is not modelled: what is proved of lines
    is proved of ASCII lines, or of lines whose command word is pinned to
    an ASCII one. *)
Fixpoint ascii_text (s : string) : bool :=
  match s with
  | EmptyString => true
  | String c rest => (nat_of_ascii c <? 128)%nat && ascii_text rest
  end.

(** [c.isspace()] for an ASCII character: tab to carriage return, the four
    separators 28 to 31 and the space. *)
Definition isspace (c : ascii) : bool :=
  let n := nat_of_ascii c in
  ((9 <=? n) && (n <=? 13) || (28 <=? n) && (n <=? 32))%nat.

Fixpoint lstrip (s : string) : string :=
  match s with
  | EmptyString => EmptyString
  | String c rest => if isspace c then lstrip rest else s
  end.

Fixpoint rstrip (s : string) : string :=
  match s with
  | EmptyString => EmptyString
  | String c rest =>
      match rstrip rest with
      | EmptyString => if isspace c then EmptyString else String c EmptyString
      | kept => String c kept
      end
  end.

(** [s.strip()] for a text of ASCII characters. *)
Definition strip (s : string) : string := rstrip (lstrip s).

(** The scan of [s.split()]: [word] is the run of characters read since
    the last white space. *)
Fixpoint split_from (word s : string) : list string :=
  match s with
  | EmptyString => if String.eqb word "" then [] else [word]
  | String c rest =>
      if isspace c then
        if String.eqb word "" then split_from "" rest else word :: split_from "" rest
      else split_from (word +:+ String c EmptyString) rest
  end.

(** [s.split()] for a text of ASCII characters: the maximal runs of
    characters that are not white space. *)
Definition split (s : string) : list string := split_from "" s.

Definition lower_char (c : ascii) : ascii :=
  let n := nat_of_ascii c in
  if ((65 <=? n) && (n <=? 90))%nat then ascii_of_nat (n + 32) else c.

(** [s.lower()] for a text of ASCII characters. *)
Fixpoint lower (s : string) : string :=
  match s with
  | EmptyString => EmptyString
  | String c rest => String (lower_char c) (lower rest)
  end.

(** What [input] gives the loop: a line, without its line end, or one of
    the two exceptions the loop handles, an interrupt being taken where
    [input] waits.  The prompt [input] shows is not recorded in the output,
    which holds the calls of [print]. *)
Inductive Input : Type :=
| Line (text : string)
| EOFError
| KeyboardInterrupt.


(** How a pass through the loop of [run] ends: back at the prompt, or with
    [SystemExit(code)] raised by [sys.exit(code)], which no handler of
    [run] catches. *)
Inductive Next : Type :=
| Prompt
| SystemExit (code : Z).

(** [self.dashboard.log_message], on the dashboard of the system. *)
Definition log_message (env : Env) (source message : string) : M World unit :=
  on_system (on_dashboard (CommandCenter.log_message env source message)).

Definition set_project_structure (p : FileUtils.ProjectStructure) (self : DavidAI)
  : DavidAI :=
  {| workspace_root := workspace_root self;
     is_running := is_running self;
     is_paused := is_paused self;
     model_manager := model_manager self;
     path_guard := path_guard self;
     project_structure := p;
     ceo := ceo self;
     manager := manager self;
     knowledge_curator := knowledge_curator self;
     dashboard := dashboard self;
     dashboard_thread := dashboard_thread self;
     main_loop_thread := main_loop_thread self |}.

(** [DavidAI.get_project_tree], [tree] being what is at the root of the
    project structure. *)
Definition get_project_tree (env : Env) (tree : ProjectTree.Node) : M DavidAI (list string) :=
  zoom project_structure set_project_structure (ProjectTree.get_tree env tree "").

(** [for line in tree: print(line)] *)
Fixpoint print_lines {S} (lines : list string) : M S unit :=
  match lines with
  | [] => ret tt
  | line :: rest => print line ;;; print_lines rest
  end.

Definition cmd_start (env : Env) (args : list string) : M World Next :=
  start_cycle env ;;;
  log_message env "USER" "System started." ;;;
  ret Prompt.

Definition cmd_pause (env : Env) (args : list string) : M World Next :=
  on_system (pause_cycle env) ;;;
  log_message env "USER" "System paused." ;;;
  ret Prompt.

Definition cmd_status (env : Env) (args : list string) : M World Next :=
  status <~ on_system get_status ;;
  log_message env "SYSTEM" ("Status: " +:+ Py.str (PDict status)) ;;;
  ret Prompt.

Definition cmd_inspect (env : Env) (tree : ProjectTree.Node) (args : list string)
  : M World Next :=
  log_message env "SYSTEM" "Inspecting project structure..." ;;;
  lines <~ on_system (get_project_tree env tree) ;;
  print_lines lines ;;;
  ret Prompt.

(** [cmd_exit]: [sys.exit(0)] raises [SystemExit(0)]. *)
Definition cmd_exit (args : list string) : M World Next :=
  on_system shutdown ;;;
  ret (SystemExit 0).

(** The text of [cmd_help], a literal over several lines. *)
Definition help_text : string :=
  PyString.join Agents.newline
    [""%string;
     "        Available Commands:";
     "          start     - Start the autonomous generation cycle";
     "          pause     - Pause the current cycle";
     "          status    - Show system status and metrics";
     "          inspect   - Show project file tree";
     "          exit      - Shutdown and exit";
     "          help      - Show this help message";
     "        "].

Definition cmd_help (args : list string) : M World Next :=
  print help_text ;;;
  ret Prompt.

(** [self.command_map], the handlers bound to the moment of the call and
    to what the project directory holds then. *)
Definition command_map (env : Env) (tree : ProjectTree.Node)
  : list (string * (list string -> M World Next)) :=
  [("start", cmd_start env);
   ("pause", cmd_pause env);
   ("status", cmd_status env);
   ("inspect", cmd_inspect env tree);
   ("exit", cmd_exit);
   ("help", cmd_help)].

(** [self.command_map[cmd]], when [cmd in self.command_map]. *)
Fixpoint handler_of (cmd : string) (map : list (string * (list string -> M World Next)))
  : option (list string -> M World Next) :=
  match map with
  | [] => None
  | (name, handler) :: rest => if String.eqb name cmd then Some handler else handler_of cmd rest
  end.

(** One pass through the loop of [run]: the call of [input] and what
    follows it.  In the handler of the two exceptions [cmd_exit] raises,
    so the [break] after it is not reached. *)
Definition run_step (env : Env) (tree : ProjectTree.Node) (input : Input) : M World Next :=
  match input with
  | Line text =>
      match split (strip text) with
      | [] => ret Prompt
      | first :: args =>
          let cmd := lower first in
          match handler_of cmd (command_map env tree) with
          | Some handler => handler args
          | None => print ("Unknown command: " +:+ cmd) ;;; ret Prompt
          end
      end
  | EOFError | KeyboardInterrupt =>
      print (Agents.newline +:+ "Exiting...") ;;;
      cmd_exit []
  end.

(** The loop of [run] over the inputs of a session, each with its moment
    and with what the project directory holds then.  When the inputs are
    used up, the loop is back at the prompt. *)
Fixpoint run_loop (session : list (Env * ProjectTree.Node * Input)) : M World Next :=
  match session with
  | [] => ret Prompt
  | (env, tree, input) :: rest =>
      next <~ run_step env tree input ;;
      match next with
      | Prompt => run_loop rest
      | SystemExit code => ret (SystemExit code)
      end
  end.

(** [CommandInterface.run], which [DavidAI.run_interactive] calls. *)
Definition run (session : list (Env * ProjectTree.Node * Input)) : M World Next :=
  print "DavidAI Command Interface Ready. Type 'help' for commands." ;;;
  run_loop session.

(** Whether an input makes the shell leave: the end of the input, an
    interrupt, or a line whose command is [exit]. *)
Definition leaves (input : Input) : bool :=
  match input with
  | Line text =>
      match split (strip text) with
      | [] => false
      | first :: _ => String.eqb (lower first) "exit"
      end
  | EOFError | KeyboardInterrupt => true
  end.

End Shell.

(** ** Threads, statement by statement

    The methods above are the program as sequential code: a call runs from
    its first statement to its last.  The threads of the process share the
    [DavidAI] object and the dashboard without a lock, so a call of one
    thread can come between two statements of another.  Here are the two
    places where that matters: the two readings of [is_running] in
    [Dashboard.render], and the statements of [_run_cycle] and
    [_simulate_work] between one test of the loop and the next. *)

Module Interleaving.

Import Loader Agents Orchestrator.

(** [Dashboard.render], with what other threads do to the dashboard between
    its two readings of [self.is_running]: the test at the top and the
    status line.  What is printed after the status line reads the
    dashboard as the others left it. *)
Definition render_between (env : Env) (others : M CommandCenter.Dashboard unit)
  : M CommandCenter.Dashboard unit :=
  self <~ gets (fun self => self) ;;
  if negb (CommandCenter.is_running self) then ret tt
  else
    emit (Print (String (ascii_of_nat 27) "[H") "") ;;;
    print (PyString.times "=" 60) ;;;
    print (" DAVIDAI COMMAND CENTER - " +:+ strftime env "%Y-%m-%d %H:%M:%S" +:+ " ") ;;;
    print (PyString.times "=" 60) ;;;
    others ;;;
    self <~ gets (fun self => self) ;;
    print (" [SYSTEM STATUS] "
           +:+ (if CommandCenter.is_running self then "RUNNING" else "PAUSED")) ;;;
    print (PyString.times "-" 60) ;;;
    print " [METRICS]" ;;;
    print ("  GPU VRAM: "
           +:+ Py.str (Py.get_default "gpu_vram" (PStr "N/A") (CommandCenter.metrics self))) ;;;
    print ("  CPU Load: "
           +:+ Py.str (Py.get_default "cpu_load" (PStr "N/A") (CommandCenter.metrics self))) ;;;
    print ("  Active Agents: "
           +:+ Py.str (Py.get_default "active_agents" (PInt 0) (CommandCenter.metrics self))) ;;;
    print ("  Tasks Completed: "
           +:+ Py.str (Py.get_default "tasks_completed" (PInt 0)
                         (CommandCenter.metrics self))) ;;;
    print ("  Errors: "
           +:+ Py.str (Py.get_default "errors" (PInt 0) (CommandCenter.metrics self))) ;;;
    print (PyString.times "-" 60) ;;;
    print " [RECENT LOGS]" ;;;
    CommandCenter.print_logs
      (skipn (length (CommandCenter.logs self) - 10) (CommandCenter.logs self)) ;;;
    print (PyString.times "=" 60).

(** *** The cycle thread

    The thread is followed statement by statement.  A statement that calls
    an agent or the ledger is taken whole: what it writes, the agent, its
    workers and the ledger, no other thread writes.  The control calls of
    the operator are taken whole as well: what is proved below is about
    the time after such a call has returned.

    The statements of [_simulate_work], in order. *)
Inductive WorkStatement : Type :=
| UpdateMetrics
| RunPlanner
| LogPlanned
| RunDispatcher
| LogAssigned
| LogSuccess.

(** One statement of [_simulate_work]. *)
Definition work_statement (env : Env) (s : WorkStatement) : M DavidAI unit :=
  match s with
  | UpdateMetrics =>
      on_dashboard (CommandCenter.update_metrics
                      [("active_agents", PInt 6); ("tasks_completed", PInt 10)])
  | RunPlanner =>
      zoom ceo set_ceo
        (run [("type", PStr "plan"); ("description", PStr "New coding task")]) ;;;
      ret tt
  | LogPlanned => on_dashboard (CommandCenter.log_message env "CEO" "Architecture planned.")
  | RunDispatcher =>
      zoom manager set_manager
        (run [("type", PStr "assign_task"); ("description", PStr "Implement feature X")]) ;;;
      ret tt
  | LogAssigned =>
      on_dashboard (CommandCenter.log_message env "Manager" "Tasks assigned to ANTS.")
  | LogSuccess =>
      zoom knowledge_curator set_knowledge_curator
        (log_success [("task", PStr "simulated_task"); ("success", PBool true)])
  end.

(** Where a thread running [_run_cycle] is: before its first statement,
    at one of the three tests of the loop, at a statement of the branch
    taken when the twelve hours are over, at a statement of
    [_simulate_work], or returned. *)
Inductive CyclePoint : Type :=
| CycleBegin
| WhileTest (start_time : Z)
| PausedTest (start_time : Z)
| ExpiryTest (start_time : Z)
| CompleteLog
| CompleteShutdown
| Work (start_time : Z) (s : WorkStatement)
| CycleReturned.

(** Where the thread is after a statement of [_simulate_work]; after the
    last one it sleeps and is back at the test of the loop. *)
Definition after_work (start_time : Z) (s : WorkStatement) : CyclePoint :=
  match s with
  | UpdateMetrics => Work start_time RunPlanner
  | RunPlanner => Work start_time LogPlanned
  | LogPlanned => Work start_time RunDispatcher
  | RunDispatcher => Work start_time LogAssigned
  | LogAssigned => Work start_time LogSuccess
  | LogSuccess => WhileTest start_time
  end.

(** One statement or one test of [_run_cycle]. *)
Definition cycle_statement (env : Env) (point : CyclePoint) : M DavidAI CyclePoint :=
  match point with
  | CycleBegin => ret (WhileTest (now env))
  | WhileTest start_time =>
      running <~ gets is_running ;;
      ret (if running then PausedTest start_time else CycleReturned)
  | PausedTest start_time =>
      paused <~ gets is_paused ;;
      ret (if paused then WhileTest start_time else ExpiryTest start_time)
  | ExpiryTest start_time =>
      ret (if now env - start_time >? cycle_duration
           then CompleteLog else Work start_time UpdateMetrics)
  | CompleteLog =>
      on_dashboard (CommandCenter.log_message env "SYSTEM" "Cycle complete.") ;;;
      ret CompleteShutdown
  | CompleteShutdown => shutdown ;;; ret CycleReturned
  | Work start_time s => work_statement env s ;;; ret (after_work start_time s)
  | CycleReturned => ret CycleReturned
  end.

(** Whether a thread at this point is inside an iteration: past the test
    of [while self.is_running], with the call of [log_success] of this
    iteration still to come unless the iteration is left before. *)
Definition entered (point : CyclePoint) : bool :=
  match point with
  | PausedTest _ | ExpiryTest _ | Work _ _ => true
  | CycleBegin | WhileTest _ | CompleteLog | CompleteShutdown | CycleReturned => false
  end.

(** *** The process, statement by statement *)

Inductive Thread : Type :=
| Dashboard (pc : CommandCenter.DashboardThread)
| Cycle (point : CyclePoint).

Record Process : Type := {
  system : DavidAI;
  threads : list Thread
}.

Definition set_system (d : DavidAI) (p : Process) : Process :=
  {| system := d; threads := threads p |}.

Definition set_threads (ts : list Thread) (p : Process) : Process :=
  {| system := system p; threads := ts |}.

Definition on_system {A} (m : M DavidAI A) : M Process A :=
  zoom system set_system m.

Definition spawn (t : Thread) : M Process nat :=
  tid <~ gets (fun p => length (threads p)) ;;
  modify (fun p => set_threads (threads p ++ [t]) p) ;;;
  ret tid.

(** [DavidAI.start_cycle] *)
Definition start_cycle (env : Env) : M Process unit :=
  running <~ gets (fun p => is_running (system p)) ;;
  if running then ret tt
  else
    on_system (modify (set_is_running true)) ;;;
    on_system (on_dashboard
      (CommandCenter.log_message env "SYSTEM" "Starting autonomous cycle...")) ;;;
    tid <~ spawn (Dashboard CommandCenter.DashNew) ;;
    on_system (modify (set_dashboard_thread (Some tid))) ;;;
    tid <~ spawn (Cycle CycleBegin) ;;
    on_system (modify (set_main_loop_thread (Some tid))).

(** One step of a thread: for the cycle thread one statement or test; for
    the dashboard thread, which touches neither the agents nor the ledger,
    one test of its loop with the rendering it guards. *)
Definition thread_step (env : Env) (t : Thread) : M DavidAI Thread :=
  match t with
  | Dashboard pc =>
      pc1 <~ on_dashboard (CommandCenter.start_step env pc) ;;
      ret (Dashboard pc1)
  | Cycle point =>
      point1 <~ cycle_statement env point ;;
      ret (Cycle point1)
  end.

(** A thread whose target has returned, or died of an exception. *)
Definition finished (t : Thread) : Thread :=
  match t with
  | Dashboard _ => Dashboard CommandCenter.DashDone
  | Cycle _ => Cycle CycleReturned
  end.

(** The scheduler lets thread [tid] make one step. *)
Definition step (env : Env) (tid : nat) : M Process unit :=
  fun p =>
    match threads p !! tid with
    | None => (Returned tt, p, [])
    | Some t =>
        match thread_step env t (system p) with
        | (Returned t1, d, o) =>
            (Returned tt, {| system := d; threads := <[tid := t1]> (threads p) |}, o)
        | (Raised _, d, o) =>
            (Returned tt, {| system := d; threads := <[tid := finished t]> (threads p) |}, o)
        end
    end.

(** What can happen to the process next: a control call of the operator,
    or one step of one thread. *)
Inductive Call : Type :=
| Start
| Pause
| Shutdown
| GetStatus
| Step (tid : nat).

Definition perform (env : Env) (c : Call) : M Process unit :=
  match c with
  | Start => start_cycle env
  | Pause => on_system (pause_cycle env)
  | Shutdown => on_system shutdown
  | GetStatus => on_system get_status ;;; ret tt
  | Step tid => step env tid
  end.

Fixpoint perform_all (history : list (Env * Call)) : M Process unit :=
  match history with
  | [] => ret tt
  | (env, c) :: rest => perform env c ;;; perform_all rest
  end.

(** The threads of a process that are inside an iteration of the cycle. *)
Definition inside (t : Thread) : bool :=
  match t with
  | Dashboard _ => false
  | Cycle point => entered point
  end.

(** The statements of a cycle thread from one point on, until it is back
    at the test of its loop or has returned; [fuel] bounds their number. *)
Fixpoint run_to_test (fuel : nat) (env : Env) (point : CyclePoint) : M DavidAI CyclePoint :=
  match fuel with
  | O => ret point
  | S fuel' =>
      point1 <~ cycle_statement env point ;;
      match point1 with
      | WhileTest _ | CycleReturned => ret point1
      | _ => run_to_test fuel' env point1
      end
  end.

(** The point of a loop pass as [_run_cycle_step] names it. *)
Definition loop_pass (point : CyclePoint) : Orchestrator.CycleThread :=
  match point with
  | CycleBegin => CycleNew
  | WhileTest start_time => CycleLoop start_time
  | _ => CycleDone
  end.

(** The outcome of the statements of a pass, as the outcome of the pass. *)
Definition pass (r : outcome CyclePoint * DavidAI * list output)
  : outcome Orchestrator.CycleThread * DavidAI * list output :=
  match r with
  | (Returned point, self, o) => (Returned (loop_pass point), self, o)
  | (Raised e, self, o) => (Raised e, self, o)
  end.

End Interleaving.
(** ** Sample objects *)

Module Sample.

Import Loader Agents.

Definition env : Env :=
  {| cwd := "/home/engine"; now := 1000; strftime := fun _ => "09:30:00" |}.

(** The registry after [load_all]. *)
Definition model_manager : DavidAIModelManager :=
  state_of (load_all DavidAIModelManager_new).

(** The first worker of the constructed system. *)
Definition worker : ANT := ANT_new 1 "Boilerplate" model_manager.

(** The dispatcher of the constructed system, its six workers registered. *)
Definition dispatcher : Manager :=
  state_of
    (register_ants
       (map (fun role => ANT_new (fst role) (snd role) model_manager) Orchestrator.ant_roles)
       (Manager_new model_manager)).

Definition assign_task : pydict :=
  [("type", PStr "assign_task"); ("description", PStr "Implement feature X")].

Definition plan_task : pydict :=
  [("type", PStr "plan"); ("description", PStr "New coding task")].

(** The object [DavidAI("/ws")] builds. *)
Definition system : Orchestrator.DavidAI :=
  {| Orchestrator.workspace_root := "/ws";
     Orchestrator.is_running := false;
     Orchestrator.is_paused := false;
     Orchestrator.model_manager := model_manager;
     Orchestrator.path_guard := {| FileUtils.allowed_root := "/ws" |};
     Orchestrator.project_structure :=
       FileUtils.ProjectStructure_new "/ws" {| FileUtils.allowed_root := "/ws" |};
     Orchestrator.ceo := CEO_new model_manager;
     Orchestrator.manager := dispatcher;
     Orchestrator.knowledge_curator := KnowledgeCurator_new "global_ledger.json";
     Orchestrator.dashboard := CommandCenter.Dashboard_new;
     Orchestrator.dashboard_thread := None;
     Orchestrator.main_loop_thread := None |}.

(** The process before any control call. *)
Definition idle_world : Orchestrator.World :=
  {| Orchestrator.system := system; Orchestrator.threads := [] |}.

(** The process after [start_cycle] and one full iteration of the cycle. *)
Definition working_world : Orchestrator.World :=
  state_of
    (Orchestrator.perform_all
       [(env, Orchestrator.Start); (env, Orchestrator.Tick 1); (env, Orchestrator.Tick 1)]
       idle_world).

(** Calls that may follow while the cycle stays paused. *)
Definition while_paused : list (Env * Orchestrator.Call) :=
  [(env, Orchestrator.Tick 1); (env, Orchestrator.Tick 0); (env, Orchestrator.Tick 1);
   (env, Orchestrator.GetStatus); (env, Orchestrator.Start); (env, Orchestrator.Tick 1)].

(** A file system in memory, for the examples: the files by path and the
    directories asked for; as on POSIX, the directory with the empty name
    cannot be made and a missing file cannot be read. *)
Record MemFS : Type := {
  mem_files : gmap string string;
  mem_dirs : list string
}.

#[export] Instance MemFS_FileSystem : FileAccess.FileSystem MemFS := {|
  FileAccess.read_text path fs :=
    match mem_files fs !! path with
    | Some content => inl content
    | None => inr ("[Errno 2] No such file or directory: " +:+ PyString.repr path)
    end;
  FileAccess.makedirs directory fs :=
    if String.eqb directory ""
    then (fs, Some "[Errno 2] No such file or directory: ''")
    else ({| mem_files := mem_files fs; mem_dirs := mem_dirs fs ++ [directory] |}, None);
  FileAccess.write_text path content fs :=
    ({| mem_files := <[path := content]> (mem_files fs); mem_dirs := mem_dirs fs |}, None)
|}.

Definition empty_fs : MemFS := {| mem_files := ∅; mem_dirs := [] |}.

Definition guard : FileUtils.PathGuard := {| FileUtils.allowed_root := "/ws" |}.

(** A model whose backend is missing: [generate] raises. *)
Definition failing_model : ModelInterface :=
  {| generate _ := raise (NotImplementedError "backend missing");
     load := ret tt |}.

(** A planner that was given the failing model. *)
Definition failing_ceo : CEO :=
  {| ceo_base :=
       {| name := "CEO"; model := failing_model; is_active := false;
          stats := [("tasks_completed", PInt 0); ("errors", PInt 0)] |} |}.

(** A moment more than twelve hours after [env]. *)
Definition late : Env :=
  {| cwd := "/home/engine"; now := 1000 + 43201; strftime := fun _ => "21:30:01" |}.

(** The working process after [pause_cycle]. *)
Definition paused_world : Orchestrator.World :=
  state_of (Orchestrator.perform env Orchestrator.Pause working_world).

(** A started process whose planner has the failing model; its cycle
    thread has reached its loop. *)
Definition failing_world : Orchestrator.World :=
  state_of
    (Orchestrator.perform_all
       [(env, Orchestrator.Start); (env, Orchestrator.Tick 1)]
       {| Orchestrator.system := Orchestrator.set_ceo failing_ceo system;
          Orchestrator.threads := [] |}).

(** The working process after [shutdown], its cycle thread not yet back at
    the test of its loop. *)
Definition stopped_world : Orchestrator.World :=
  state_of (Orchestrator.perform env Orchestrator.Shutdown working_world).

(** A project directory: two files, a hidden directory and a source
    directory with a hidden cache. *)
Definition project : ProjectTree.Node :=
  ProjectTree.Directory
    [("main.py", ProjectTree.File);
     (".git", ProjectTree.Directory [("config", ProjectTree.File)]);
     ("src",
      ProjectTree.Directory
        [("core.py", ProjectTree.File);
         (".cache", ProjectTree.Directory [("blob", ProjectTree.File)])]);
     ("README", ProjectTree.File)].

(** The same project after a file was added. *)
Definition grown_project : ProjectTree.Node :=
  ProjectTree.Directory
    [("main.py", ProjectTree.File);
     ("src", ProjectTree.Directory [("core.py", ProjectTree.File)]);
     ("README", ProjectTree.File);
     ("new.py", ProjectTree.File)].

Definition structure : FileUtils.ProjectStructure :=
  FileUtils.ProjectStructure_new "/ws" guard.

(** A project directory with a file and a directory whose names begin
    with a dot. *)
Definition dotted_project : ProjectTree.Node :=
  ProjectTree.Directory
    [(".env", ProjectTree.File);
     (".git", ProjectTree.Directory [("config", ProjectTree.File)]);
     ("app.py", ProjectTree.File)].

(** The working process once its dashboard thread has begun. *)
Definition displayed_world : Orchestrator.World :=
  state_of (Orchestrator.perform env (Orchestrator.Tick 0) working_world).

(** What an operator types in one session at the shell. *)
Definition session : list (Env * ProjectTree.Node * Shell.Input) :=
  [(env, project, Shell.Line "  STATUS now");
   (env, project, Shell.Line "");
   (env, project, Shell.Line "Pause");
   (env, project, Shell.Line "fly");
   (late, project, Shell.Line "EXIT");
   (late, project, Shell.Line "start")].

(** The process, statement by statement, after [start_cycle] when its cycle
    thread has passed the test of its loop for the first time. *)
Definition entered_process : Interleaving.Process :=
  state_of
    (Interleaving.perform_all
       [(env, Interleaving.Start); (env, Interleaving.Step 1); (env, Interleaving.Step 1)]
       {| Interleaving.system := system; Interleaving.threads := [] |}).

(** The steps that take a cycle thread from the second test of its loop
    to the end of the iteration and to the next test of the loop. *)
Definition rest_of_iteration : list (Env * Interleaving.Call) :=
  repeat (env, Interleaving.Step 1) 9.

End Sample.

(** ** The status values the specification lists for an agent result *)

(** Written after the specification's data model: the status of an
    agent result is one of completed, distributed, error. *)
Definition spec_status (result : pydict) : Prop :=
  In (Py.get "status" result) [PStr "completed"; PStr "distributed"; PStr "error"].

(** * Properties *)

Import (hints) Agents.

(** ** PathGuard *)

Lemma is_safe_path_spec (env : Env) (path : string) (guard : FileUtils.PathGuard) :
  result_of (FileUtils.is_safe_path env path guard)
  = Returned (String.prefix (FileUtils.allowed_root guard) (PosixPath.abspath env path))
  /\ state_of (FileUtils.is_safe_path env path guard) = guard.
Proof.
  unfold FileUtils.is_safe_path, bind, gets, PyString.startswith; cbn.
  destruct (String.prefix _ _); cbn; split; reflexivity.
Qed.

(** C1 (the code at the failing input): with the boundary [/workspace], the
    sibling path [/workspace2/x] is its own canonical form and
    [is_safe_path] accepts it, because the test is a prefix test on the
    text of the path, not on its components. *)
Theorem is_safe_path_accepts_sibling (env : Env) :
  exists guard,
    result_of (FileUtils.PathGuard_new env "/workspace" tt) = Returned guard
    /\ FileUtils.allowed_root guard = "/workspace"
    /\ PosixPath.abspath env "/workspace2/x" = "/workspace2/x"
    /\ FileUtils.is_safe_path env "/workspace2/x" guard = (Returned true, guard, []).
Proof.
  eexists. split; [reflexivity |]. repeat split.
Qed.

(** C2: with the boundary [/ws], the traversal path
    [/ws/a/../../etc/passwd] is brought to its canonical form [/etc/passwd]
    before the test and is refused, and [/ws/sub/file.txt] is accepted,
    whatever the working directory. *)
Theorem is_safe_path_scenario (env : Env) :
  exists guard,
    result_of (FileUtils.PathGuard_new env "/ws" tt) = Returned guard
    /\ PosixPath.abspath env "/ws/a/../../etc/passwd" = "/etc/passwd"
    /\ result_of (FileUtils.is_safe_path env "/ws/a/../../etc/passwd" guard) = Returned false
    /\ result_of (FileUtils.is_safe_path env "/ws/sub/file.txt" guard) = Returned true.
Proof.
  eexists. split; [reflexivity |]. repeat split.
Qed.

(** ** The model registry *)

(** C9: a name that is not registered gets the fallback [DummyModel], and
    the fallback's [generate] returns, for every prompt, the fixed prefix
    followed by the prompt; for [hello] it returns
    [[Dummy Response] Processed: hello]. *)
Theorem get_model_fallback (self : Loader.DavidAIModelManager) (name : string) :
  Loader.models self !! name = None ->
  Loader.get_model self name = Loader.DummyModel
  /\ (forall prompt : string,
        result_of (Loader.generate (Loader.get_model self name) prompt tt)
        = Returned ("[Dummy Response] Processed: " +:+ prompt))
  /\ result_of (Loader.generate (Loader.get_model self name) "hello" tt)
     = Returned "[Dummy Response] Processed: hello".
Proof.
  intros Hnone. unfold Loader.get_model. rewrite Hnone. cbn.
  repeat split.
Qed.

Lemma get_model_fallback_witness :
  Loader.models Sample.model_manager !! "ANT1_Boilerplate" = None
  /\ Loader.get_model Sample.model_manager "ANT1_Boilerplate" = Loader.DummyModel.
Proof.
  split.
  - vm_compute. reflexivity.
  - apply (get_model_fallback Sample.model_manager "ANT1_Boilerplate").
    vm_compute. reflexivity.
Defined.

(** ** Workers *)

(** C3 (as the code has it): for every task and every worker, [execute]
    returns and does not raise; the result carries the worker's name and
    specialty, the status [done], and the output
    [Processed <type of the task> by <name of the worker>]; the call writes
    one record, its own, so no model is asked; the worker is left as it
    was.  The name of a worker built by [ANT(role_id, name)] ends in its
    specialty. *)
Theorem ANT_execute_result (task : pydict) (self : Agents.ANT) :
  Agents.ANT_execute task self
  = (Returned [("agent", PStr (Agents.name (Agents.ant_base self)));
               ("specialty", PStr (Agents.specialty self));
               ("status", PStr "done");
               ("output", PStr ("Processed " +:+ Py.str (Py.get "type" task) +:+ " by "
                                +:+ Agents.name (Agents.ant_base self)))],
     self,
     [Log Agents.logger INFO
        (Agents.name (Agents.ant_base self) +:+ " executing specialty: "
         +:+ Agents.specialty self)])
  /\ (forall (role_id : Z) (name : string) (model_manager : Loader.DavidAIModelManager),
        Agents.name (Agents.ant_base (Agents.ANT_new role_id name model_manager))
        = "ANT" +:+ Py.str (PInt role_id) +:+ "_" +:+ name
        /\ Agents.specialty (Agents.ANT_new role_id name model_manager) = name).
Proof.
  split; [reflexivity | intros; split; reflexivity].
Qed.

(** C3 (the claim as stated fails): the first worker of the constructed
    system answers the [assign_task] task with the status [done], which is
    none of completed, distributed, error; its output is not a text of the
    model, and the call writes the worker's record only, where a call of
    the model would have written the model's. *)
Lemma ANT_execute_status_counterexample :
  exists result,
    result_of (Agents.ANT_execute Sample.assign_task Sample.worker) = Returned result
    /\ Py.get "status" result = PStr "done"
    /\ ~ spec_status result
    /\ Py.get "output" result = PStr "Processed assign_task by ANT1_Boilerplate"
    /\ output_of (Agents.ANT_execute Sample.assign_task Sample.worker)
       = [Log Agents.logger INFO "ANT1_Boilerplate executing specialty: Boilerplate"].
Proof.
  eexists. split; [reflexivity |]. split; [reflexivity |].
  split; [| split; reflexivity].
  unfold spec_status. cbn. intros [H | [H | [H | []]]]; discriminate H.
Qed.

(** ** The dispatcher *)

(** C8: a task whose type is neither [assign_task] nor
    [integrate_feedback] makes [Manager.execute] return the result
    [{"error": "Unknown task type"}]; nothing is raised, no worker is asked
    and the dispatcher is left as it was.  Called through [run], the same
    result is returned. *)
Theorem Manager_execute_unknown_task (task : pydict) (self : Agents.Manager) :
  Py.eq_str (Py.get "type" task) "assign_task" = false ->
  Py.eq_str (Py.get "type" task) "integrate_feedback" = false ->
  Agents.Manager_execute task self
  = (Returned [("error", PStr "Unknown task type")], self, [])
  /\ result_of (Agents.run task self) = Returned [("error", PStr "Unknown task type")]
  /\ Agents.ants (state_of (Agents.run task self)) = Agents.ants self.
Proof.
  intros Hassign Hfeedback.
  assert (Hexec : Agents.Manager_execute task self
                  = (Returned [("error", PStr "Unknown task type")], self, [])).
  { unfold Agents.Manager_execute. rewrite Hassign, Hfeedback. reflexivity. }
  split; [exact Hexec |].
  unfold Agents.run, bind, gets, emit, modify, result_of, state_of; cbn.
  unfold Agents.Manager_execute. cbn. rewrite Hassign, Hfeedback. cbn.
  split; reflexivity.
Qed.

Lemma Manager_execute_unknown_task_witness :
  Agents.Manager_execute Sample.plan_task Sample.dispatcher
  = (Returned [("error", PStr "Unknown task type")], Sample.dispatcher, []).
Proof.
  apply (Manager_execute_unknown_task Sample.plan_task Sample.dispatcher);
    reflexivity.
Defined.

(** ** Calls in sequence *)

Lemma bind_returned {S A B} (m : M S A) (k : A -> M S B) (s s1 : S) (a : A) (o1 : list output) :
  m s = (Returned a, s1, o1) ->
  bind m k s = (result_of (k a s1), state_of (k a s1), o1 ++ output_of (k a s1)).
Proof.
  intros Hm. unfold bind. rewrite Hm.
  destruct (k a s1) as [[r s2] o2]. reflexivity.
Qed.

Lemma triple_eta {S A} (r : outcome A * S * list output) :
  r = (result_of r, state_of r, output_of r).
Proof. destruct r as [[? ?] ?]. reflexivity. Qed.

(** ** The knowledge ledger *)

Lemma log_success_appends (patch_data : pydict) (self : Agents.KnowledgeCurator) :
  Agents.log_success patch_data self
  = (Returned tt,
     {| Agents.ledger_path := Agents.ledger_path self;
        Agents.ledger := Agents.ledger self ++ [patch_data] |},
     [Log Agents.logger INFO ("Curator logging success: " +:+ Py.str (PDict patch_data))]).
Proof. reflexivity. Qed.

Lemma ledger_calls_state (history : list LedgerHistory.LedgerCall)
    (self : Agents.KnowledgeCurator) :
  result_of (LedgerHistory.ledger_calls history self) = Returned tt
  /\ state_of (LedgerHistory.ledger_calls history self)
     = {| Agents.ledger_path := Agents.ledger_path self;
          Agents.ledger := Agents.ledger self ++ LedgerHistory.logged history |}.
Proof.
  revert self. induction history as [| c rest IH]; intros self.
  - cbn. rewrite app_nil_r. destruct self; split; reflexivity.
  - destruct c as [patch_data |]; cbn [LedgerHistory.ledger_calls LedgerHistory.logged].
    + erewrite bind_returned by reflexivity.
      cbn [result_of state_of fst snd].
      destruct (IH {| Agents.ledger_path := Agents.ledger_path self;
                      Agents.ledger := Agents.ledger self ++ [patch_data] |}) as [Hr Hs].
      split; [exact Hr |]. rewrite Hs. cbn. rewrite <- app_assoc. reflexivity.
    + erewrite bind_returned by reflexivity.
      cbn [result_of state_of fst snd]. apply IH.
Qed.

Lemma ledger_calls_app (h1 h2 : list LedgerHistory.LedgerCall)
    (self : Agents.KnowledgeCurator) :
  state_of (LedgerHistory.ledger_calls (h1 ++ h2) self)
  = state_of (LedgerHistory.ledger_calls h2
                (state_of (LedgerHistory.ledger_calls h1 self))).
Proof.
  rewrite (proj2 (ledger_calls_state (h1 ++ h2) self)).
  rewrite (proj2 (ledger_calls_state h2 _)).
  rewrite (proj2 (ledger_calls_state h1 self)). cbn.
  f_equal. rewrite <- app_assoc. f_equal.
  induction h1 as [| [patch_data |] rest IH]; cbn; [reflexivity | f_equal; exact IH | exact IH].
Qed.

(** C6: from a new ledger, after any sequence of [log_success] and
    [get_consolidated_knowledge] calls, [get_consolidated_knowledge] returns
    exactly the logged entries in the order of the calls, so its length is
    the number of [log_success] calls; along any sequence, from any state,
    the ledger read earlier is a prefix of the ledger read later, so the
    length never decreases and no entry is removed; [log_success] returns
    for every entry, having appended it. *)
Theorem ledger_append_only :
  (forall (ledger_path : string) (history : list LedgerHistory.LedgerCall),
      let after := state_of (LedgerHistory.ledger_calls history
                               (Agents.KnowledgeCurator_new ledger_path)) in
      result_of (LedgerHistory.ledger_calls history
                   (Agents.KnowledgeCurator_new ledger_path)) = Returned tt
      /\ result_of (Agents.get_consolidated_knowledge after)
         = Returned (LedgerHistory.logged history)
      /\ length (LedgerHistory.logged history)
         = length (List.filter LedgerHistory.is_log_success history))
  /\ (forall (self : Agents.KnowledgeCurator) (h1 h2 : list LedgerHistory.LedgerCall),
        let earlier := state_of (LedgerHistory.ledger_calls h1 self) in
        let later := state_of (LedgerHistory.ledger_calls (h1 ++ h2) self) in
        Agents.ledger earlier `prefix_of` Agents.ledger later
        /\ (length (Agents.ledger earlier) <= length (Agents.ledger later))%nat)
  /\ (forall (patch_data : pydict) (self : Agents.KnowledgeCurator),
        result_of (Agents.log_success patch_data self) = Returned tt
        /\ Agents.ledger (state_of (Agents.log_success patch_data self))
           = Agents.ledger self ++ [patch_data]).
Proof.
  split; [| split].
  - intros ledger_path history after.
    destruct (ledger_calls_state history (Agents.KnowledgeCurator_new ledger_path))
      as [Hr Hs].
    split; [exact Hr |]. split.
    + subst after. rewrite Hs. reflexivity.
    + clear. induction history as [| [patch_data |] rest IH]; cbn;
        [reflexivity | f_equal; exact IH | exact IH].
  - intros self h1 h2 earlier later.
    assert (Hpre : Agents.ledger earlier `prefix_of` Agents.ledger later).
    { subst earlier later. rewrite ledger_calls_app.
      rewrite (proj2 (ledger_calls_state h2 _)). cbn.
      apply prefix_app_r. reflexivity. }
    split; [exact Hpre | apply prefix_length, Hpre].
  - intros patch_data self. rewrite log_success_appends. split; reflexivity.
Qed.

(** ** The dispatcher's fan-out *)

(** What one worker returns, leaves and writes when it is [run]. *)
Lemma run_ANT (task : pydict) (self : Agents.ANT) :
  Agents.run task self
  = (result_of (Agents.ANT_execute task self),
     Agents.with_base (Agents.set_is_active false (Agents.ant_base self)) self,
     [Log Agents.logger INFO
        (Agents.name (Agents.ant_base self) +:+ " executing task: "
         +:+ Py.str (Py.get "type" task));
      Log Agents.logger INFO
        (Agents.name (Agents.ant_base self) +:+ " executing specialty: "
         +:+ Agents.specialty self)]).
Proof. reflexivity. Qed.

(** The loop of [_assign_task] over any list of workers. *)
Lemma for_each_run_ANT (task : pydict) (workers : list Agents.ANT) :
  exists results,
    for_each (Agents.run task) workers
    = (Returned results,
       map (fun ant => Agents.with_base
                         (Agents.set_is_active false (Agents.ant_base ant)) ant) workers,
       flat_map (fun ant => output_of (Agents.run task ant)) workers)
    /\ Forall2 (fun ant result =>
                  result_of (Agents.run task ant) = Returned result
                  /\ result_of (Agents.ANT_execute task ant) = Returned result
                  /\ Py.get "agent" result = PStr (Agents.name (Agents.ant_base ant)))
               workers results.
Proof.
  induction workers as [| ant rest IH].
  - exists []. split; [reflexivity | constructor].
  - destruct IH as (results & Hloop & Hall).
    eexists (_ :: results). split.
    + cbn [for_each]. rewrite run_ANT, Hloop. cbn. reflexivity.
    + constructor; [| exact Hall]. repeat split.
Qed.

(** C4: on a task of type [assign_task], [Manager.execute] runs every
    registered worker on that same task, first to last, and returns the
    status [distributed] with one result per worker, in the order of
    registration; each result is what that worker's [execute] returns for
    the whole task and carries that worker's name.  The dispatcher of the
    constructed system has the six workers of [ant_roles]. *)
Theorem Manager_execute_assign_task :
  (forall (task : pydict) (self : Agents.Manager),
      Py.eq_str (Py.get "type" task) "assign_task" = true ->
      exists results,
        result_of (Agents.Manager_execute task self)
        = Returned [("agent", PStr (Agents.name (Agents.manager_base self)));
                    ("status", PStr "distributed");
                    ("results", PList (map PDict results))]
        /\ length results = length (Agents.ants self)
        /\ Forall2 (fun ant result =>
                      result_of (Agents.run task ant) = Returned result
                      /\ result_of (Agents.ANT_execute task ant) = Returned result
                      /\ Py.get "agent" result = PStr (Agents.name (Agents.ant_base ant)))
                   (Agents.ants self) results
        /\ output_of (Agents.Manager_execute task self)
           = Log Agents.logger INFO
               (Agents.name (Agents.manager_base self) +:+ " assigning task to ANTS...")
             :: flat_map (fun ant => output_of (Agents.run task ant)) (Agents.ants self))
  /\ (forall (env : Env) (workspace_root : string),
        exists system,
          result_of (Orchestrator.DavidAI_new env workspace_root tt) = Returned system
          /\ map (fun ant => Agents.name (Agents.ant_base ant))
                 (Agents.ants (Orchestrator.manager system))
             = ["ANT1_Boilerplate"; "ANT2_LogicStubs"; "ANT3_DebugPatch";
                "ANT4_AutoTest"; "ANT5_Docs"; "ANT6_DeepLogic"]
          /\ length (Agents.ants (Orchestrator.manager system)) = 6%nat).
Proof.
  split.
  - intros task self Htype.
    destruct (for_each_run_ANT task (Agents.ants self)) as (results & Hloop & Hall).
    exists results.
    unfold Agents.Manager_execute. rewrite Htype.
    unfold Agents._assign_task, bind, gets, emit, zoom, result_of, output_of.
    cbn. rewrite Hloop. cbn. rewrite app_nil_r.
    split; [reflexivity |]. split; [| split; [exact Hall | reflexivity]].
    symmetry. eapply Forall2_length. exact Hall.
  - intros env workspace_root. eexists. split; [reflexivity |].
    split; reflexivity.
Qed.

Lemma Manager_execute_assign_task_witness :
  Py.eq_str (Py.get "type" Sample.assign_task) "assign_task" = true
  /\ exists results,
       result_of (Agents.Manager_execute Sample.assign_task Sample.dispatcher)
       = Returned [("agent", PStr "Manager");
                   ("status", PStr "distributed");
                   ("results", PList (map PDict results))]
       /\ length results = 6%nat.
Proof.
  split; [reflexivity |].
  destruct (proj1 Manager_execute_assign_task Sample.assign_task Sample.dispatcher eq_refl)
    as (results & Hresult & Hlength & _).
  exists results. split; [exact Hresult | exact Hlength].
Defined.

(** ** The process *)

Lemma agent_activity_app (o1 o2 : list output) :
  Orchestrator.agent_activity (o1 ++ o2)
  = Orchestrator.agent_activity o1 ++ Orchestrator.agent_activity o2.
Proof. unfold Orchestrator.agent_activity. apply List.filter_app. Qed.

Lemma print_logs_quiet {S} (lines : list string) (s : S) :
  exists o,
    CommandCenter.print_logs lines s = (Returned tt, s, o)
    /\ Orchestrator.agent_activity o = [].
Proof.
  induction lines as [| line rest IH].
  - exists []. split; reflexivity.
  - destruct IH as (o & Hrest & Hquiet).
    eexists. cbn [CommandCenter.print_logs]. split.
    + erewrite bind_returned by reflexivity. rewrite Hrest. reflexivity.
    + cbn. exact Hquiet.
Qed.

Lemma render_quiet (env : Env) (self : CommandCenter.Dashboard) :
  exists o,
    CommandCenter.render env self = (Returned tt, self, o)
    /\ Orchestrator.agent_activity o = [].
Proof.
  unfold CommandCenter.render.
  erewrite bind_returned by reflexivity.
  destruct (CommandCenter.is_running self); cbn [negb].
  2: { exists []. split; reflexivity. }
  destruct (print_logs_quiet
              (skipn (length (CommandCenter.logs self) - 10) (CommandCenter.logs self)) self)
    as (o & Hlogs & Hquiet).
  repeat (erewrite bind_returned by reflexivity; cbn [result_of state_of output_of fst snd]).
  rewrite (bind_returned _ _ _ _ _ _ Hlogs).
  cbn [result_of state_of output_of fst snd print emit].
  eexists. split; [reflexivity |].
  rewrite !agent_activity_app, Hquiet. reflexivity.
Qed.

Lemma start_step_quiet (env : Env) (pc : CommandCenter.DashboardThread)
    (self : CommandCenter.Dashboard) :
  exists pc1 self1 o,
    CommandCenter.start_step env pc self = (Returned pc1, self1, o)
    /\ Orchestrator.agent_activity o = [].
Proof.
  destruct pc; cbn [CommandCenter.start_step].
  - do 3 eexists. split; reflexivity.
  - erewrite bind_returned by reflexivity.
    cbn [result_of state_of output_of fst snd].
    destruct (CommandCenter.is_running self).
    + destruct (render_quiet env self) as (o & Hrender & Hquiet).
      rewrite (bind_returned _ _ _ _ _ _ Hrender). cbn.
      do 3 eexists. split; [reflexivity |].
      rewrite app_nil_r. exact Hquiet.
    + do 3 eexists. split; reflexivity.
  - do 3 eexists. split; reflexivity.
Qed.

(** A step of a thread while the system is stopped or paused: the flags
    and the agents are as before and no agent has worked. *)
Lemma thread_step_idle (env : Env) (t : Orchestrator.Thread) (self : Orchestrator.DavidAI) :
  Orchestrator.is_running self = false \/ Orchestrator.is_paused self = true ->
  exists t1 self1 o,
    Orchestrator.thread_step env t self = (Returned t1, self1, o)
    /\ Orchestrator.is_running self1 = Orchestrator.is_running self
    /\ Orchestrator.is_paused self1 = Orchestrator.is_paused self
    /\ Orchestrator.knowledge_curator self1 = Orchestrator.knowledge_curator self
    /\ Orchestrator.agent_activity o = [].
Proof.
  intros Hidle. destruct t as [pc | pc]; cbn [Orchestrator.thread_step].
  - destruct (start_step_quiet env pc (Orchestrator.dashboard self))
      as (pc1 & dash1 & o & Hstep & Hquiet).
    unfold bind, Orchestrator.on_dashboard, zoom. rewrite Hstep. cbn.
    do 3 eexists. split; [reflexivity |]. rewrite app_nil_r. repeat split. exact Hquiet.
  - destruct pc as [| start_time |]; cbn [Orchestrator._run_cycle_step].
    + do 3 eexists. split; [reflexivity |]. repeat split.
    + unfold bind, gets. cbn.
      destruct (Orchestrator.is_running self) eqn:Hrun; cbn.
      * destruct Hidle as [Hstop | Hpaused]; [discriminate Hstop |].
        rewrite Hpaused. cbn. do 3 eexists. split; [reflexivity |].
        repeat split; congruence.
      * do 3 eexists. split; [reflexivity |]. repeat split; congruence.
    + do 3 eexists. split; [reflexivity |]. repeat split.
Qed.


(** A call while no cycle body can run: a control call, or a step of a
    thread while the system is stopped or paused.  The call returns, the
    flags change only as the call says, the ledger and the agents' log are
    untouched. *)
Lemma perform_idle (env : Env) (c : Orchestrator.Call) (w : Orchestrator.World) :
  (forall tid, c = Orchestrator.Tick tid ->
     Orchestrator.is_running (Orchestrator.system w) = false
     \/ Orchestrator.is_paused (Orchestrator.system w) = true) ->
  exists w1 o,
    Orchestrator.perform env c w = (Returned tt, w1, o)
    /\ Orchestrator.is_running (Orchestrator.system w1)
       = match c with
         | Orchestrator.Start => true
         | Orchestrator.Shutdown => false
         | _ => Orchestrator.is_running (Orchestrator.system w)
         end
    /\ Orchestrator.is_paused (Orchestrator.system w1)
       = match c with
         | Orchestrator.Pause => negb (Orchestrator.is_paused (Orchestrator.system w))
         | _ => Orchestrator.is_paused (Orchestrator.system w)
         end
    /\ Orchestrator.knowledge_curator (Orchestrator.system w1)
       = Orchestrator.knowledge_curator (Orchestrator.system w)
    /\ Orchestrator.agent_activity o = [].
Proof.
  intros Hidle. destruct c as [| | | | tid]; cbn [Orchestrator.perform].
  - unfold Orchestrator.start_cycle, bind, gets. cbn.
    destruct (Orchestrator.is_running (Orchestrator.system w)) eqn:Hrun.
    + do 2 eexists. split; [reflexivity |]. repeat split; congruence.
    + do 2 eexists. split; [reflexivity |]. repeat split.
  - do 2 eexists. split; [reflexivity |]. repeat split.
  - do 2 eexists. split; [reflexivity |]. repeat split.
  - do 2 eexists. split; [reflexivity |]. cbn. destruct w. repeat split.
  - unfold Orchestrator.tick.
    destruct (Orchestrator.threads w !! tid) as [t |].
    + destruct (thread_step_idle env t (Orchestrator.system w) (Hidle tid eq_refl))
        as (t1 & self1 & o & Hstep & Hrun & Hpaused & Hledger & Hquiet).
      rewrite Hstep. do 2 eexists. split; [reflexivity |]. cbn. repeat split; assumption.
    + do 2 eexists. split; [reflexivity |]. repeat split.
Qed.

Lemma perform_all_cons (env : Env) (c : Orchestrator.Call) (rest : list (Env * Orchestrator.Call))
    (w w1 : Orchestrator.World) (o : list output) :
  Orchestrator.perform env c w = (Returned tt, w1, o) ->
  Orchestrator.perform_all ((env, c) :: rest) w
  = (result_of (Orchestrator.perform_all rest w1),
     state_of (Orchestrator.perform_all rest w1),
     o ++ output_of (Orchestrator.perform_all rest w1)).
Proof.
  intros Hcall. cbn [Orchestrator.perform_all].
  exact (bind_returned _ (fun _ => Orchestrator.perform_all rest) _ _ _ _ Hcall).
Qed.

(** While paused, and as long as [pause_cycle] is not called, the system
    stays paused, the ledger is not written and no agent works. *)
Lemma perform_all_paused (history : list (Env * Orchestrator.Call)) (w : Orchestrator.World) :
  Forall (fun call => snd call <> Orchestrator.Pause) history ->
  Orchestrator.is_paused (Orchestrator.system w) = true ->
  result_of (Orchestrator.perform_all history w) = Returned tt
  /\ Orchestrator.is_paused (Orchestrator.system (state_of (Orchestrator.perform_all history w)))
     = true
  /\ Orchestrator.knowledge_curator
       (Orchestrator.system (state_of (Orchestrator.perform_all history w)))
     = Orchestrator.knowledge_curator (Orchestrator.system w)
  /\ Orchestrator.agent_activity (output_of (Orchestrator.perform_all history w)) = [].
Proof.
  intros Hcalls. revert w.
  induction Hcalls as [| [env c] rest Hc _ IH]; intros w Hpaused.
  - cbn. repeat split; try assumption.
  - destruct (perform_idle env c w (fun _ _ => or_intror Hpaused))
      as (w1 & o & Hcall & _ & Hflag & Hledger & Hquiet).
    rewrite (perform_all_cons _ _ _ _ _ _ Hcall). cbn [result_of state_of output_of fst snd].
    assert (Hpaused1 : Orchestrator.is_paused (Orchestrator.system w1) = true).
    { rewrite Hflag. cbn in Hc. destruct c; congruence. }
    destruct (IH w1 Hpaused1) as (Hr & Hs & Hl & Hq).
    rewrite agent_activity_app, Hquiet, Hq, Hl, Hledger. repeat split; assumption.
Qed.

(** The observations are not idle: one iteration of the cycle of the
    running sample system has the agents work and appends one entry. *)
Example working_tick_dispatches :
  Agents.ledger (Orchestrator.knowledge_curator (Orchestrator.system Sample.working_world))
  = [[("task", PStr "simulated_task"); ("success", PBool true)]]
  /\ length (Orchestrator.agent_activity
               (output_of (Orchestrator.tick Sample.env 1 Sample.working_world))) = 16%nat
  /\ length (Agents.ledger
               (Orchestrator.knowledge_curator
                  (Orchestrator.system
                     (state_of (Orchestrator.tick Sample.env 1 Sample.working_world))))) = 2%nat.
Proof. vm_compute. repeat split. Qed.

Example sample_system_constructed :
  result_of (Orchestrator.DavidAI_new Sample.env "/ws" tt) = Returned Sample.system.
Proof. reflexivity. Qed.

(** *** Shutdown and the cycle thread, statement by statement *)

Lemma count_inside_insert (l : list Interleaving.Thread) (i : nat)
    (t t1 : Interleaving.Thread) :
  l !! i = Some t ->
  (length (List.filter Interleaving.inside (<[i := t1]> l))
   + Nat.b2n (Interleaving.inside t)
   = length (List.filter Interleaving.inside l) + Nat.b2n (Interleaving.inside t1))%nat.
Proof.
  revert i. induction l as [| x rest IH]; intros i Hi; [discriminate Hi |].
  destruct i as [| i]; cbn [lookup list_lookup] in Hi.
  - injection Hi as ->. cbn -[Interleaving.inside].
    destruct (Interleaving.inside t), (Interleaving.inside t1); cbn; lia.
  - specialize (IH i Hi).
    change (<[S i := t1]> (x :: rest)) with (x :: <[i := t1]> rest). cbn [List.filter].
    destruct (Interleaving.inside x); cbn [Datatypes.length]; lia.
Qed.

Lemma count_inside_none (l : list Interleaving.Thread) (i : nat) (t : Interleaving.Thread) :
  l !! i = Some t ->
  length (List.filter Interleaving.inside l) = 0%nat ->
  Interleaving.inside t = false.
Proof.
  revert i. induction l as [| x rest IH]; intros i Hi Hnone; [discriminate Hi |].
  cbn [List.filter] in Hnone.
  destruct (Interleaving.inside x) eqn:Hx; [discriminate Hnone |].
  destruct i as [| i]; cbn [lookup list_lookup] in Hi.
  - injection Hi as <-. exact Hx.
  - exact (IH i Hi Hnone).
Qed.

(** One statement of [_simulate_work]: the flag [is_running] is not
    written, and only [log_success] writes the ledger, one entry. *)
Lemma work_statement_effect (env : Env) (s : Interleaving.WorkStatement)
    (self : Orchestrator.DavidAI) :
  exists r self1 o,
    Interleaving.work_statement env s self = (r, self1, o)
    /\ Orchestrator.is_running self1 = Orchestrator.is_running self
    /\ exists extra,
         Agents.ledger (Orchestrator.knowledge_curator self1)
         = Agents.ledger (Orchestrator.knowledge_curator self) ++ extra
         /\ (length extra
             <= match s, r with
                | Interleaving.LogSuccess, Returned _ => 1
                | _, _ => 0
                end)%nat.
Proof.
  destruct s; cbn [Interleaving.work_statement].
  - do 3 eexists. split; [reflexivity |]. split; [reflexivity |].
    exists []. rewrite app_nil_r. split; [reflexivity | cbn; lia].
  - unfold bind, zoom.
    destruct (Agents.run _ (Orchestrator.ceo self)) as [[[result | e] c] o];
      do 3 eexists; (split; [reflexivity |]); (split; [reflexivity |]);
      exists []; rewrite app_nil_r; (split; [reflexivity | cbn; lia]).
  - unfold Orchestrator.on_dashboard, zoom.
    destruct (CommandCenter.log_message _ _ _ (Orchestrator.dashboard self))
      as [[r d] o].
    do 3 eexists. split; [reflexivity |]. split; [reflexivity |].
    exists []. rewrite app_nil_r. split; [reflexivity | cbn; lia].
  - unfold bind, zoom.
    destruct (Agents.run _ (Orchestrator.manager self)) as [[[result | e] c] o];
      do 3 eexists; (split; [reflexivity |]); (split; [reflexivity |]);
      exists []; rewrite app_nil_r; (split; [reflexivity | cbn; lia]).
  - unfold Orchestrator.on_dashboard, zoom.
    destruct (CommandCenter.log_message _ _ _ (Orchestrator.dashboard self))
      as [[r d] o].
    do 3 eexists. split; [reflexivity |]. split; [reflexivity |].
    exists []. rewrite app_nil_r. split; [reflexivity | cbn; lia].
  - do 3 eexists. split; [reflexivity |]. split; [reflexivity |].
    eexists [_]. split; [reflexivity | cbn; lia].
Qed.

(** [log_message] returns, and what it writes is one printed line. *)
Lemma log_message_print (env : Env) (source message : string)
    (self : CommandCenter.Dashboard) :
  CommandCenter.log_message env source message self
  = (Returned tt, state_of (CommandCenter.log_message env source message self),
     [Print ("[" +:+ strftime env "%H:%M:%S" +:+ "] [" +:+ source +:+ "] " +:+ message)
        Agents.newline]).
Proof. reflexivity. Qed.

(** One statement of the cycle thread on a stopped system: the system
    stays stopped; the ledger gets an entry only from a thread that was
    inside an iteration and is then no longer; a thread that was not inside
    an iteration does not get inside one and no agent works. *)
Lemma cycle_statement_stopped (env : Env) (point : Interleaving.CyclePoint)
    (self : Orchestrator.DavidAI) :
  Orchestrator.is_running self = false ->
  exists r self1 o,
    Interleaving.cycle_statement env point self = (r, self1, o)
    /\ Orchestrator.is_running self1 = false
    /\ (exists extra,
          Agents.ledger (Orchestrator.knowledge_curator self1)
          = Agents.ledger (Orchestrator.knowledge_curator self) ++ extra
          /\ (length extra
              + match r with
                | Returned point1 => Nat.b2n (Interleaving.entered point1)
                | Raised _ => 0
                end
              <= Nat.b2n (Interleaving.entered point))%nat)
    /\ (Interleaving.entered point = false -> Orchestrator.agent_activity o = []).
Proof.
  intros Hstopped.
  destruct point as [| start_time | start_time | start_time | | | start_time s |];
    cbn [Interleaving.cycle_statement Interleaving.entered].
  - do 3 eexists. split; [reflexivity |]. split; [exact Hstopped |].
    split; [| reflexivity]. exists []. rewrite app_nil_r. split; [reflexivity | cbn; lia].
  - unfold bind, gets, ret. rewrite Hstopped. cbn [fst snd].
    do 3 eexists. split; [reflexivity |]. split; [exact Hstopped |].
    split; [| reflexivity]. exists []. rewrite app_nil_r. split; [reflexivity | cbn; lia].
  - unfold bind, gets, ret. cbn [fst snd].
    do 3 eexists. split; [reflexivity |]. split; [exact Hstopped |].
    split; [| discriminate]. exists []. rewrite app_nil_r. split; [reflexivity |].
    destruct (Orchestrator.is_paused self); cbn; lia.
  - unfold ret.
    do 3 eexists. split; [reflexivity |]. split; [exact Hstopped |].
    split; [| discriminate]. exists []. rewrite app_nil_r. split; [reflexivity |].
    destruct (_ >? _); cbn; lia.
  - unfold bind, Orchestrator.on_dashboard, zoom, ret.
    rewrite log_message_print. cbn [fst snd].
    do 3 eexists. split; [reflexivity |]. split; [exact Hstopped |].
    split; [| reflexivity]. exists []. rewrite app_nil_r. split; [reflexivity | cbn; lia].
  - do 3 eexists. split; [reflexivity |]. split; [reflexivity |].
    split; [| reflexivity]. exists []. rewrite app_nil_r. split; [reflexivity | cbn; lia].
  - destruct (work_statement_effect env s self)
      as (r & self1 & o & Hwork & Hrunning & extra & Hledger & Hlength).
    unfold bind. rewrite Hwork.
    destruct r as [[] | e]; cbn [fst snd ret];
      do 3 eexists; (split; [reflexivity |]);
      (split; [rewrite Hrunning; exact Hstopped |]);
      (split; [| discriminate]); exists extra; (split; [exact Hledger |]).
    + destruct s; cbn [Interleaving.after_work Interleaving.entered Nat.b2n] in *; lia.
    + destruct s; cbn [Nat.b2n] in *; lia.
  - do 3 eexists. split; [reflexivity |]. split; [exact Hstopped |].
    split; [| reflexivity]. exists []. rewrite app_nil_r. split; [reflexivity | cbn; lia].
Qed.

(** One step of a thread of a stopped process. *)
Lemma step_stopped (env : Env) (tid : nat) (p : Interleaving.Process) :
  Orchestrator.is_running (Interleaving.system p) = false ->
  exists p1 o,
    Interleaving.step env tid p = (Returned tt, p1, o)
    /\ Orchestrator.is_running (Interleaving.system p1) = false
    /\ (exists extra,
          Agents.ledger (Orchestrator.knowledge_curator (Interleaving.system p1))
          = Agents.ledger (Orchestrator.knowledge_curator (Interleaving.system p)) ++ extra
          /\ (length extra
              + length (List.filter Interleaving.inside (Interleaving.threads p1))
              <= length (List.filter Interleaving.inside (Interleaving.threads p)))%nat)
    /\ (forall (i : nat) (t : Interleaving.Thread),
          Interleaving.threads p !! i = Some t ->
          Interleaving.inside t = false ->
          exists t1, Interleaving.threads p1 !! i = Some t1 /\ Interleaving.inside t1 = false)
    /\ (length (List.filter Interleaving.inside (Interleaving.threads p)) = 0%nat ->
        Orchestrator.agent_activity o = []).
Proof.
  intros Hstopped. unfold Interleaving.step.
  destruct (Interleaving.threads p !! tid) as [t |] eqn:Htid.
  2: { exists p, []. split; [reflexivity |]. split; [exact Hstopped |].
       split; [| split; [eauto | reflexivity]].
       exists []. rewrite app_nil_r. split; [reflexivity |].
       cbn [Datatypes.length]. lia. }
  assert (Hothers : forall t1 : Interleaving.Thread,
             (Interleaving.inside t = false -> Interleaving.inside t1 = false) ->
             forall (i : nat) (t0 : Interleaving.Thread),
               Interleaving.threads p !! i = Some t0 ->
               Interleaving.inside t0 = false ->
               exists t2,
                 <[tid := t1]> (Interleaving.threads p) !! i = Some t2
                 /\ Interleaving.inside t2 = false).
  { intros t1 Hkeeps i t0 Hi Houtside.
    destruct (decide (tid = i)) as [<- | Hne].
    - exists t1. split.
      + apply list_lookup_insert_eq, lookup_lt_is_Some. eauto.
      + apply Hkeeps. rewrite Htid in Hi. injection Hi as ->. exact Houtside.
    - exists t0. split; [| exact Houtside].
      rewrite list_lookup_insert_ne by exact Hne. exact Hi. }
  destruct t as [pc | point]; cbn [Interleaving.thread_step].
  - destruct (start_step_quiet env pc (Orchestrator.dashboard (Interleaving.system p)))
      as (pc1 & dash1 & o & Hstep & Hquiet).
    unfold bind, Orchestrator.on_dashboard, zoom. rewrite Hstep. cbn [fst snd ret].
    do 2 eexists. split; [reflexivity |].
    cbn [Interleaving.system Interleaving.threads].
    split; [exact Hstopped |]. split; [| split].
    + exists []. rewrite app_nil_r. split; [reflexivity |].
      pose proof (count_inside_insert _ _ _ (Interleaving.Dashboard pc1) Htid) as Hcount.
      cbn [Interleaving.inside Nat.b2n] in Hcount. cbn [Datatypes.length]. lia.
    + apply Hothers. reflexivity.
    + intros _. rewrite app_nil_r. exact Hquiet.
  - destruct (cycle_statement_stopped env point (Interleaving.system p) Hstopped)
      as (r & self1 & o & Hstatement & Hrunning & (extra & Hledger & Hlength) & Hquiet).
    unfold bind. rewrite Hstatement.
    destruct r as [point1 | e]; cbn [fst snd ret Interleaving.finished].
    + do 2 eexists. split; [reflexivity |].
      cbn [Interleaving.system Interleaving.threads].
      split; [exact Hrunning |]. split; [| split].
      * exists extra. split; [exact Hledger |].
        pose proof (count_inside_insert _ _ _ (Interleaving.Cycle point1) Htid) as Hcount.
        cbn [Interleaving.inside] in Hcount. lia.
      * apply Hothers. cbn [Interleaving.inside]. intros Houtside.
        rewrite Houtside in Hlength. cbn [Nat.b2n] in Hlength.
        destruct (Interleaving.entered point1); [cbn [Nat.b2n] in Hlength; lia | reflexivity].
      * intros Hnone. rewrite app_nil_r. apply Hquiet.
        exact (count_inside_none _ _ _ Htid Hnone).
    + do 2 eexists. split; [reflexivity |].
      cbn [Interleaving.system Interleaving.threads].
      split; [exact Hrunning |]. split; [| split].
      * exists extra. split; [exact Hledger |].
        pose proof (count_inside_insert _ _ _
                      (Interleaving.Cycle Interleaving.CycleReturned) Htid) as Hcount.
        cbn [Interleaving.inside Interleaving.entered Nat.b2n] in Hcount. lia.
      * apply Hothers. reflexivity.
      * intros Hnone. apply Hquiet.
        exact (count_inside_none _ _ _ Htid Hnone).
Qed.

(** One call other than [start_cycle] on a stopped process. *)
Lemma perform_stopped (env : Env) (c : Interleaving.Call) (p : Interleaving.Process) :
  c <> Interleaving.Start ->
  Orchestrator.is_running (Interleaving.system p) = false ->
  exists p1 o,
    Interleaving.perform env c p = (Returned tt, p1, o)
    /\ Orchestrator.is_running (Interleaving.system p1) = false
    /\ (exists extra,
          Agents.ledger (Orchestrator.knowledge_curator (Interleaving.system p1))
          = Agents.ledger (Orchestrator.knowledge_curator (Interleaving.system p)) ++ extra
          /\ (length extra
              + length (List.filter Interleaving.inside (Interleaving.threads p1))
              <= length (List.filter Interleaving.inside (Interleaving.threads p)))%nat)
    /\ (forall (i : nat) (t : Interleaving.Thread),
          Interleaving.threads p !! i = Some t ->
          Interleaving.inside t = false ->
          exists t1, Interleaving.threads p1 !! i = Some t1 /\ Interleaving.inside t1 = false)
    /\ (length (List.filter Interleaving.inside (Interleaving.threads p)) = 0%nat ->
        Orchestrator.agent_activity o = []).
Proof.
  intros Hcall Hstopped.
  assert (Hkept : forall (p1 : Interleaving.Process),
             Agents.ledger (Orchestrator.knowledge_curator (Interleaving.system p1))
             = Agents.ledger (Orchestrator.knowledge_curator (Interleaving.system p)) ->
             Interleaving.threads p1 = Interleaving.threads p ->
             (exists extra,
                Agents.ledger (Orchestrator.knowledge_curator (Interleaving.system p1))
                = Agents.ledger (Orchestrator.knowledge_curator (Interleaving.system p))
                  ++ extra
                /\ (length extra
                    + length (List.filter Interleaving.inside (Interleaving.threads p1))
                    <= length (List.filter Interleaving.inside (Interleaving.threads p)))%nat)
             /\ (forall (i : nat) (t : Interleaving.Thread),
                   Interleaving.threads p !! i = Some t ->
                   Interleaving.inside t = false ->
                   exists t1,
                     Interleaving.threads p1 !! i = Some t1
                     /\ Interleaving.inside t1 = false)).
  { intros p1 Hledger Hthreads. rewrite Hthreads. split; [| eauto].
    exists []. rewrite app_nil_r.
    split; [exact Hledger | cbn [Datatypes.length]; lia]. }
  destruct c as [| | | | tid]; [congruence | | | | apply step_stopped, Hstopped];
    cbn [Interleaving.perform].
  - unfold Interleaving.on_system, zoom, Orchestrator.pause_cycle, bind, modify, gets,
      Orchestrator.on_dashboard, zoom.
    cbn [fst snd]. rewrite log_message_print. cbn [fst snd].
    do 2 eexists. split; [reflexivity |]. split; [exact Hstopped |].
    match goal with
    | |- (exists extra, Agents.ledger
                          (Orchestrator.knowledge_curator (Interleaving.system ?p1)) = _
                        /\ _) /\ _ =>
        destruct (Hkept p1 eq_refl eq_refl) as [Hledger Houtside]
    end.
    split; [exact Hledger |]. split; [exact Houtside | reflexivity].
  - do 2 eexists. split; [reflexivity |]. split; [reflexivity |].
    match goal with
    | |- (exists extra, Agents.ledger
                          (Orchestrator.knowledge_curator (Interleaving.system ?p1)) = _
                        /\ _) /\ _ =>
        destruct (Hkept p1 eq_refl eq_refl) as [Hledger Houtside]
    end.
    split; [exact Hledger |]. split; [exact Houtside | reflexivity].
  - do 2 eexists. split; [reflexivity |]. split; [exact Hstopped |].
    match goal with
    | |- (exists extra, Agents.ledger
                          (Orchestrator.knowledge_curator (Interleaving.system ?p1)) = _
                        /\ _) /\ _ =>
        destruct (Hkept p1 eq_refl eq_refl) as [Hledger Houtside]
    end.
    split; [exact Hledger |]. split; [exact Houtside | reflexivity].
Qed.

(** Once stopped, and as long as [start_cycle] is not called: the system
    stays stopped, no thread gets inside an iteration, and the ledger gets
    at most one entry for each thread that leaves the iteration it was
    in. *)
Lemma perform_all_after_shutdown (history : list (Env * Interleaving.Call))
    (p : Interleaving.Process) :
  Forall (fun call => snd call <> Interleaving.Start) history ->
  Orchestrator.is_running (Interleaving.system p) = false ->
  let later := Interleaving.perform_all history p in
  result_of later = Returned tt
  /\ Orchestrator.is_running (Interleaving.system (state_of later)) = false
  /\ (exists appended,
        Agents.ledger (Orchestrator.knowledge_curator (Interleaving.system (state_of later)))
        = Agents.ledger (Orchestrator.knowledge_curator (Interleaving.system p)) ++ appended
        /\ (length appended
            + length (List.filter Interleaving.inside
                        (Interleaving.threads (state_of later)))
            <= length (List.filter Interleaving.inside (Interleaving.threads p)))%nat)
  /\ (forall (i : nat) (t : Interleaving.Thread),
        Interleaving.threads p !! i = Some t ->
        Interleaving.inside t = false ->
        exists t1,
          Interleaving.threads (state_of later) !! i = Some t1
          /\ Interleaving.inside t1 = false)
  /\ (length (List.filter Interleaving.inside (Interleaving.threads p)) = 0%nat ->
      Orchestrator.agent_activity (output_of later) = []).
Proof.
  intros Hcalls. revert p.
  induction Hcalls as [| [env c] rest Hcall Hrest IH]; intros p Hstopped; cbn zeta.
  - split; [reflexivity |]. split; [exact Hstopped |].
    split; [| split; [eauto | reflexivity]].
    exists []. rewrite app_nil_r. split; [reflexivity |].
    cbn [Interleaving.perform_all ret state_of fst snd Datatypes.length]. lia.
  - destruct (perform_stopped env c p Hcall Hstopped)
      as (p1 & o & Hperform & Hstopped1 & (extra & Hledger & Hlength) & Houtside & Hquiet).
    cbn [Interleaving.perform_all].
    rewrite (bind_returned _ _ _ _ _ _ Hperform).
    destruct (IH p1 Hstopped1)
      as (Hresult & Hstopped2 & (more & Hledger' & Hlength') & Houtside' & Hquiet').
    cbn [result_of state_of output_of fst snd].
    split; [exact Hresult |]. split; [exact Hstopped2 |]. split; [| split].
    + exists (extra ++ more). rewrite Hledger', Hledger, <- app_assoc.
      split; [reflexivity |]. rewrite length_app. lia.
    + intros i t Hi Ht. destruct (Houtside i t Hi Ht) as (t1 & Hi1 & Ht1).
      exact (Houtside' i t1 Hi1 Ht1).
    + intros Hnone. rewrite agent_activity_app, (Hquiet Hnone). apply Hquiet'. lia.
Qed.

(** C5, amended: from any state, [shutdown] returns and leaves the status
    [running] false, and a second [shutdown] returns and leaves the state
    it found.  [shutdown] does not wait for the cycle thread.  As long as
    [start_cycle] is not called again, the system stays stopped and no
    thread gets past the test of its loop, so no iteration begins; but a
    thread that was past that test when [shutdown] was called goes on with
    the iteration it is in.  So the ledger keeps its entries and may get
    one more for each such thread; when no thread was inside an iteration,
    the ledger is not written and no agent works. *)
Theorem shutdown_stops_cycle (env : Env) (p : Interleaving.Process) :
  let stopped := state_of (Interleaving.perform env Interleaving.Shutdown p) in
  let entries := fun q : Interleaving.Process =>
    Agents.ledger (Orchestrator.knowledge_curator (Interleaving.system q)) in
  let inside := fun q : Interleaving.Process =>
    length (List.filter Interleaving.inside (Interleaving.threads q)) in
  result_of (Interleaving.perform env Interleaving.Shutdown p) = Returned tt
  /\ (exists status,
        result_of (Orchestrator.get_status (Interleaving.system stopped)) = Returned status
        /\ Py.get "running" status = PBool false)
  /\ (forall history : list (Env * Interleaving.Call),
        Forall (fun call => snd call <> Interleaving.Start) history ->
        let later := Interleaving.perform_all history stopped in
        result_of later = Returned tt
        /\ Orchestrator.is_running (Interleaving.system (state_of later)) = false
        /\ (forall (tid : nat) (t : Interleaving.Thread),
              Interleaving.threads p !! tid = Some t ->
              Interleaving.inside t = false ->
              exists t1,
                Interleaving.threads (state_of later) !! tid = Some t1
                /\ Interleaving.inside t1 = false)
        /\ (exists appended,
              entries (state_of later) = entries p ++ appended
              /\ (length appended + inside (state_of later) <= inside p)%nat)
        /\ (inside p = 0%nat ->
            entries (state_of later) = entries p
            /\ Orchestrator.agent_activity (output_of later) = []))
  /\ (forall env' : Env,
        result_of (Interleaving.perform env' Interleaving.Shutdown stopped) = Returned tt
        /\ state_of (Interleaving.perform env' Interleaving.Shutdown stopped) = stopped).
Proof.
  cbn zeta. split; [reflexivity |]. split; [| split].
  - eexists. split; reflexivity.
  - intros history Hcalls.
    destruct (perform_all_after_shutdown history
                (state_of (Interleaving.perform env Interleaving.Shutdown p))
                Hcalls eq_refl)
      as (Hresult & Hstopped & (appended & Hledger & Hlength) & Houtside & Hquiet).
    split; [exact Hresult |]. split; [exact Hstopped |].
    split; [exact Houtside |]. split.
    + exists appended. split; [exact Hledger | exact Hlength].
    + intros Hnone. split; [| apply Hquiet, Hnone].
      rewrite Hledger.
      change (length (List.filter Interleaving.inside
                        (Interleaving.threads
                           (state_of (Interleaving.perform env Interleaving.Shutdown p)))))
        with (length (List.filter Interleaving.inside (Interleaving.threads p)))
        in Hlength.
      destruct appended; [apply app_nil_r | cbn [Datatypes.length] in Hlength; lia].
  - intros env'. split; reflexivity.
Qed.

Lemma shutdown_stops_cycle_witness :
  Forall (fun call => snd call <> Interleaving.Start) Sample.rest_of_iteration
  /\ Orchestrator.is_running
       (Interleaving.system
          (state_of
             (Interleaving.perform_all Sample.rest_of_iteration
                (state_of (Interleaving.perform Sample.env Interleaving.Shutdown
                             Sample.entered_process)))))
     = false.
Proof.
  assert (Hcalls : Forall (fun call => snd call <> Interleaving.Start)
                     Sample.rest_of_iteration).
  { unfold Sample.rest_of_iteration. repeat constructor; discriminate. }
  split; [exact Hcalls |].
  destruct (shutdown_stops_cycle Sample.env Sample.entered_process)
    as (_ & _ & Hlater & _).
  destruct (Hlater Sample.rest_of_iteration Hcalls) as (_ & Hstopped & _).
  exact Hstopped.
Defined.

(** C5 (the claim as stated fails): [shutdown] comes while the cycle
    thread is between the test of its loop and the work of the iteration.
    The thread, started by [start_cycle], has found [is_running] set; after
    [shutdown] has returned, and without another [start_cycle], the planner
    and the dispatcher are run and the ledger gets an entry. *)
Lemma shutdown_midway_counterexample :
  let stopped :=
    state_of (Interleaving.perform Sample.env Interleaving.Shutdown
                Sample.entered_process) in
  let later := Interleaving.perform_all Sample.rest_of_iteration stopped in
  Interleaving.threads Sample.entered_process !! 1%nat
  = Some (Interleaving.Cycle (Interleaving.PausedTest 1000))
  /\ Forall (fun call => snd call <> Interleaving.Start) Sample.rest_of_iteration
  /\ Orchestrator.is_running (Interleaving.system stopped) = false
  /\ Agents.ledger (Orchestrator.knowledge_curator (Interleaving.system Sample.entered_process))
     = []
  /\ Agents.ledger (Orchestrator.knowledge_curator (Interleaving.system (state_of later)))
     = [Planner.simulated_entry]
  /\ In (Log Agents.logger INFO "Manager executing task: assign_task")
        (Orchestrator.agent_activity (output_of later)).
Proof.
  cbn zeta. split; [reflexivity |]. split.
  - unfold Sample.rest_of_iteration. repeat constructor; discriminate.
  - split; [reflexivity |]. split; [reflexivity |]. split; [reflexivity |].
    vm_compute. tauto.
Qed.

(** C7: [start_cycle] on a system whose [is_running] flag is set, paused
    or not, returns at once: nothing is written and no thread is started.
    So a second [start_cycle] in a row changes nothing, also with a
    [pause_cycle] in between, and after the two calls the process has the
    one cycle thread the first call started. *)
Theorem start_cycle_idempotent (env1 env2 : Env) (w : Orchestrator.World) :
  (Orchestrator.is_running (Orchestrator.system w) = true ->
   Orchestrator.start_cycle env1 w = (Returned tt, w, []))
  /\ let started := state_of (Orchestrator.start_cycle env1 w) in
     Orchestrator.is_running (Orchestrator.system started) = true
     /\ Orchestrator.start_cycle env2 started = (Returned tt, started, [])
     /\ (forall env : Env,
           let paused := state_of (Orchestrator.perform env Orchestrator.Pause started) in
           Orchestrator.start_cycle env2 paused = (Returned tt, paused, []))
     /\ (Orchestrator.is_running (Orchestrator.system w) = false ->
         Orchestrator.threads (state_of (Orchestrator.start_cycle env2 started))
         = Orchestrator.threads w
           ++ [Orchestrator.DashboardThread CommandCenter.DashNew;
               Orchestrator.MainLoopThread Orchestrator.CycleNew]).
Proof.
  assert (Hnoop : forall env w0,
             Orchestrator.is_running (Orchestrator.system w0) = true ->
             Orchestrator.start_cycle env w0 = (Returned tt, w0, [])).
  { intros env w0 Hrun. unfold Orchestrator.start_cycle, bind, gets. cbn.
    rewrite Hrun. reflexivity. }
  assert (Hstarted : Orchestrator.is_running
                       (Orchestrator.system (state_of (Orchestrator.start_cycle env1 w)))
                     = true).
  { unfold Orchestrator.start_cycle, bind, gets. cbn.
    destruct (Orchestrator.is_running (Orchestrator.system w)) eqn:Hrun;
      [exact Hrun | reflexivity]. }
  split; [apply Hnoop |]. intros started.
  split; [exact Hstarted |]. split; [apply Hnoop, Hstarted |]. split.
  - intros env paused. apply Hnoop. subst paused. cbn. exact Hstarted.
  - intros Hidle. rewrite (Hnoop env2 started Hstarted). subst started.
    unfold Orchestrator.start_cycle, bind, gets. cbn. rewrite Hidle. cbn.
    rewrite <- app_assoc. reflexivity.
Qed.

Lemma start_cycle_idempotent_witness :
  Orchestrator.is_running (Orchestrator.system Sample.working_world) = true
  /\ Orchestrator.start_cycle Sample.env Sample.working_world
     = (Returned tt, Sample.working_world, [])
  /\ Orchestrator.is_running (Orchestrator.system Sample.idle_world) = false
  /\ Orchestrator.threads
       (state_of (Orchestrator.start_cycle Sample.env
                    (state_of (Orchestrator.start_cycle Sample.env Sample.idle_world))))
     = [Orchestrator.DashboardThread CommandCenter.DashNew;
        Orchestrator.MainLoopThread Orchestrator.CycleNew].
Proof.
  split; [reflexivity |]. split.
  - apply (proj1 (start_cycle_idempotent Sample.env Sample.env Sample.working_world)).
    reflexivity.
  - split; [reflexivity |].
    destruct (start_cycle_idempotent Sample.env Sample.env Sample.idle_world)
      as (_ & _ & _ & _ & Hthreads).
    apply Hthreads. reflexivity.
Defined.

(** C10: [pause_cycle] inverts [is_paused] in every state, also before any
    start; [start_cycle] leaves [is_paused] as it is.  So [pause_cycle]
    then [start_cycle] on a system that was neither running nor paused, as
    a new one is, gives the status running and paused; and from then on, as
    long as [pause_cycle] is not called again, the steps of the cycle
    thread have no agent work and leave the ledger as it was. *)
Theorem pause_before_start :
  (forall (env : Env) (self : Orchestrator.DavidAI),
      result_of (Orchestrator.pause_cycle env self) = Returned tt
      /\ Orchestrator.is_paused (state_of (Orchestrator.pause_cycle env self))
         = negb (Orchestrator.is_paused self))
  /\ (forall (env : Env) (w : Orchestrator.World),
        Orchestrator.is_paused (Orchestrator.system (state_of (Orchestrator.start_cycle env w)))
        = Orchestrator.is_paused (Orchestrator.system w))
  /\ (forall (env1 env2 : Env) (w : Orchestrator.World),
        Orchestrator.is_running (Orchestrator.system w) = false ->
        Orchestrator.is_paused (Orchestrator.system w) = false ->
        let both := state_of (Orchestrator.perform_all
                                [(env1, Orchestrator.Pause); (env2, Orchestrator.Start)] w) in
        (exists status,
            result_of (Orchestrator.get_status (Orchestrator.system both)) = Returned status
            /\ Py.get "running" status = PBool true
            /\ Py.get "paused" status = PBool true)
        /\ forall history : list (Env * Orchestrator.Call),
             Forall (fun call => snd call <> Orchestrator.Pause) history ->
             let later := Orchestrator.perform_all history both in
             result_of later = Returned tt
             /\ Orchestrator.is_paused (Orchestrator.system (state_of later)) = true
             /\ Agents.ledger
                  (Orchestrator.knowledge_curator (Orchestrator.system (state_of later)))
                = Agents.ledger (Orchestrator.knowledge_curator (Orchestrator.system w))
             /\ Orchestrator.agent_activity (output_of later) = [])
  /\ (forall (env : Env) (workspace_root : string),
        exists w,
          result_of (Orchestrator.boot env workspace_root tt) = Returned w
          /\ Orchestrator.is_running (Orchestrator.system w) = false
          /\ Orchestrator.is_paused (Orchestrator.system w) = false
          /\ Orchestrator.threads w = []).
Proof.
  split; [| split; [| split]].
  - intros env self. split; reflexivity.
  - intros env w. unfold Orchestrator.start_cycle, bind, gets. cbn.
    destruct (Orchestrator.is_running (Orchestrator.system w)); reflexivity.
  - intros env1 env2 w Hidle Hunpaused both.
    assert (Hflags : Orchestrator.is_running (Orchestrator.system both) = true
                     /\ Orchestrator.is_paused (Orchestrator.system both) = true
                     /\ Orchestrator.knowledge_curator (Orchestrator.system both)
                        = Orchestrator.knowledge_curator (Orchestrator.system w)).
    { subst both. cbn [Orchestrator.perform_all].
      unfold bind at 1. cbn [Orchestrator.perform].
      unfold Orchestrator.on_system, zoom, Orchestrator.pause_cycle.
      unfold bind, gets, modify, Orchestrator.on_dashboard, zoom,
        CommandCenter.log_message, print, emit, Orchestrator.start_cycle. cbn.
      rewrite Hidle, Hunpaused. cbn. repeat split. }
    destruct Hflags as (Hrun & Hpaused & Hledger). split.
    + eexists. split; [reflexivity |]. cbn. rewrite Hrun, Hpaused. split; reflexivity.
    + intros history Hcalls later.
      destruct (perform_all_paused history both Hcalls Hpaused) as (Hr & Hs & Hl & Hq).
      subst later. rewrite Hl, Hledger. repeat split; assumption.
  - intros env workspace_root. eexists. split; [reflexivity |]. repeat split.
Qed.

Lemma pause_before_start_witness :
  Orchestrator.is_running (Orchestrator.system Sample.idle_world) = false
  /\ Orchestrator.is_paused (Orchestrator.system Sample.idle_world) = false
  /\ Forall (fun call => snd call <> Orchestrator.Pause) Sample.while_paused
  /\ Orchestrator.agent_activity
       (output_of
          (Orchestrator.perform_all Sample.while_paused
             (state_of
                (Orchestrator.perform_all
                   [(Sample.env, Orchestrator.Pause); (Sample.env, Orchestrator.Start)]
                   Sample.idle_world)))) = [].
Proof.
  assert (Hcalls : Forall (fun call => snd call <> Orchestrator.Pause) Sample.while_paused).
  { unfold Sample.while_paused. repeat constructor; discriminate. }
  split; [reflexivity |]. split; [reflexivity |]. split; [exact Hcalls |].
  destruct pause_before_start as (_ & _ & Hboth & _).
  destruct (Hboth Sample.env Sample.env Sample.idle_world eq_refl eq_refl)
    as (_ & Hlater).
  apply (Hlater Sample.while_paused Hcalls).
Defined.

(** * Further properties *)

(** ** Paths *)

Lemma startswith_slash (s : string) :
  PyString.startswith s "/" = true <-> exists rest, s = String PyString.slash rest.
Proof.
  unfold PyString.startswith. change PyString.slash with "/"%char. destruct s as [| c rest]; cbn [String.prefix].
  - split; [discriminate | intros [? ?]; discriminate].
  - destruct (Ascii.ascii_dec "/" c) as [<- | Hne].
    + split; [intros _; exists rest; reflexivity | destruct rest; reflexivity].
    + split; [discriminate | intros [rest' [= Hc _]]; congruence].
Qed.

Lemma prefix_append (a b : string) :
  String.prefix a b = true <-> exists rest, b = a +:+ rest.
Proof.
  revert b. induction a as [| c a IH]; intros b.
  - destruct b; cbn [String.prefix String.append]; split; eauto.
  - destruct b as [| d b]; cbn [String.prefix String.append].
    + split; [discriminate | intros [rest [=]]].
    + destruct (Ascii.ascii_dec c d) as [<- | Hne].
      * rewrite IH. split; intros [rest Hrest]; exists rest.
        -- rewrite Hrest. reflexivity.
        -- injection Hrest as Hrest. exact Hrest.
      * split; [discriminate | intros [rest [= Hc _]]; congruence].
Qed.

Lemma append_empty_r (s : string) : s +:+ "" = s.
Proof.
  induction s as [| c s IH]; [reflexivity |].
  change (String c (s +:+ "") = String c s). f_equal. exact IH.
Qed.

Lemma split_no_separator (sep : ascii) (s : string) :
  Forall (fun piece => PyString.contains_char piece sep = false) (PyString.split sep s).
Proof.
  induction s as [| c rest IH]; cbn.
  - repeat constructor.
  - destruct (Ascii.eqb c sep) eqn:Hc.
    + constructor; [reflexivity | exact IH].
    + destruct (PyString.split sep rest) as [| piece pieces].
      * repeat constructor. cbn. rewrite Hc. reflexivity.
      * inversion IH as [| ? ? Hpiece Hpieces]; subst.
        constructor; [| exact Hpieces]. cbn. rewrite Hc. exact Hpiece.
Qed.

Lemma Forall_removelast {A} (P : A -> Prop) (l : list A) :
  Forall P l -> Forall P (removelast l).
Proof.
  induction 1 as [| x l Hx Hl IH]; cbn; [constructor |].
  destruct l; [constructor | constructor; assumption].
Qed.

(** The component loop of [normpath] on an absolute path keeps only
    proper names. *)
Lemma normpath_loop_proper (n : nat) (comps acc : list string) :
  n <> 0%nat ->
  Forall (fun c => PyString.contains_char c PyString.slash = false) comps ->
  Forall (fun c => c <> "" /\ c <> "." /\ c <> ".."
                   /\ PyString.contains_char c PyString.slash = false) acc ->
  Forall (fun c => c <> "" /\ c <> "." /\ c <> ".."
                   /\ PyString.contains_char c PyString.slash = false)
         (fold_left (PosixPath.normpath_step n) comps acc).
Proof.
  intros Hn Hcomps. revert acc.
  induction Hcomps as [| comp comps Hcomp _ IH]; intros acc Hacc; cbn [fold_left].
  - exact Hacc.
  - apply IH. unfold PosixPath.normpath_step.
    destruct (String.eqb comp "") eqn:Hempty; [exact Hacc |].
    destruct (String.eqb comp ".") eqn:Hdot; [exact Hacc |]. cbn [orb].
    destruct (String.eqb comp "..") eqn:Hdotdot; cbn [negb orb].
    + destruct n as [| n']; [congruence |]. cbn [Nat.eqb andb orb].
      destruct (last acc) as [top |] eqn:Hlast.
      * assert (Htop : top <> "..").
        { apply last_Some_elem_of in Hlast.
          rewrite Forall_forall in Hacc. apply (Hacc top Hlast). }
        apply String.eqb_neq in Htop. rewrite Htop.
        apply Forall_removelast, Hacc.
      * apply Forall_removelast, Hacc.
    + apply Forall_app. split; [exact Hacc |]. repeat constructor.
      * apply String.eqb_neq, Hempty.
      * apply String.eqb_neq, Hdot.
      * apply String.eqb_neq, Hdotdot.
      * exact Hcomp.
Qed.

Lemma normpath_absolute_root (path : string) :
  PosixPath.isabs path = true ->
  exists (n : nat) (rest : string),
    (n = 1 \/ n = 2)%nat /\ PosixPath.normpath path = PyString.times "/" n +:+ rest.
Proof.
  intros Habs. unfold PosixPath.isabs in Habs.
  assert (Hne : String.eqb path "" = false).
  { apply startswith_slash in Habs as [rest ->]. reflexivity. }
  unfold PosixPath.normpath. rewrite Hne. unfold PosixPath.sep at 1. rewrite Habs.
  set (n := if _ : bool then 2%nat else 1%nat).
  assert (Hn : (n = 1 \/ n = 2)%nat) by (subst n; destruct (_ && _); auto).
  exists n. eexists. split; [exact Hn |].
  destruct Hn as [-> | ->]; reflexivity.
Qed.

(** X1: the canonical form of an absolute path is one or two slashes
    followed by names joined by single slashes, where no name is empty,
    [.] or [..] and no name holds a slash: no way up is left in it. *)
Theorem normpath_absolute_canonical (path : string) :
  PosixPath.isabs path = true ->
  exists (n : nat) (names : list string),
    (n = 1 \/ n = 2)%nat
    /\ PosixPath.normpath path = PyString.times "/" n +:+ PyString.join "/" names
    /\ Forall (fun c => c <> "" /\ c <> "." /\ c <> ".."
                        /\ PyString.contains_char c PyString.slash = false) names.
Proof.
  intros Habs. unfold PosixPath.isabs in Habs.
  assert (Hne : String.eqb path "" = false).
  { apply startswith_slash in Habs as [rest ->]. reflexivity. }
  unfold PosixPath.normpath. rewrite Hne. unfold PosixPath.sep at 1. rewrite Habs.
  set (n := if _ : bool then 2%nat else 1%nat).
  assert (Hn : (n = 1 \/ n = 2)%nat) by (subst n; destruct (_ && _); auto).
  exists n, (fold_left (PosixPath.normpath_step n) (PyString.split PyString.slash path) []).
  split; [exact Hn |]. split.
  - destruct Hn as [-> | ->]; reflexivity.
  - apply normpath_loop_proper; [lia | apply split_no_separator | constructor].
Qed.

Lemma normpath_absolute_canonical_witness :
  PosixPath.isabs "/ws/a/../../etc/./passwd" = true
  /\ exists (n : nat) (names : list string),
       PosixPath.normpath "/ws/a/../../etc/./passwd"
       = PyString.times "/" n +:+ PyString.join "/" names.
Proof.
  split; [reflexivity |].
  destruct (normpath_absolute_canonical "/ws/a/../../etc/./passwd" eq_refl)
    as (n & names & _ & Hpath & _).
  exists n, names. exact Hpath.
Defined.

(** X2: when the working directory is absolute, [abspath] of any path,
    relative, empty or absolute, is absolute. *)
Theorem abspath_absolute (env : Env) (path : string) :
  PosixPath.isabs (cwd env) = true ->
  PosixPath.isabs (PosixPath.abspath env path) = true.
Proof.
  intros Hcwd. unfold PosixPath.abspath.
  assert (Habs : PosixPath.isabs
                   (if PosixPath.isabs path then path
                    else PosixPath.join (cwd env) path) = true).
  { destruct (PosixPath.isabs path) eqn:Hpath; [exact Hpath |].
    unfold PosixPath.join. unfold PosixPath.isabs in Hpath. rewrite Hpath.
    apply startswith_slash in Hcwd as [rest Hrest]. rewrite Hrest.
    unfold PosixPath.isabs, PosixPath.sep.
    destruct (_ || _); apply startswith_slash; eexists; reflexivity. }
  destruct (normpath_absolute_root _ Habs) as (n & rest & Hn & ->).
  unfold PosixPath.isabs, PosixPath.sep.
  destruct Hn as [-> | ->]; apply startswith_slash; eexists; reflexivity.
Qed.

Lemma abspath_absolute_witness :
  PosixPath.isabs (cwd Sample.env) = true
  /\ PosixPath.isabs (PosixPath.abspath Sample.env "../notes/./todo.txt") = true.
Proof.
  split; [reflexivity |].
  apply (abspath_absolute Sample.env "../notes/./todo.txt"). reflexivity.
Defined.

(** X3: [is_safe_path] answers [True] exactly when the canonical path, as
    a text, begins with the text of the root.  So the root itself is
    accepted, and so is every path whose canonical text merely continues
    the root's; the guard is never changed. *)
Theorem is_safe_path_text_prefix (env : Env) (path : string) (guard : FileUtils.PathGuard) :
  (result_of (FileUtils.is_safe_path env path guard) = Returned true
   <-> exists rest,
         PosixPath.abspath env path = FileUtils.allowed_root guard +:+ rest)
  /\ (forall root : string,
        result_of (FileUtils.PathGuard_new env root tt) = Returned guard ->
        result_of (FileUtils.is_safe_path env root guard) = Returned true).
Proof.
  split.
  - rewrite (proj1 (is_safe_path_spec env path guard)), <- prefix_append.
    split; [intros [= H]; exact H | intros ->; reflexivity].
  - intros root [= <-].
    rewrite (proj1 (is_safe_path_spec env root _)). cbn [FileUtils.allowed_root].
    f_equal. apply prefix_append. exists "". symmetry. apply append_empty_r.
Qed.

Lemma is_safe_path_text_prefix_witness :
  exists guard,
    result_of (FileUtils.PathGuard_new Sample.env "projects/demo" tt) = Returned guard
    /\ result_of (FileUtils.is_safe_path Sample.env "projects/demo" guard) = Returned true.
Proof.
  eexists. split; [reflexivity |].
  apply (proj2 (is_safe_path_text_prefix Sample.env "projects/demo" _) "projects/demo").
  reflexivity.
Defined.

(** ** File access through the guard *)

Import (hints) Sample.

(** X4: for a path the guard refuses, [safe_read] returns [None] and
    [safe_write] returns [False]; neither makes a call to the file system,
    which is left as it was, and the only record written is the guard's
    warning. *)
Theorem refused_path_untouched {FS} `{FileAccess.FileSystem FS}
    (env : Env) (guard : FileUtils.PathGuard) (path : string) (fs : FS) :
  String.prefix (FileUtils.allowed_root guard) (PosixPath.abspath env path) = false ->
  FileAccess.safe_read env guard path fs
  = (Returned None, fs,
     [Log FileUtils.logger WARNING
        ("PathGuard blocked access to: " +:+ PosixPath.abspath env path)])
  /\ forall content : string,
       FileAccess.safe_write env guard path content fs
       = (Returned false, fs,
          [Log FileUtils.logger WARNING
             ("PathGuard blocked access to: " +:+ PosixPath.abspath env path)]).
Proof.
  intros Hrefused.
  unfold FileAccess.safe_read, FileAccess.safe_write, bind, on_object,
    FileUtils.is_safe_path, gets, PyString.startswith.
  cbn. rewrite Hrefused. cbn. split; [reflexivity | intros; reflexivity].
Qed.

Lemma refused_path_untouched_witness :
  String.prefix (FileUtils.allowed_root Sample.guard)
    (PosixPath.abspath Sample.env "/ws/../etc/passwd") = false
  /\ state_of (FileAccess.safe_write Sample.env Sample.guard "/ws/../etc/passwd" "x"
                 Sample.empty_fs)
     = Sample.empty_fs.
Proof.
  split; [reflexivity |].
  destruct (refused_path_untouched Sample.env Sample.guard "/ws/../etc/passwd"
              Sample.empty_fs eq_refl) as [_ Hwrite].
  rewrite (Hwrite "x"). reflexivity.
Defined.

(** X5: on a path the guard accepts, [safe_read] returns the content when
    the read succeeds; when the read raises, the exception is caught: one
    error with the path and the exception is logged and the answer is
    [None], as for a path the guard refuses. *)
Theorem safe_read_absorbs_errors {FS} `{FileAccess.FileSystem FS}
    (env : Env) (guard : FileUtils.PathGuard) (path : string) (fs : FS) :
  String.prefix (FileUtils.allowed_root guard) (PosixPath.abspath env path) = true ->
  FileAccess.safe_read env guard path fs
  = match FileAccess.read_text path fs with
    | inl content => (Returned (Some content), fs, [])
    | inr e =>
        (Returned None, fs,
         [Log FileUtils.logger ERROR ("Error reading file " +:+ path +:+ ": " +:+ e)])
    end.
Proof.
  intros Hsafe.
  unfold FileAccess.safe_read, bind, on_object, FileUtils.is_safe_path, gets,
    PyString.startswith.
  cbn. rewrite Hsafe. cbn.
  destruct (FileAccess.read_text path fs) as [content | e]; reflexivity.
Qed.

Lemma safe_read_absorbs_errors_witness :
  String.prefix (FileUtils.allowed_root Sample.guard)
    (PosixPath.abspath Sample.env "/ws/missing.txt") = true
  /\ FileAccess.safe_read Sample.env Sample.guard "/ws/missing.txt" Sample.empty_fs
     = (Returned None, Sample.empty_fs,
        [Log FileUtils.logger ERROR
           ("Error reading file /ws/missing.txt: "
            +:+ "[Errno 2] No such file or directory: '/ws/missing.txt'")]).
Proof.
  split; [reflexivity |].
  rewrite (safe_read_absorbs_errors Sample.env Sample.guard "/ws/missing.txt"
             Sample.empty_fs eq_refl).
  reflexivity.
Defined.

(** X6: on an accepted path [safe_write] first asks for the directory of
    the path, then writes.  It returns [True] exactly when both calls
    succeed; when making the directory raises, the file is not written;
    each failure is logged once as an error and nothing is raised. *)
Theorem safe_write_steps {FS} `{FileAccess.FileSystem FS}
    (env : Env) (guard : FileUtils.PathGuard) (path content : string) (fs : FS) :
  String.prefix (FileUtils.allowed_root guard) (PosixPath.abspath env path) = true ->
  let made := FileAccess.makedirs (FileAccess.dirname path) fs in
  let written := FileAccess.write_text path content (fst made) in
  FileAccess.safe_write env guard path content fs
  = match snd made with
    | Some e =>
        (Returned false, fst made,
         [Log FileUtils.logger ERROR ("Error writing file " +:+ path +:+ ": " +:+ e)])
    | None =>
        match snd written with
        | Some e =>
            (Returned false, fst written,
             [Log FileUtils.logger ERROR ("Error writing file " +:+ path +:+ ": " +:+ e)])
        | None => (Returned true, fst written, [])
        end
    end.
Proof.
  intros Hsafe made written. subst made written.
  unfold FileAccess.safe_write, bind, on_object, FileUtils.is_safe_path, gets,
    PyString.startswith.
  cbn. rewrite Hsafe. cbn.
  destruct (FileAccess.makedirs (FileAccess.dirname path) fs) as [fs1 [e |]]; cbn;
    [reflexivity |].
  destruct (FileAccess.write_text path content fs1) as [fs2 [e |]]; reflexivity.
Qed.

Lemma safe_write_steps_witness :
  String.prefix (FileUtils.allowed_root Sample.guard)
    (PosixPath.abspath Sample.env "/ws/notes/todo.txt") = true
  /\ FileAccess.safe_write Sample.env Sample.guard "/ws/notes/todo.txt" "buy milk"
       Sample.empty_fs
     = (Returned true,
        {| Sample.mem_files := {[ "/ws/notes/todo.txt" := "buy milk" ]};
           Sample.mem_dirs := ["/ws/notes"] |},
        []).
Proof.
  split; [reflexivity |].
  rewrite (safe_write_steps Sample.env Sample.guard "/ws/notes/todo.txt" "buy milk"
             Sample.empty_fs eq_refl).
  reflexivity.
Defined.

Lemma upto_last_slash_none (p : string) :
  PyString.contains_char p PyString.slash = false -> FileAccess.upto_last_slash p = "".
Proof.
  destruct p as [| c rest]; [reflexivity |]. cbn. intros ->. reflexivity.
Qed.

(** X7: the directory of a path without a slash is the empty text, so for
    a bare file name [safe_write] asks the file system to make the
    directory with the empty name; where that call raises, as it does on
    POSIX, the file is not written and the answer is [False], although the
    guard accepted the path. *)
Theorem safe_write_bare_name {FS} `{FileAccess.FileSystem FS}
    (env : Env) (guard : FileUtils.PathGuard) (path content : string) (fs fs1 : FS)
    (e : string) :
  PyString.contains_char path PyString.slash = false ->
  String.prefix (FileUtils.allowed_root guard) (PosixPath.abspath env path) = true ->
  FileAccess.makedirs "" fs = (fs1, Some e) ->
  FileAccess.dirname path = ""
  /\ FileAccess.safe_write env guard path content fs
     = (Returned false, fs1,
        [Log FileUtils.logger ERROR ("Error writing file " +:+ path +:+ ": " +:+ e)]).
Proof.
  intros Hbare Hsafe Hmake.
  assert (Hdir : FileAccess.dirname path = "").
  { unfold FileAccess.dirname. rewrite (upto_last_slash_none path Hbare). reflexivity. }
  split; [exact Hdir |].
  unfold FileAccess.safe_write, bind, on_object, FileUtils.is_safe_path, gets,
    PyString.startswith.
  cbn -[FileAccess.dirname]. rewrite Hsafe. cbn -[FileAccess.dirname].
  rewrite Hdir, Hmake. reflexivity.
Qed.

Lemma safe_write_bare_name_witness :
  PyString.contains_char "todo.txt" PyString.slash = false
  /\ String.prefix "/home/engine" (PosixPath.abspath Sample.env "todo.txt") = true
  /\ result_of (FileAccess.safe_write Sample.env {| FileUtils.allowed_root := "/home/engine" |}
                  "todo.txt" "buy milk" Sample.empty_fs)
     = Returned false.
Proof.
  split; [reflexivity |]. split; [reflexivity |].
  assert (Hmake : FileAccess.makedirs "" Sample.empty_fs
                  = (Sample.empty_fs, Some "[Errno 2] No such file or directory: ''"))
    by reflexivity.
  destruct (safe_write_bare_name Sample.env {| FileUtils.allowed_root := "/home/engine" |}
              "todo.txt" "buy milk" Sample.empty_fs Sample.empty_fs _
              eq_refl eq_refl Hmake)
    as [_ Hwrite].
  rewrite Hwrite. reflexivity.
Defined.

(** ** The model registry, continued *)

(** X8: after [register_model(name, model)], [get_model(name)] is that
    model, also when another model was registered under the name before;
    every other name gets what it got before. *)
Theorem register_model_then_get (self : Loader.DavidAIModelManager) (name : string)
    (model : Loader.ModelInterface) :
  let after := state_of (Loader.register_model name model self) in
  result_of (Loader.register_model name model self) = Returned tt
  /\ Loader.get_model after name = model
  /\ (forall other : string, other <> name ->
        Loader.get_model after other = Loader.get_model self other)
  /\ forall later : Loader.ModelInterface,
       Loader.get_model (state_of (Loader.register_model name later after)) name = later.
Proof.
  cbn. unfold Loader.get_model. cbn. repeat split.
  - rewrite lookup_insert_eq. reflexivity.
  - intros other Hother. rewrite lookup_insert_ne by congruence. reflexivity.
  - intros later. rewrite lookup_insert_eq. reflexivity.
Qed.

Lemma register_model_then_get_witness :
  "Manager" <> "CEO"
  /\ Loader.get_model
       (state_of (Loader.register_model "CEO" Sample.failing_model Sample.model_manager))
       "Manager"
     = Loader.get_model Sample.model_manager "Manager"
  /\ Loader.get_model
       (state_of (Loader.register_model "CEO" Sample.failing_model Sample.model_manager))
       "CEO"
     = Sample.failing_model.
Proof.
  assert (Hne : "Manager" <> "CEO") by discriminate.
  split; [exact Hne |].
  destruct (register_model_then_get Sample.model_manager "CEO" Sample.failing_model)
    as (_ & Hsame & Hother & _).
  split; [apply (Hother "Manager" Hne) | exact Hsame].
Defined.

Lemma contains_char_append (a b : string) (c : ascii) :
  PyString.contains_char (a +:+ b) c
  = PyString.contains_char a c || PyString.contains_char b c.
Proof.
  induction a as [| x a IH]; [reflexivity |].
  change (PyString.contains_char (String x (a +:+ b)) c
          = PyString.contains_char (String x a) c || PyString.contains_char b c).
  cbn [PyString.contains_char]. rewrite IH. apply orb_assoc.
Qed.

Lemma load_all_models (self : Loader.DavidAIModelManager) :
  Loader.load_all self
  = (Returned tt,
     {| Loader.models :=
          <["ANT6" := Loader.DummyModel]>
            (<["ANT5" := Loader.DummyModel]>
               (<["ANT4" := Loader.DummyModel]>
                  (<["ANT3" := Loader.DummyModel]>
                     (<["ANT2" := Loader.DummyModel]>
                        (<["ANT1" := Loader.DummyModel]>
                           (<["Manager" := Loader.DummyModel]>
                              (<["CEO" := Loader.DummyModel]> (Loader.models self))))))));
        Loader.gpu_vram_available := Loader.gpu_vram_available self;
        Loader.ram_available := Loader.ram_available self |},
     output_of (Loader.load_all self)).
Proof. reflexivity. Qed.

(** X9: [load_all] returns and registers [DummyModel] under exactly the
    eight names CEO, Manager, ANT1 ... ANT6, whatever was registered
    before; every other name keeps its entry.  The name of a worker,
    [ANT<id>_<specialty>], holds an underscore and so is none of the eight:
    a worker built after [load_all] on a new manager always gets the
    fallback, never the model registered as [ANT<id>]. *)
Theorem load_all_registers (self : Loader.DavidAIModelManager) :
  let names := ["CEO"; "Manager"; "ANT1"; "ANT2"; "ANT3"; "ANT4"; "ANT5"; "ANT6"] in
  let after := state_of (Loader.load_all self) in
  result_of (Loader.load_all self) = Returned tt
  /\ (forall name : string, In name names ->
        Loader.models after !! name = Some Loader.DummyModel)
  /\ (forall name : string, ~ In name names ->
        Loader.models after !! name = Loader.models self !! name)
  /\ (forall (role_id : Z) (specialty : string),
        ~ In (Agents.name (Agents.ant_base (Agents.ANT_new role_id specialty after))) names)
  /\ size (Loader.models (state_of (Loader.load_all Loader.DavidAIModelManager_new))) = 8%nat.
Proof.
  intros names after. subst after. rewrite load_all_models. cbn [state_of result_of fst snd].
  split; [reflexivity |]. split; [| split; [| split]].
  - intros name Hin. cbn [Loader.models]. subst names. cbn [In] in Hin.
    repeat (destruct Hin as [<- | Hin];
            [repeat (rewrite lookup_insert_ne by discriminate); apply lookup_insert_eq |]).
    destruct Hin.
  - intros name Hout. cbn [Loader.models].
    repeat (rewrite lookup_insert_ne; [| intros <-; apply Hout; subst names; cbn; tauto]).
    reflexivity.
  - intros role_id specialty Hin.
    assert (Hunder : PyString.contains_char
                       (Agents.name (Agents.ant_base
                          (Agents.ANT_new role_id specialty
                             (state_of (Loader.load_all self)))))
                       "_" = true).
    { cbn [Agents.ANT_new Agents.ant_base Agents.BaseAgent_new Agents.name].
      rewrite !contains_char_append.
      change (PyString.contains_char ("_" +:+ specialty) "_") with true.
      rewrite !orb_true_r. reflexivity. }
    rewrite load_all_models in Hunder. cbn [state_of fst snd] in Hunder.
    subst names.
    repeat (destruct Hin as [Heq | Hin];
            [rewrite <- Heq in Hunder; vm_compute in Hunder; discriminate Hunder |]).
    destruct Hin.
  - vm_compute. reflexivity.
Qed.

Lemma load_all_registers_witness :
  In "ANT3" ["CEO"; "Manager"; "ANT1"; "ANT2"; "ANT3"; "ANT4"; "ANT5"; "ANT6"]
  /\ Loader.models (state_of (Loader.load_all Loader.DavidAIModelManager_new)) !! "ANT3"
     = Some Loader.DummyModel
  /\ ~ In "ANT3_DebugPatch" ["CEO"; "Manager"; "ANT1"; "ANT2"; "ANT3"; "ANT4"; "ANT5"; "ANT6"]
  /\ Loader.models (state_of (Loader.load_all Loader.DavidAIModelManager_new))
     !! "ANT3_DebugPatch"
     = None.
Proof.
  assert (Hin : In "ANT3" ["CEO"; "Manager"; "ANT1"; "ANT2"; "ANT3"; "ANT4"; "ANT5"; "ANT6"]).
  { cbn. tauto. }
  destruct (load_all_registers Loader.DavidAIModelManager_new)
    as (_ & Hregistered & Hother & Hworker & _).
  pose proof (Hworker 3 "DebugPatch") as Hout.
  split; [exact Hin |]. split; [apply (Hregistered "ANT3" Hin) |].
  split; [exact Hout |].
  rewrite (Hother "ANT3_DebugPatch" Hout). reflexivity.
Defined.

(** ** Agents *)


Lemma CEO_run_returned (task : pydict) (self : Agents.CEO) (text : string) (o : list output) :
  Loader.generate (Agents.model (Agents.ceo_base self)) (Planner.prompt task) tt
  = (Returned text, tt, o) ->
  Agents.run task self
  = (Returned [("agent", PStr (Agents.name (Agents.ceo_base self)));
               ("status", PStr "completed");
               ("output", PStr text);
               ("type", PStr "architecture_plan")],
     {| Agents.ceo_base := Agents.set_is_active false (Agents.ceo_base self) |},
     Log Agents.logger INFO
       (Agents.name (Agents.ceo_base self) +:+ " executing task: "
        +:+ Py.str (Py.get "type" task)) :: o).
Proof.
  intros Hgen. unfold Planner.prompt in Hgen.
  unfold Agents.run, bind, gets, emit, modify; cbn.
  unfold Agents.CEO_execute, bind, gets, Loader.call, zoom; cbn.
  rewrite Hgen; cbn. rewrite ?app_nil_r. reflexivity.
Qed.

Lemma CEO_run_raised (task : pydict) (self : Agents.CEO) (e : exn) (o : list output) :
  Loader.generate (Agents.model (Agents.ceo_base self)) (Planner.prompt task) tt
  = (Raised e, tt, o) ->
  Agents.run task self
  = (Raised e,
     {| Agents.ceo_base := Agents.set_is_active true (Agents.ceo_base self) |},
     Log Agents.logger INFO
       (Agents.name (Agents.ceo_base self) +:+ " executing task: "
        +:+ Py.str (Py.get "type" task)) :: o).
Proof.
  intros Hgen. unfold Planner.prompt in Hgen.
  unfold Agents.run, bind, gets, emit, modify; cbn.
  unfold Agents.CEO_execute, bind, gets, Loader.call, zoom; cbn.
  rewrite Hgen; cbn. reflexivity.
Qed.

(** X10: [CEO.run] hands the model the prompt made of the description of
    the task.  When the model returns, the result carries the model's text
    unchanged as its output, with the status [completed], and the planner
    is inactive again.  When the model raises, the exception leaves [run]
    unchanged and the planner stays marked active: [run] has no handler
    and resets [is_active] only after a normal return. *)
Theorem CEO_run_outcome (task : pydict) (self : Agents.CEO) :
  let started :=
    Log Agents.logger INFO
      (Agents.name (Agents.ceo_base self) +:+ " executing task: "
       +:+ Py.str (Py.get "type" task)) in
  (forall (text : string) (o : list output),
      Loader.generate (Agents.model (Agents.ceo_base self)) (Planner.prompt task) tt
      = (Returned text, tt, o) ->
      Agents.run task self
      = (Returned [("agent", PStr (Agents.name (Agents.ceo_base self)));
                   ("status", PStr "completed");
                   ("output", PStr text);
                   ("type", PStr "architecture_plan")],
         {| Agents.ceo_base := Agents.set_is_active false (Agents.ceo_base self) |},
         started :: o))
  /\ (forall (e : exn) (o : list output),
        Loader.generate (Agents.model (Agents.ceo_base self)) (Planner.prompt task) tt
        = (Raised e, tt, o) ->
        Agents.run task self
        = (Raised e,
           {| Agents.ceo_base := Agents.set_is_active true (Agents.ceo_base self) |},
           started :: o)).
Proof.
  intros started. subst started.
  split; intros ? o Hgen; [apply CEO_run_returned | apply CEO_run_raised]; exact Hgen.
Qed.

Lemma CEO_run_outcome_witness :
  result_of (Agents.run Sample.plan_task Sample.failing_ceo)
  = Raised (NotImplementedError "backend missing")
  /\ Agents.is_active (Agents.ceo_base (state_of (Agents.run Sample.plan_task
                                                    Sample.failing_ceo))) = true
  /\ Agents.is_active
       (Agents.ceo_base
          (state_of (Agents.run Sample.plan_task (Agents.CEO_new Sample.model_manager))))
     = false.
Proof.
  destruct (CEO_run_outcome Sample.plan_task Sample.failing_ceo) as [_ Hraise].
  rewrite (Hraise (NotImplementedError "backend missing") [] eq_refl).
  split; [reflexivity |]. split; [reflexivity |].
  destruct (CEO_run_outcome Sample.plan_task (Agents.CEO_new Sample.model_manager))
    as [Hreturn _].
  rewrite (Hreturn _ _ eq_refl). reflexivity.
Defined.

(** X11: [Manager.run] returns for every task, whatever its type, and
    leaves the dispatcher inactive.  On [assign_task] every worker is left
    inactive and otherwise as it was; on every other task the workers are
    not touched; on [integrate_feedback] the result is the fixed
    acknowledgement. *)
Theorem Manager_run_returns (task : pydict) (self : Agents.Manager) :
  let after := state_of (Agents.run task self) in
  (exists result, result_of (Agents.run task self) = Returned result)
  /\ Agents.manager_base after = Agents.set_is_active false (Agents.manager_base self)
  /\ Agents.ants after
     = (if Py.eq_str (Py.get "type" task) "assign_task"
        then map (fun ant => Agents.with_base
                               (Agents.set_is_active false (Agents.ant_base ant)) ant)
                 (Agents.ants self)
        else Agents.ants self)
  /\ (Py.eq_str (Py.get "type" task) "integrate_feedback" = true ->
      result_of (Agents.run task self) = Returned [("status", PStr "feedback_integrated")]).
Proof.
  destruct (for_each_run_ANT task (Agents.ants self)) as (results & Hloop & _).
  unfold Agents.run, bind, gets, emit, modify; cbn.
  unfold Agents.Manager_execute.
  destruct (Py.eq_str (Py.get "type" task) "assign_task") eqn:Hassign.
  - unfold Agents._assign_task, bind, gets, emit, zoom; cbn. rewrite Hloop. cbn.
    split; [eexists; reflexivity |]. split; [reflexivity |]. split; [reflexivity |].
    intros Hfeedback. exfalso.
    destruct (Py.get "type" task) as [| | | s | |]; try discriminate Hassign.
    cbn in Hassign, Hfeedback.
    apply String.eqb_eq in Hassign, Hfeedback. congruence.
  - destruct (Py.eq_str (Py.get "type" task) "integrate_feedback") eqn:Hfeedback; cbn.
    + split; [eexists; reflexivity |]. repeat split.
    + split; [eexists; reflexivity |]. split; [reflexivity |].
      split; [reflexivity | discriminate].
Qed.

Lemma Manager_run_returns_witness :
  Py.eq_str (Py.get "type" [("type", PStr "integrate_feedback")]) "integrate_feedback" = true
  /\ result_of (Agents.run [("type", PStr "integrate_feedback")] Sample.dispatcher)
     = Returned [("status", PStr "feedback_integrated")].
Proof.
  split; [reflexivity |].
  destruct (Manager_run_returns [("type", PStr "integrate_feedback")] Sample.dispatcher)
    as (_ & _ & _ & Hfeedback).
  apply Hfeedback. reflexivity.
Defined.

(** ** The dashboard *)

Lemma log_message_effect (env : Env) (source message : string)
    (self : CommandCenter.Dashboard) :
  CommandCenter.log_message env source message self
  = (Returned tt,
     CommandCenter.set_logs
       (let lines := CommandCenter.logs self
                     ++ [DashboardHistory.formatted (env, source, message)] in
        if (50 <? length lines)%nat then tail lines else lines)
       self,
     [Print (DashboardHistory.formatted (env, source, message)) Agents.newline]).
Proof.
  unfold CommandCenter.log_message, bind, modify, print, emit.
  cbn [CommandCenter.logs CommandCenter.set_logs app].
  change (DashboardHistory.formatted (env, source, message))
    with ("[" +:+ strftime env "%H:%M:%S" +:+ "] [" +:+ source +:+ "] " +:+ message).
  destruct (Nat.ltb 50 (length (CommandCenter.logs self ++ _))); reflexivity.
Qed.

Lemma keep_last_step (lines : list string) (line : string) :
  (length lines <= 50)%nat ->
  (let all := lines ++ [line] in if (50 <? length all)%nat then tail all else all)
  = drop (length (lines ++ [line]) - 50) (lines ++ [line]).
Proof.
  intros Hbound. cbn zeta. rewrite length_app. cbn [length].
  destruct (50 <? length lines + 1)%nat eqn:Hfull.
  - apply Nat.ltb_lt in Hfull.
    replace (length lines + 1 - 50)%nat with 1%nat by lia.
    destruct lines; reflexivity.
  - apply Nat.ltb_ge in Hfull.
    replace (length lines + 1 - 50)%nat with 0%nat by lia. reflexivity.
Qed.

(** X12: the dashboard keeps the last fifty lines.  Starting from a log of
    at most fifty lines, after any sequence of messages the log is the
    last fifty of the old lines followed by the new ones, oldest first, so
    it never grows beyond fifty and the newest message is always its last
    line; the metrics and the running flag are not touched. *)
Theorem dashboard_keeps_last_fifty (messages : list DashboardHistory.Message)
    (self : CommandCenter.Dashboard) :
  (length (CommandCenter.logs self) <= 50)%nat ->
  let all := CommandCenter.logs self ++ map DashboardHistory.formatted messages in
  let after := state_of (DashboardHistory.log_messages messages self) in
  result_of (DashboardHistory.log_messages messages self) = Returned tt
  /\ CommandCenter.logs after = drop (length all - 50) all
  /\ (length (CommandCenter.logs after) <= 50)%nat
  /\ CommandCenter.metrics after = CommandCenter.metrics self
  /\ CommandCenter.is_running after = CommandCenter.is_running self.
Proof.
  revert self. induction messages as [| [[env source] message] rest IH]; intros self Hbound.
  - cbn. rewrite app_nil_r.
    replace (length (CommandCenter.logs self) - 50)%nat with 0%nat by lia.
    cbn [drop]. split; [reflexivity |]. split; [reflexivity |].
    split; [exact Hbound |]. split; reflexivity.
  - cbn zeta. cbn [DashboardHistory.log_messages fst snd map].
    rewrite (bind_returned _ (fun _ => DashboardHistory.log_messages rest) _ _ _ _
               (log_message_effect env source message self)).
    cbn [result_of state_of fst snd].
    rewrite keep_last_step by exact Hbound.
    remember (DashboardHistory.formatted (env, source, message)) as line eqn:Hline.
    clear Hline.
    set (kept := drop _ (CommandCenter.logs self ++ [line])).
    assert (Hkept : (length kept <= 50)%nat).
    { subst kept. rewrite length_drop, length_app. cbn [length]. lia. }
    destruct (IH (CommandCenter.set_logs kept self) Hkept) as (Hr & Hlogs & Hlen & Hm & Hrun).
    split; [exact Hr |]. split; [| split; [exact Hlen | split; [exact Hm | exact Hrun]]].
    rewrite Hlogs. cbn [CommandCenter.set_logs CommandCenter.logs map].
    subst kept.
    replace (CommandCenter.logs self ++ line :: map DashboardHistory.formatted rest)
      with ((CommandCenter.logs self ++ [line]) ++ map DashboardHistory.formatted rest)
      by (rewrite <- app_assoc; reflexivity).
    assert (Hold : (length (CommandCenter.logs self ++ [line]) <= 51)%nat).
    { rewrite length_app. cbn [length]. lia. }
    clear Hr Hlogs Hlen Hm Hrun Hkept IH.
    remember (CommandCenter.logs self ++ [line]) as old eqn:Heq. clear Heq.
    generalize (map DashboardHistory.formatted rest). intros new.
    rewrite <- (drop_app_le old new (length old - 50)) by lia.
    rewrite drop_drop. f_equal.
    rewrite length_drop, !length_app. lia.
Qed.

Lemma dashboard_keeps_last_fifty_witness :
  (length (CommandCenter.logs CommandCenter.Dashboard_new) <= 50)%nat
  /\ CommandCenter.logs
       (state_of (DashboardHistory.log_messages
                    [(Sample.env, "SYSTEM", "one"); (Sample.env, "CEO", "two")]
                    CommandCenter.Dashboard_new))
     = ["[09:30:00] [SYSTEM] one"; "[09:30:00] [CEO] two"].
Proof.
  split; [cbn; lia |].
  destruct (dashboard_keeps_last_fifty
              [(Sample.env, "SYSTEM", "one"); (Sample.env, "CEO", "two")]
              CommandCenter.Dashboard_new) as (_ & Hlogs & _).
  - cbn. lia.
  - rewrite Hlogs. reflexivity.
Defined.

Lemma print_logs_output {S} (lines : list string) (s : S) :
  CommandCenter.print_logs lines s
  = (Returned tt, s, map (fun line => Print ("  " +:+ line) Agents.newline) lines).
Proof.
  induction lines as [| line rest IH]; [reflexivity |].
  cbn [CommandCenter.print_logs map].
  erewrite bind_returned by reflexivity. rewrite IH. reflexivity.
Qed.

(** The prints of a running dashboard. *)
Lemma render_running (env : Env) (self : CommandCenter.Dashboard) :
  CommandCenter.is_running self = true ->
  exists header,
    length header = 14%nat
    /\ header !! 4%nat = Some (Print " [SYSTEM STATUS] RUNNING" Agents.newline)
    /\ ~ In (Print " [SYSTEM STATUS] PAUSED" Agents.newline) header
    /\ CommandCenter.render env self
       = (Returned tt, self,
          header
          ++ map (fun line => Print ("  " +:+ line) Agents.newline)
                 (drop (length (CommandCenter.logs self) - 10) (CommandCenter.logs self))
          ++ [Print (PyString.times "=" 60) Agents.newline]).
Proof.
  intros Hrun. unfold CommandCenter.render.
  erewrite bind_returned by reflexivity.
  cbn [result_of state_of output_of fst snd app]. rewrite Hrun. cbn [negb].
  repeat (erewrite bind_returned by reflexivity; cbn [result_of state_of output_of fst snd]).
  rewrite (bind_returned _ _ _ _ _ _ (print_logs_output _ self)).
  cbn [result_of state_of output_of fst snd print emit app].
  eexists [_; _; _; _; _; _; _; _; _; _; _; _; _; _].
  split; [reflexivity |]. split; [reflexivity |]. split; [| reflexivity].
  pose (paused_line := fun o : output =>
          match o with
          | Print text _ =>
              match String.get 1 text with
              | Some c1 =>
                  if Ascii.eqb c1 "[" then
                    match String.get 17 text with
                    | Some c17 => Ascii.eqb c17 "P"
                    | None => false
                    end
                  else false
              | None => false
              end
          | Log _ _ _ => false
          end).
  intros Hin.
  assert (Hline : paused_line (Print " [SYSTEM STATUS] PAUSED" Agents.newline) = false).
  { cbn [In] in Hin.
    repeat (destruct Hin as [<- | Hin]; [reflexivity |]). destruct Hin. }
  discriminate Hline.
Qed.

(** X13: [render] as sequential code, no other thread writing the
    dashboard during the call, never changes the dashboard.  A stopped
    dashboard prints nothing.  A running one prints fourteen header lines,
    then the last ten lines of the log at most, oldest first, each
    indented, then a closing rule, and its status line reads RUNNING.  The
    status line is made from a second reading of [is_running]: when
    another thread writes the flag between the test at the top and the
    status line, the line says what that thread left, so after a
    [pause_cycle] or a [stop] in between it reads PAUSED. *)
Theorem render_output (env : Env) (self : CommandCenter.Dashboard) :
  Interleaving.render_between env (ret tt) self = CommandCenter.render env self
  /\ result_of (CommandCenter.render env self) = Returned tt
  /\ state_of (CommandCenter.render env self) = self
  /\ (CommandCenter.is_running self = false ->
      forall others : M CommandCenter.Dashboard unit,
        Interleaving.render_between env others self = (Returned tt, self, []))
  /\ (CommandCenter.is_running self = true ->
      exists header,
        length header = 14%nat
        /\ header !! 4%nat = Some (Print " [SYSTEM STATUS] RUNNING" Agents.newline)
        /\ output_of (CommandCenter.render env self)
           = header
             ++ map (fun line => Print ("  " +:+ line) Agents.newline)
                    (drop (length (CommandCenter.logs self) - 10) (CommandCenter.logs self))
             ++ [Print (PyString.times "=" 60) Agents.newline])
  /\ (CommandCenter.is_running self = true ->
      forall (others : M CommandCenter.Dashboard unit) (self1 : CommandCenter.Dashboard)
        (o1 : list output),
        others self = (Returned tt, self1, o1) ->
        exists before after,
          length before = 4%nat
          /\ length after
             = (10 + length (drop (length (CommandCenter.logs self1) - 10)
                               (CommandCenter.logs self1)))%nat
          /\ Interleaving.render_between env others self
             = (Returned tt, self1,
                before ++ o1
                ++ Print (" [SYSTEM STATUS] "
                          +:+ (if CommandCenter.is_running self1
                               then "RUNNING" else "PAUSED"))
                     Agents.newline
                   :: after)).
Proof.
  split; [| split; [| split; [| split; [| split]]]].
  - unfold Interleaving.render_between, CommandCenter.render, bind, gets, ret.
    destruct (CommandCenter.is_running self) eqn:Hrun; cbn [negb]; [| reflexivity].
    cbn [emit print fst snd]. rewrite Hrun.
    destruct (CommandCenter.print_logs _ self) as [[[[] | e] s] o]; reflexivity.
  - destruct (CommandCenter.is_running self) eqn:Hrun.
    + destruct (render_running env self Hrun) as (header & _ & _ & _ & ->). reflexivity.
    + unfold CommandCenter.render. erewrite bind_returned by reflexivity.
      cbn [result_of state_of output_of fst snd app]. rewrite Hrun. reflexivity.
  - destruct (CommandCenter.is_running self) eqn:Hrun.
    + destruct (render_running env self Hrun) as (header & _ & _ & _ & ->). reflexivity.
    + unfold CommandCenter.render. erewrite bind_returned by reflexivity.
      cbn [result_of state_of output_of fst snd app]. rewrite Hrun. reflexivity.
  - intros Hrun others. unfold Interleaving.render_between.
    erewrite bind_returned by reflexivity.
    cbn [result_of state_of output_of fst snd app]. rewrite Hrun. reflexivity.
  - intros Hrun.
    destruct (render_running env self Hrun) as (header & Hlength & Hstatus & _ & ->).
    exists header. split; [exact Hlength |]. split; [exact Hstatus | reflexivity].
  - intros Hrun others self1 o1 Hothers. unfold Interleaving.render_between.
    erewrite bind_returned by reflexivity.
    cbn [result_of state_of output_of fst snd app]. rewrite Hrun. cbn [negb].
    do 4 (erewrite bind_returned by reflexivity;
          cbn [result_of state_of output_of fst snd]).
    rewrite (bind_returned _ _ _ _ _ _ Hothers).
    cbn [result_of state_of output_of fst snd].
    repeat (erewrite bind_returned by reflexivity;
            cbn [result_of state_of output_of fst snd]).
    rewrite (bind_returned _ _ _ _ _ _ (print_logs_output _ self1)).
    cbn [result_of state_of output_of fst snd print emit app].
    eexists [_; _; _; _]. eexists.
    split; [reflexivity |]. split; [| reflexivity].
    cbn [length]. rewrite length_app, length_map. cbn [length]. lia.
Qed.

Lemma render_output_witness :
  CommandCenter.is_running CommandCenter.Dashboard_new = false
  /\ output_of (CommandCenter.render Sample.env CommandCenter.Dashboard_new) = []
  /\ length (output_of (CommandCenter.render Sample.env
                          (CommandCenter.set_is_running true CommandCenter.Dashboard_new)))
     = 15%nat
  /\ output_of
       (Interleaving.render_between Sample.env
          (modify (CommandCenter.set_is_running false))
          (CommandCenter.set_is_running true CommandCenter.Dashboard_new))
     !! 4%nat
     = Some (Print " [SYSTEM STATUS] PAUSED" Agents.newline).
Proof.
  split; [reflexivity |].
  destruct (render_output Sample.env CommandCenter.Dashboard_new)
    as (Hsame & _ & _ & Hstopped & _).
  split; [rewrite <- Hsame, (Hstopped eq_refl); reflexivity |].
  destruct (render_output Sample.env
              (CommandCenter.set_is_running true CommandCenter.Dashboard_new))
    as (_ & _ & _ & _ & Hrunning & Hbetween).
  split.
  - destruct (Hrunning eq_refl) as (header & Hlength & _ & Houtput).
    rewrite Houtput, length_app, Hlength. reflexivity.
  - destruct (Hbetween eq_refl (modify (CommandCenter.set_is_running false)) _ []
                eq_refl) as (before & after & Hlength & _ & Hrender).
    rewrite Hrender. cbn [output_of snd app].
    rewrite lookup_app_r by (rewrite Hlength; lia).
    rewrite Hlength. reflexivity.
Defined.

(** ** Dictionaries and the metrics *)

Lemma get_set_same (k : string) (v : pyval) (d : pydict) : Py.get k (Py.set k v d) = v.
Proof.
  induction d as [| [k' v'] rest IH]; cbn [Py.set Py.get].
  - rewrite String.eqb_refl. reflexivity.
  - destruct (String.eqb k' k) eqn:Hk; cbn [Py.get]; rewrite Hk; [reflexivity | exact IH].
Qed.

Lemma get_set_other (k k' : string) (v : pyval) (d : pydict) :
  k' <> k -> Py.get k' (Py.set k v d) = Py.get k' d.
Proof.
  intros Hne. induction d as [| [k0 v0] rest IH]; cbn [Py.set Py.get].
  - apply String.eqb_neq in Hne. rewrite String.eqb_sym, Hne. reflexivity.
  - destruct (String.eqb k0 k) eqn:Hk; cbn [Py.get].
    + apply String.eqb_eq in Hk. subst k0.
      apply String.eqb_neq in Hne. rewrite String.eqb_sym, Hne. reflexivity.
    + destruct (String.eqb k0 k'); [reflexivity | exact IH].
Qed.

Lemma get_update_other (new d : pydict) (k : string) :
  ~ In k (map fst new) -> Py.get k (Py.update new d) = Py.get k d.
Proof.
  unfold Py.update. revert d.
  induction new as [| [k0 v0] rest IH]; intros d Hout; cbn [fold_left fst snd].
  - reflexivity.
  - rewrite IH by (intros Hin; apply Hout; right; exact Hin).
    apply get_set_other. intros ->. apply Hout. left. reflexivity.
Qed.

(** X14: [update_metrics] gives every key of the new metrics the value
    given last for it and leaves every other metric as it was; the log
    and the running flag are not touched. *)
Theorem update_metrics_effect (new_metrics : pydict) (self : CommandCenter.Dashboard) :
  let after := state_of (CommandCenter.update_metrics new_metrics self) in
  result_of (CommandCenter.update_metrics new_metrics self) = Returned tt
  /\ CommandCenter.logs after = CommandCenter.logs self
  /\ CommandCenter.is_running after = CommandCenter.is_running self
  /\ (forall k : string,
        ~ In k (map fst new_metrics) ->
        Py.get k (CommandCenter.metrics after) = Py.get k (CommandCenter.metrics self))
  /\ (forall (k : string) (v : pyval) (before later : pydict),
        new_metrics = before ++ (k, v) :: later ->
        ~ In k (map fst later) ->
        Py.get k (CommandCenter.metrics after) = v).
Proof.
  cbn. repeat split.
  - intros k Hout. apply get_update_other, Hout.
  - intros k v before later -> Hlast.
    unfold Py.update. rewrite fold_left_app. cbn [fold_left fst snd].
    change (Py.get k (Py.update later
                        (Py.set k v (Py.update before (CommandCenter.metrics self)))) = v).
    rewrite get_update_other by exact Hlast. apply get_set_same.
Qed.

Lemma update_metrics_effect_witness :
  ~ In "errors" (map fst [("active_agents", PInt 6); ("tasks_completed", PInt 10)])
  /\ Py.get "errors"
       (CommandCenter.metrics
          (state_of (CommandCenter.update_metrics
                       [("active_agents", PInt 6); ("tasks_completed", PInt 10)]
                       CommandCenter.Dashboard_new)))
     = PInt 0
  /\ Py.get "active_agents"
       (CommandCenter.metrics
          (state_of (CommandCenter.update_metrics
                       [("active_agents", PInt 6); ("tasks_completed", PInt 10)]
                       CommandCenter.Dashboard_new)))
     = PInt 6.
Proof.
  assert (Hout : ~ In "errors"
                   (map fst [("active_agents", PInt 6); ("tasks_completed", PInt 10)])).
  { cbn. intros [H | [H | []]]; discriminate H. }
  split; [exact Hout |].
  destruct (update_metrics_effect [("active_agents", PInt 6); ("tasks_completed", PInt 10)]
              CommandCenter.Dashboard_new) as (_ & _ & _ & Hother & Hgiven).
  split.
  - rewrite (Hother "errors" Hout). reflexivity.
  - apply (Hgiven "active_agents" (PInt 6) [] [("tasks_completed", PInt 10)] eq_refl).
    cbn. intros [H | []]. discriminate H.
Defined.

(** ** The cycle *)

(** X15: [pause_cycle] sets the running flag of the dashboard from the
    pause flag alone, in every state: pausing switches the display off,
    resuming switches it on, also on a system that was never started or
    has been shut down.  Two calls in a row restore the pause flag; the
    system's own running flag, the agents and the ledger are not
    touched. *)
Theorem pause_cycle_twice (env1 env2 : Env) (self : Orchestrator.DavidAI) :
  let once := state_of (Orchestrator.pause_cycle env1 self) in
  let twice := state_of (Orchestrator.pause_cycle env2 once) in
  Orchestrator.is_paused twice = Orchestrator.is_paused self
  /\ CommandCenter.is_running (Orchestrator.dashboard once) = Orchestrator.is_paused self
  /\ CommandCenter.is_running (Orchestrator.dashboard twice)
     = negb (Orchestrator.is_paused self)
  /\ Orchestrator.is_running once = Orchestrator.is_running self
  /\ Orchestrator.is_running twice = Orchestrator.is_running self
  /\ Orchestrator.knowledge_curator twice = Orchestrator.knowledge_curator self
  /\ Orchestrator.manager twice = Orchestrator.manager self
  /\ Orchestrator.ceo twice = Orchestrator.ceo self.
Proof.
  assert (Hpause : forall env d,
             let r := state_of (Orchestrator.pause_cycle env d) in
             Orchestrator.is_paused r = negb (Orchestrator.is_paused d)
             /\ CommandCenter.is_running (Orchestrator.dashboard r) = Orchestrator.is_paused d
             /\ Orchestrator.is_running r = Orchestrator.is_running d
             /\ Orchestrator.knowledge_curator r = Orchestrator.knowledge_curator d
             /\ Orchestrator.manager r = Orchestrator.manager d
             /\ Orchestrator.ceo r = Orchestrator.ceo d).
  { intros env d.
    unfold Orchestrator.pause_cycle, bind, Orchestrator.on_dashboard, zoom, gets, modify,
      CommandCenter.log_message, bind, modify, print, emit.
    cbn -[Nat.ltb]. rewrite negb_involutive. repeat split. }
  intros once twice.
  destruct (Hpause env1 self) as (Hp1 & Hd1 & Hr1 & Hk1 & Hm1 & Hc1).
  destruct (Hpause env2 once) as (Hp2 & Hd2 & Hr2 & Hk2 & Hm2 & Hc2).
  fold once in Hp1, Hd1, Hr1, Hk1, Hm1, Hc1.
  fold twice in Hp2, Hd2, Hr2, Hk2, Hm2, Hc2.
  rewrite Hp2, Hp1, Hd2, Hd1, Hp1, Hr2, Hr1, Hk2, Hk1, Hm2, Hm1, Hc2, Hc1, negb_involutive.
  repeat split.
Qed.

Lemma run_cycle_step_work (env : Env) (start_time : Z) (self : Orchestrator.DavidAI) :
  Orchestrator.is_running self = true ->
  Orchestrator.is_paused self = false ->
  now env - start_time <= Orchestrator.cycle_duration ->
  Orchestrator._run_cycle_step env (Orchestrator.CycleLoop start_time) self
  = bind (Orchestrator._simulate_work env)
         (fun _ => ret (Orchestrator.CycleLoop start_time)) self.
Proof.
  intros Hrun Hpaused Hearly.
  assert (Hnot : (now env - start_time >? Orchestrator.cycle_duration) = false).
  { destruct (now env - start_time >? Orchestrator.cycle_duration) eqn:Hgt;
      [apply Z.gtb_lt in Hgt; lia | reflexivity]. }
  unfold Orchestrator._run_cycle_step.
  unfold bind at 1. unfold gets at 1. rewrite Hrun. cbn [negb].
  unfold bind at 1. unfold gets at 1. rewrite Hpaused, Hnot.
  destruct (bind (Orchestrator._simulate_work env)
              (fun _ => ret (Orchestrator.CycleLoop start_time)) self) as [[r s2] o2].
  reflexivity.
Qed.

(** X16: what one test of the cycle loop does on a running system.  While
    paused it does nothing, whatever the clock says, and keeps its
    [start_time]: the time spent paused counts against the budget.  Once
    more than 43200 seconds have passed since the thread began, an
    unpaused test logs the completion, shuts the system down and ends the
    thread, without any agent working or ledger entry; at 43200 seconds
    exactly, or before, it still runs the work of one iteration. *)
Theorem run_cycle_step_expiry (env : Env) (start_time : Z) (self : Orchestrator.DavidAI) :
  Orchestrator.is_running self = true ->
  Orchestrator.cycle_duration = 43200
  /\ (Orchestrator.is_paused self = true ->
      Orchestrator._run_cycle_step env (Orchestrator.CycleLoop start_time) self
      = (Returned (Orchestrator.CycleLoop start_time), self, []))
  /\ (Orchestrator.is_paused self = false ->
      now env - start_time > Orchestrator.cycle_duration ->
      let r := Orchestrator._run_cycle_step env (Orchestrator.CycleLoop start_time) self in
      result_of r = Returned Orchestrator.CycleDone
      /\ Orchestrator.is_running (state_of r) = false
      /\ CommandCenter.is_running (Orchestrator.dashboard (state_of r)) = false
      /\ Orchestrator.knowledge_curator (state_of r) = Orchestrator.knowledge_curator self
      /\ Orchestrator.manager (state_of r) = Orchestrator.manager self
      /\ Orchestrator.ceo (state_of r) = Orchestrator.ceo self
      /\ output_of r
         = [Print (DashboardHistory.formatted (env, "SYSTEM", "Cycle complete."))
              Agents.newline;
            Log CommandCenter.logger INFO "Dashboard stopped.";
            Log Orchestrator.logger INFO "DavidAI shutting down."])
  /\ (Orchestrator.is_paused self = false ->
      now env - start_time <= Orchestrator.cycle_duration ->
      Orchestrator._run_cycle_step env (Orchestrator.CycleLoop start_time) self
      = bind (Orchestrator._simulate_work env)
             (fun _ => ret (Orchestrator.CycleLoop start_time)) self).
Proof.
  intros Hrun. split; [reflexivity |].
  split; [| split].
  - intros Hpaused. unfold Orchestrator._run_cycle_step.
    unfold bind at 1. unfold gets at 1. rewrite Hrun. cbn [negb].
    unfold bind at 1. unfold gets at 1. rewrite Hpaused. reflexivity.
  - intros Hpaused Hlate.
    apply Z.gt_lt, Z.gtb_lt in Hlate.
    assert (Hstep :
              Orchestrator._run_cycle_step env (Orchestrator.CycleLoop start_time) self
              = bind (Orchestrator.on_dashboard
                        (CommandCenter.log_message env "SYSTEM" "Cycle complete."))
                     (fun _ => bind Orchestrator.shutdown
                                    (fun _ => ret Orchestrator.CycleDone)) self).
    { unfold Orchestrator._run_cycle_step.
      unfold bind at 1. unfold gets at 1. rewrite Hrun. cbn [negb].
      unfold bind at 1. unfold gets at 1. rewrite Hpaused, Hlate. reflexivity. }
    fold (Orchestrator._run_cycle_step env (Orchestrator.CycleLoop start_time)).
    rewrite Hstep.
    unfold bind, Orchestrator.on_dashboard, zoom, Orchestrator.shutdown, bind, modify, emit,
      CommandCenter.stop, CommandCenter.log_message, bind, modify, print, emit, ret,
      result_of, state_of, output_of.
    cbn -[Nat.ltb]. repeat split.
  - intros Hpaused Hearly. apply run_cycle_step_work; assumption.
Qed.

Lemma run_cycle_step_expiry_witness :
  Orchestrator.is_running (Orchestrator.system Sample.working_world) = true
  /\ Orchestrator.is_paused (Orchestrator.system Sample.working_world) = false
  /\ now Sample.late - 1000 > Orchestrator.cycle_duration
  /\ result_of (Orchestrator._run_cycle_step Sample.late (Orchestrator.CycleLoop 1000)
                  (Orchestrator.system Sample.working_world))
     = Returned Orchestrator.CycleDone
  /\ Orchestrator.is_paused (Orchestrator.system Sample.paused_world) = true
  /\ result_of (Orchestrator._run_cycle_step Sample.late (Orchestrator.CycleLoop 1000)
                  (Orchestrator.system Sample.paused_world))
     = Returned (Orchestrator.CycleLoop 1000)
  /\ now Sample.env - 1000 <= Orchestrator.cycle_duration
  /\ length (Agents.ledger
               (Orchestrator.knowledge_curator
                  (state_of (Orchestrator._run_cycle_step Sample.env
                               (Orchestrator.CycleLoop 1000)
                               (Orchestrator.system Sample.working_world)))))
     = 2%nat.
Proof.
  assert (Hlate : now Sample.late - 1000 > Orchestrator.cycle_duration) by reflexivity.
  assert (Hearly : now Sample.env - 1000 <= Orchestrator.cycle_duration) by discriminate.
  split; [reflexivity |]. split; [reflexivity |]. split; [exact Hlate |].
  destruct (run_cycle_step_expiry Sample.late 1000
              (Orchestrator.system Sample.working_world) eq_refl)
    as (_ & _ & Hexpired & _).
  split; [apply (Hexpired eq_refl Hlate) |].
  split; [reflexivity |].
  destruct (run_cycle_step_expiry Sample.late 1000
              (Orchestrator.system Sample.paused_world) eq_refl)
    as (_ & Hpaused & _).
  split; [rewrite (Hpaused eq_refl); reflexivity |].
  split; [exact Hearly |].
  destruct (run_cycle_step_expiry Sample.env 1000
              (Orchestrator.system Sample.working_world) eq_refl)
    as (_ & _ & _ & Hwork).
  rewrite (Hwork eq_refl Hearly). reflexivity.
Defined.

Lemma zoom_run {S T A} (get : S -> T) (set : T -> S -> S) (m : M T A) (s : S)
    (r : outcome A) (t : T) (o : list output) :
  m (get s) = (r, t, o) -> zoom get set m s = (r, set t s, o).
Proof. intros Hm. unfold zoom. rewrite Hm. reflexivity. Qed.

Lemma bind_raised {S A B} (m : M S A) (k : A -> M S B) (s s1 : S) (e : exn)
    (o1 : list output) :
  m s = (Raised e, s1, o1) -> bind m k s = (Raised e, s1, o1).
Proof. intros Hm. unfold bind. rewrite Hm. reflexivity. Qed.

Lemma Manager_run_assign (task : pydict) (self : Agents.Manager) :
  Py.eq_str (Py.get "type" task) "assign_task" = true ->
  exists results,
    Agents.run task self
    = (Returned [("agent", PStr (Agents.name (Agents.manager_base self)));
                 ("status", PStr "distributed");
                 ("results", PList (map PDict results))],
       {| Agents.manager_base := Agents.set_is_active false (Agents.manager_base self);
          Agents.ants := map Planner.rested (Agents.ants self) |},
       Log Agents.logger INFO
         (Agents.name (Agents.manager_base self) +:+ " executing task: "
          +:+ Py.str (Py.get "type" task))
       :: Log Agents.logger INFO
            (Agents.name (Agents.manager_base self) +:+ " assigning task to ANTS...")
       :: flat_map (fun ant => output_of (Agents.run task ant)) (Agents.ants self)).
Proof.
  intros Htype.
  destruct (for_each_run_ANT task (Agents.ants self)) as (results & Hloop & _).
  exists results.
  unfold Agents.run, bind, gets, emit, modify; cbn.
  unfold Agents.Manager_execute. rewrite Htype.
  unfold Agents._assign_task, bind, gets, emit, zoom; cbn. rewrite Hloop. cbn.
  rewrite !app_nil_r. reflexivity.
Qed.

(** The work of one iteration when the planner's model answers. *)
Lemma simulate_work_returned (env : Env) (self : Orchestrator.DavidAI)
    (text : string) (o : list output) :
  Loader.generate (Agents.model (Agents.ceo_base (Orchestrator.ceo self)))
    (Planner.prompt Planner.plan_task) tt = (Returned text, tt, o) ->
  let r := Orchestrator._simulate_work env self in
  result_of r = Returned tt
  /\ Agents.ledger (Orchestrator.knowledge_curator (state_of r))
     = Agents.ledger (Orchestrator.knowledge_curator self) ++ [Planner.simulated_entry]
  /\ Agents.ants (Orchestrator.manager (state_of r))
     = map Planner.rested (Agents.ants (Orchestrator.manager self))
  /\ Orchestrator.is_running (state_of r) = Orchestrator.is_running self
  /\ Orchestrator.is_paused (state_of r) = Orchestrator.is_paused self
  /\ output_of r
     = Log Agents.logger INFO
         (Agents.name (Agents.ceo_base (Orchestrator.ceo self)) +:+ " executing task: plan")
       :: o
       ++ [Print (DashboardHistory.formatted (env, "CEO", "Architecture planned."))
             Agents.newline;
           Log Agents.logger INFO
             (Agents.name (Agents.manager_base (Orchestrator.manager self))
              +:+ " executing task: assign_task");
           Log Agents.logger INFO
             (Agents.name (Agents.manager_base (Orchestrator.manager self))
              +:+ " assigning task to ANTS...")]
       ++ flat_map (fun ant => output_of (Agents.run Planner.assign_task ant))
            (Agents.ants (Orchestrator.manager self))
       ++ [Print (DashboardHistory.formatted (env, "Manager", "Tasks assigned to ANTS."))
             Agents.newline;
           Log Agents.logger INFO
             "Curator logging success: {'task': 'simulated_task', 'success': True}"].
Proof.
  intros Hgen.
  destruct (Manager_run_assign Planner.assign_task (Orchestrator.manager self) eq_refl)
    as (results & Hmanager).
  pose proof (CEO_run_returned Planner.plan_task (Orchestrator.ceo self) text o Hgen)
    as Hceo.
  eassert (Hwork : Orchestrator._simulate_work env self = (Returned tt, _, _)).
  { unfold Orchestrator._simulate_work.
    erewrite bind_returned by reflexivity.
    erewrite (bind_returned (zoom Orchestrator.ceo Orchestrator.set_ceo _))
      by (apply zoom_run; exact Hceo).
    erewrite (bind_returned (Orchestrator.on_dashboard _))
      by (apply zoom_run, log_message_effect).
    erewrite (bind_returned (zoom Orchestrator.manager Orchestrator.set_manager _))
      by (apply zoom_run; exact Hmanager).
    erewrite (bind_returned (Orchestrator.on_dashboard _))
      by (apply zoom_run, log_message_effect).
    reflexivity. }
  intros r. subst r. rewrite Hwork.
  cbn [result_of state_of output_of fst snd].
  split; [reflexivity |]. split; [reflexivity |]. split; [reflexivity |].
  split; [reflexivity |]. split; [reflexivity |].
  cbn -[flat_map Agents.run]. reflexivity.
Qed.

(** X17: one iteration of a running, unpaused cycle within its budget,
    when the planner's model answers: the planner is run on the plan task,
    then the dispatcher on the assign task, which runs every worker once
    in the order of registration, then exactly one entry, the fixed
    simulated one, is appended to the ledger.  The thread stays in its
    loop, the flags are as before and every worker is left inactive. *)
Theorem working_iteration (env : Env) (start_time : Z) (self : Orchestrator.DavidAI)
    (text : string) (o : list output) :
  Orchestrator.is_running self = true ->
  Orchestrator.is_paused self = false ->
  now env - start_time <= Orchestrator.cycle_duration ->
  Loader.generate (Agents.model (Agents.ceo_base (Orchestrator.ceo self)))
    (Planner.prompt Planner.plan_task) tt = (Returned text, tt, o) ->
  let r := Orchestrator._run_cycle_step env (Orchestrator.CycleLoop start_time) self in
  result_of r = Returned (Orchestrator.CycleLoop start_time)
  /\ Agents.ledger (Orchestrator.knowledge_curator (state_of r))
     = Agents.ledger (Orchestrator.knowledge_curator self) ++ [Planner.simulated_entry]
  /\ Agents.ants (Orchestrator.manager (state_of r))
     = map Planner.rested (Agents.ants (Orchestrator.manager self))
  /\ Orchestrator.is_running (state_of r) = true
  /\ Orchestrator.is_paused (state_of r) = false
  /\ output_of r
     = Log Agents.logger INFO
         (Agents.name (Agents.ceo_base (Orchestrator.ceo self)) +:+ " executing task: plan")
       :: o
       ++ [Print (DashboardHistory.formatted (env, "CEO", "Architecture planned."))
             Agents.newline;
           Log Agents.logger INFO
             (Agents.name (Agents.manager_base (Orchestrator.manager self))
              +:+ " executing task: assign_task");
           Log Agents.logger INFO
             (Agents.name (Agents.manager_base (Orchestrator.manager self))
              +:+ " assigning task to ANTS...")]
       ++ flat_map (fun ant => output_of (Agents.run Planner.assign_task ant))
            (Agents.ants (Orchestrator.manager self))
       ++ [Print (DashboardHistory.formatted (env, "Manager", "Tasks assigned to ANTS."))
             Agents.newline;
           Log Agents.logger INFO
             "Curator logging success: {'task': 'simulated_task', 'success': True}"].
Proof.
  intros Hrun Hpaused Hearly Hgen r. subst r.
  rewrite (run_cycle_step_work env start_time self Hrun Hpaused Hearly).
  destruct (simulate_work_returned env self text o Hgen)
    as (Hr & Hledger & Hants & Hflag1 & Hflag2 & Hout).
  rewrite (bind_returned _ _ _ _ _ _
             (eq_trans (triple_eta _)
                (f_equal (fun x => (x, state_of (Orchestrator._simulate_work env self),
                                    output_of (Orchestrator._simulate_work env self))) Hr))).
  cbn [ret result_of state_of output_of fst snd].
  rewrite app_nil_r, Hledger, Hants, Hflag1, Hflag2, Hout, Hrun, Hpaused.
  repeat split.
Qed.

Lemma working_iteration_witness :
  Orchestrator.is_running (Orchestrator.system Sample.working_world) = true
  /\ Orchestrator.is_paused (Orchestrator.system Sample.working_world) = false
  /\ now Sample.env - 1000 <= Orchestrator.cycle_duration
  /\ Agents.ledger
       (Orchestrator.knowledge_curator
          (state_of (Orchestrator._run_cycle_step Sample.env (Orchestrator.CycleLoop 1000)
                       (Orchestrator.system Sample.working_world))))
     = [Planner.simulated_entry; Planner.simulated_entry].
Proof.
  assert (Hearly : now Sample.env - 1000 <= Orchestrator.cycle_duration) by discriminate.
  split; [reflexivity |]. split; [reflexivity |]. split; [exact Hearly |].
  destruct (working_iteration Sample.env 1000 (Orchestrator.system Sample.working_world)
              _ _ eq_refl eq_refl Hearly eq_refl) as (_ & Hledger & _).
  rewrite Hledger. reflexivity.
Defined.

(** ** The cycle thread, statement by statement *)

Lemma run_to_test_S (fuel : nat) (env : Env) (point : Interleaving.CyclePoint) :
  Interleaving.run_to_test (S fuel) env point
  = bind (Interleaving.cycle_statement env point)
      (fun point1 =>
         match point1 with
         | Interleaving.WhileTest _ | Interleaving.CycleReturned => ret point1
         | _ => Interleaving.run_to_test fuel env point1
         end).
Proof. reflexivity. Qed.

(** A pass through the loop as [_run_cycle_step] has it is the statements
    of the thread from one test of the loop to the next, run without
    another thread in between. *)
Lemma run_to_test_pass (env : Env) (start_time : Z) (self : Orchestrator.DavidAI) :
  Orchestrator._run_cycle_step env (Orchestrator.CycleLoop start_time) self
  = Interleaving.pass
      (Interleaving.run_to_test 9 env (Interleaving.WhileTest start_time) self).
Proof.
  (* the pass, as sequential code *)
  unfold Orchestrator._run_cycle_step, Orchestrator._simulate_work, Orchestrator.shutdown,
    CommandCenter.stop, bind, gets, modify, emit, ret, zoom, Orchestrator.on_dashboard, zoom.
  cbn [fst snd].
  (* its first test *)
  rewrite run_to_test_S.
  erewrite (bind_returned (Interleaving.cycle_statement _ _)) by reflexivity.
  cbn [result_of state_of output_of fst snd app].
  destruct (Orchestrator.is_running self) eqn:Hrunning; cbn [negb]; [| reflexivity].
  rewrite run_to_test_S.
  erewrite (bind_returned (Interleaving.cycle_statement _ _)) by reflexivity.
  cbn [result_of state_of output_of fst snd app].
  destruct (Orchestrator.is_paused self) eqn:Hpaused; [reflexivity |].
  rewrite run_to_test_S.
  erewrite (bind_returned (Interleaving.cycle_statement _ _)) by reflexivity.
  cbn [result_of state_of output_of fst snd app].
  destruct (now env - start_time >? Orchestrator.cycle_duration).
  - rewrite !log_message_effect. cbn [fst snd].
    rewrite run_to_test_S.
    erewrite (bind_returned (Interleaving.cycle_statement _ _)).
    2: { cbn [Interleaving.cycle_statement]. unfold bind, Orchestrator.on_dashboard, zoom.
         rewrite log_message_effect. reflexivity. }
    cbn [result_of state_of output_of fst snd app].
    rewrite run_to_test_S.
    erewrite (bind_returned (Interleaving.cycle_statement _ _)) by reflexivity.
    reflexivity.
  - cbn [CommandCenter.update_metrics modify fst snd].
    rewrite run_to_test_S.
    erewrite (bind_returned (Interleaving.cycle_statement _ _)) by reflexivity.
    cbn [result_of state_of output_of fst snd app Interleaving.after_work].
    rewrite run_to_test_S.
    cbn [Orchestrator.ceo Orchestrator.set_dashboard].
    destruct (Agents.run [("type", PStr "plan"); ("description", PStr "New coding task")]
                (Orchestrator.ceo self)) as [[[plan | e] c] o1] eqn:Hplan.
    2: { erewrite bind_raised.
         2: { cbn [Interleaving.cycle_statement Interleaving.work_statement].
              unfold bind, zoom. cbn [Orchestrator.ceo Orchestrator.set_dashboard].
              rewrite Hplan. reflexivity. }
         reflexivity. }
    erewrite (bind_returned (Interleaving.cycle_statement _ _)).
    2: { cbn [Interleaving.cycle_statement Interleaving.work_statement].
         unfold bind, zoom. cbn [Orchestrator.ceo Orchestrator.set_dashboard].
         rewrite Hplan. reflexivity. }
    cbn [result_of state_of output_of fst snd app Interleaving.after_work].
    rewrite !log_message_effect. cbn [fst snd].
    rewrite run_to_test_S.
    erewrite (bind_returned (Interleaving.cycle_statement _ _)).
    2: { cbn [Interleaving.cycle_statement Interleaving.work_statement].
         unfold bind, Orchestrator.on_dashboard, zoom.
         rewrite log_message_effect. reflexivity. }
    cbn [result_of state_of output_of fst snd app Interleaving.after_work].
    rewrite run_to_test_S.
    cbn [Orchestrator.manager Orchestrator.set_dashboard Orchestrator.set_ceo
         Orchestrator.dashboard].
    destruct (Agents.run [("type", PStr "assign_task");
                          ("description", PStr "Implement feature X")]
                (Orchestrator.manager self)) as [[[results | e] m] o2] eqn:Hassign.
    2: { erewrite bind_raised.
         2: { cbn [Interleaving.cycle_statement Interleaving.work_statement].
              unfold bind, zoom.
              cbn [Orchestrator.manager Orchestrator.set_dashboard Orchestrator.set_ceo].
              rewrite Hassign. reflexivity. }
         cbn [Interleaving.pass]. rewrite ?app_nil_r, <- ?app_assoc. reflexivity. }
    erewrite (bind_returned (Interleaving.cycle_statement _ _)).
    2: { cbn [Interleaving.cycle_statement Interleaving.work_statement].
         unfold bind, zoom.
         cbn [Orchestrator.manager Orchestrator.set_dashboard Orchestrator.set_ceo].
         rewrite Hassign. reflexivity. }
    cbn [result_of state_of output_of fst snd app Interleaving.after_work].
    rewrite !log_message_effect. cbn [fst snd].
    rewrite run_to_test_S.
    erewrite (bind_returned (Interleaving.cycle_statement _ _)).
    2: { cbn [Interleaving.cycle_statement Interleaving.work_statement].
         unfold bind, Orchestrator.on_dashboard, zoom.
         rewrite log_message_effect. reflexivity. }
    cbn [result_of state_of output_of fst snd app Interleaving.after_work].
    rewrite run_to_test_S.
    erewrite (bind_returned (Interleaving.cycle_statement _ _)) by reflexivity.
    rewrite log_success_appends.
    cbn [result_of state_of output_of fst snd app Interleaving.after_work ret
         Interleaving.pass Interleaving.loop_pass].
    rewrite ?app_nil_r, <- ?app_assoc. reflexivity.
Qed.

(** ** Threads *)

(** X18: when the planner's model raises during an iteration, nothing
    catches the exception: the cycle thread ends, with the planner left
    marked active, the dispatcher not run and the ledger not written,
    while [is_running] stays set.  So the status still reports running
    and a later [start_cycle] returns at once without starting a new
    loop. *)
Theorem model_failure_ends_cycle_thread (env : Env) (tid : nat) (start_time : Z)
    (w : Orchestrator.World) (e : exn) (o : list output) :
  Orchestrator.threads w !! tid
  = Some (Orchestrator.MainLoopThread (Orchestrator.CycleLoop start_time)) ->
  Orchestrator.is_running (Orchestrator.system w) = true ->
  Orchestrator.is_paused (Orchestrator.system w) = false ->
  now env - start_time <= Orchestrator.cycle_duration ->
  Loader.generate
    (Agents.model (Agents.ceo_base (Orchestrator.ceo (Orchestrator.system w))))
    (Planner.prompt Planner.plan_task) tt = (Raised e, tt, o) ->
  let after := state_of (Orchestrator.tick env tid w) in
  result_of (Orchestrator.tick env tid w) = Returned tt
  /\ Orchestrator.threads after !! tid
     = Some (Orchestrator.MainLoopThread Orchestrator.CycleDone)
  /\ Orchestrator.is_running (Orchestrator.system after) = true
  /\ Agents.is_active (Agents.ceo_base (Orchestrator.ceo (Orchestrator.system after))) = true
  /\ Orchestrator.manager (Orchestrator.system after)
     = Orchestrator.manager (Orchestrator.system w)
  /\ Orchestrator.knowledge_curator (Orchestrator.system after)
     = Orchestrator.knowledge_curator (Orchestrator.system w)
  /\ forall env' : Env, Orchestrator.start_cycle env' after = (Returned tt, after, []).
Proof.
  intros Hthread Hrun Hpaused Hearly Hgen.
  pose proof (CEO_run_raised Planner.plan_task
                (Orchestrator.ceo (Orchestrator.system w)) e o Hgen) as Hceo.
  eassert (Hstep : Orchestrator.thread_step env
                     (Orchestrator.MainLoopThread (Orchestrator.CycleLoop start_time))
                     (Orchestrator.system w) = (Raised e, _, _)).
  { cbn [Orchestrator.thread_step].
    apply bind_raised.
    rewrite (run_cycle_step_work env start_time _ Hrun Hpaused Hearly).
    apply bind_raised. unfold Orchestrator._simulate_work.
    erewrite bind_returned by reflexivity.
    erewrite (bind_raised (zoom Orchestrator.ceo Orchestrator.set_ceo _))
      by (apply zoom_run; exact Hceo).
    reflexivity. }
  unfold Orchestrator.tick. rewrite Hthread, Hstep.
  cbn [result_of state_of output_of fst snd Orchestrator.system Orchestrator.threads
       Orchestrator.finished].
  assert (Htid : (tid < length (Orchestrator.threads w))%nat)
    by (apply lookup_lt_Some in Hthread; exact Hthread).
  split; [reflexivity |]. split; [apply list_lookup_insert_eq, Htid |].
  split; [exact Hrun |]. split; [reflexivity |]. split; [reflexivity |].
  split; [reflexivity |].
  intros env'. unfold Orchestrator.start_cycle, bind, gets. cbn. rewrite Hrun. reflexivity.
Qed.

Lemma model_failure_ends_cycle_thread_witness :
  Orchestrator.threads Sample.failing_world !! 1%nat
  = Some (Orchestrator.MainLoopThread (Orchestrator.CycleLoop 1000))
  /\ Orchestrator.is_running (Orchestrator.system Sample.failing_world) = true
  /\ Orchestrator.is_paused (Orchestrator.system Sample.failing_world) = false
  /\ now Sample.env - 1000 <= Orchestrator.cycle_duration
  /\ Orchestrator.threads (state_of (Orchestrator.tick Sample.env 1 Sample.failing_world))
     !! 1%nat
     = Some (Orchestrator.MainLoopThread Orchestrator.CycleDone).
Proof.
  assert (Hearly : now Sample.env - 1000 <= Orchestrator.cycle_duration) by discriminate.
  split; [reflexivity |]. split; [reflexivity |]. split; [reflexivity |].
  split; [exact Hearly |].
  destruct (model_failure_ends_cycle_thread Sample.env 1 1000 Sample.failing_world
              (NotImplementedError "backend missing") []
              eq_refl eq_refl eq_refl Hearly eq_refl) as (_ & Hthread & _).
  exact Hthread.
Defined.

(** [start_cycle] on a system that is not running. *)
Lemma start_cycle_fresh (env : Env) (w : Orchestrator.World) :
  Orchestrator.is_running (Orchestrator.system w) = false ->
  Orchestrator.start_cycle env w
  = (Returned tt,
     {| Orchestrator.system :=
          Orchestrator.set_main_loop_thread
            (Some (length (Orchestrator.threads w
                           ++ [Orchestrator.DashboardThread CommandCenter.DashNew])))
            (Orchestrator.set_dashboard_thread
               (Some (length (Orchestrator.threads w)))
               (Orchestrator.set_dashboard
                  (CommandCenter.set_logs
                     (let lines :=
                        CommandCenter.logs (Orchestrator.dashboard (Orchestrator.system w))
                        ++ [DashboardHistory.formatted
                              (env, "SYSTEM", "Starting autonomous cycle...")] in
                      if (50 <? length lines)%nat then tail lines else lines)
                     (Orchestrator.dashboard (Orchestrator.system w)))
                  (Orchestrator.set_is_running true (Orchestrator.system w))));
        Orchestrator.threads :=
          (Orchestrator.threads w ++ [Orchestrator.DashboardThread CommandCenter.DashNew])
          ++ [Orchestrator.MainLoopThread Orchestrator.CycleNew] |},
     [Print (DashboardHistory.formatted (env, "SYSTEM", "Starting autonomous cycle..."))
        Agents.newline]).
Proof.
  intros Hstopped. unfold Orchestrator.start_cycle.
  unfold bind at 1. unfold gets at 1. rewrite Hstopped.
  erewrite bind_returned by reflexivity.
  erewrite (bind_returned (Orchestrator.on_system _))
    by (apply zoom_run, zoom_run, log_message_effect).
  reflexivity.
Qed.

(** X19: [shutdown] does not wait for the cycle thread.  When
    [start_cycle] is called after a [shutdown] and before the old thread
    has tested its loop again, the old thread is still in its loop and a
    new cycle thread is added beside it, so two loops run: the next
    iteration of the old thread works and appends to the ledger like any
    other. *)
Theorem restart_keeps_old_loop (env : Env) (tid : nat) (start_time : Z)
    (w : Orchestrator.World) :
  Orchestrator.threads w !! tid
  = Some (Orchestrator.MainLoopThread (Orchestrator.CycleLoop start_time)) ->
  Orchestrator.is_running (Orchestrator.system w) = false ->
  let restarted := state_of (Orchestrator.start_cycle env w) in
  Orchestrator.is_running (Orchestrator.system restarted) = true
  /\ Orchestrator.threads restarted !! tid
     = Some (Orchestrator.MainLoopThread (Orchestrator.CycleLoop start_time))
  /\ Orchestrator.threads restarted !! S (length (Orchestrator.threads w))
     = Some (Orchestrator.MainLoopThread Orchestrator.CycleNew)
  /\ tid <> S (length (Orchestrator.threads w))
  /\ Orchestrator.main_loop_thread (Orchestrator.system restarted)
     = Some (S (length (Orchestrator.threads w)))
  /\ forall (env' : Env) (text : string) (o : list output),
       Orchestrator.is_paused (Orchestrator.system w) = false ->
       now env' - start_time <= Orchestrator.cycle_duration ->
       Loader.generate
         (Agents.model (Agents.ceo_base (Orchestrator.ceo (Orchestrator.system w))))
         (Planner.prompt Planner.plan_task) tt = (Returned text, tt, o) ->
       Agents.ledger
         (Orchestrator.knowledge_curator
            (Orchestrator.system (state_of (Orchestrator.tick env' tid restarted))))
       = Agents.ledger (Orchestrator.knowledge_curator (Orchestrator.system w))
         ++ [Planner.simulated_entry].
Proof.
  intros Hthread Hstopped.
  assert (Htid : (tid < length (Orchestrator.threads w))%nat)
    by (apply lookup_lt_Some in Hthread; exact Hthread).
  intros restarted. subst restarted. rewrite (start_cycle_fresh env w Hstopped).
  cbn [state_of fst snd Orchestrator.system Orchestrator.threads
       Orchestrator.is_running Orchestrator.main_loop_thread
       Orchestrator.set_main_loop_thread Orchestrator.set_dashboard_thread
       Orchestrator.set_dashboard Orchestrator.set_is_running].
  assert (Hold : forall extra,
             ((Orchestrator.threads w ++ [Orchestrator.DashboardThread CommandCenter.DashNew])
              ++ extra) !! tid
             = Some (Orchestrator.MainLoopThread (Orchestrator.CycleLoop start_time))).
  { intros extra. rewrite <- app_assoc. rewrite lookup_app_l by exact Htid. exact Hthread. }
  split; [reflexivity |]. split; [apply Hold |]. split.
  { rewrite lookup_app_r by (rewrite length_app; cbn; lia).
    rewrite length_app. cbn [length].
    replace (S (length (Orchestrator.threads w)) - (length (Orchestrator.threads w) + 1))%nat
      with 0%nat by lia.
    reflexivity. }
  split; [lia |]. split.
  { f_equal. rewrite length_app. cbn [length]. lia. }
  intros env' text o Hpaused Hearly Hgen.
  unfold Orchestrator.tick.
  cbn [Orchestrator.system Orchestrator.threads]. rewrite Hold.
  cbn [Orchestrator.thread_step].
  set (d := Orchestrator.set_main_loop_thread _ _).
  destruct (simulate_work_returned env' d text o Hgen) as (Hr & Hledger & _).
  assert (Hstep : Orchestrator._run_cycle_step env' (Orchestrator.CycleLoop start_time) d
                  = (Returned (Orchestrator.CycleLoop start_time),
                     state_of (Orchestrator._simulate_work env' d),
                     output_of (Orchestrator._simulate_work env' d) ++ [])).
  { rewrite run_cycle_step_work by (try reflexivity; assumption).
    rewrite (bind_returned _ _ _ _ _ _
               (eq_trans (triple_eta _)
                  (f_equal (fun x => (x, state_of (Orchestrator._simulate_work env' d),
                                      output_of (Orchestrator._simulate_work env' d))) Hr))).
    reflexivity. }
  rewrite (bind_returned _ _ _ _ _ _ Hstep).
  cbn [ret result_of state_of fst snd Orchestrator.system].
  exact Hledger.
Qed.

Lemma restart_keeps_old_loop_witness :
  Orchestrator.threads Sample.stopped_world !! 1%nat
  = Some (Orchestrator.MainLoopThread (Orchestrator.CycleLoop 1000))
  /\ Orchestrator.is_running (Orchestrator.system Sample.stopped_world) = false
  /\ Orchestrator.threads
       (state_of (Orchestrator.start_cycle Sample.env Sample.stopped_world)) !! 3%nat
     = Some (Orchestrator.MainLoopThread Orchestrator.CycleNew)
  /\ Orchestrator.threads
       (state_of (Orchestrator.start_cycle Sample.env Sample.stopped_world)) !! 1%nat
     = Some (Orchestrator.MainLoopThread (Orchestrator.CycleLoop 1000))
  /\ Orchestrator.is_paused (Orchestrator.system Sample.stopped_world) = false
  /\ now Sample.env - 1000 <= Orchestrator.cycle_duration
  /\ length
       (Agents.ledger
          (Orchestrator.knowledge_curator
             (Orchestrator.system
                (state_of (Orchestrator.tick Sample.env 1
                             (state_of (Orchestrator.start_cycle Sample.env
                                          Sample.stopped_world)))))))
     = 2%nat.
Proof.
  assert (Hearly : now Sample.env - 1000 <= Orchestrator.cycle_duration) by discriminate.
  split; [reflexivity |]. split; [reflexivity |].
  destruct (restart_keeps_old_loop Sample.env 1 1000 Sample.stopped_world eq_refl eq_refl)
    as (_ & Hold & Hnew & _ & _ & Hwork).
  split; [exact Hnew |]. split; [exact Hold |]. split; [reflexivity |].
  split; [exact Hearly |].
  rewrite (Hwork Sample.env _ _ eq_refl Hearly eq_refl). reflexivity.
Defined.

(** ** The scan of the project *)

Lemma shown_hidden (name : string) :
  ProjectTree.shown name = negb (ProjectTree.hidden name).
Proof.
  unfold ProjectTree.shown, ProjectTree.hidden, PyString.startswith.
  destruct name as [| c rest]; [reflexivity |].
  cbn [String.prefix].
  destruct (Ascii.ascii_dec "." c) as [<- | Hne].
  - rewrite Ascii.eqb_refl. destruct rest; reflexivity.
  - destruct (Ascii.eqb c ".") eqn:Hc; [| reflexivity].
    apply Ascii.eqb_eq in Hc. congruence.
Qed.

Lemma walk_visible (node : ProjectTree.Node) :
  forall top, ProjectTree.walk top (ProjectTree.visible node) = ProjectTree.walk top node.
Proof.
  induction node as [| entries IH] using ProjectTree.Node_induction; intros top; [reflexivity |].
  cbn [ProjectTree.walk ProjectTree.visible]. f_equal; [f_equal |].
  - clear IH. unfold ProjectTree.file_names.
    induction entries as [| [name sub] rest IHrest]; [reflexivity |].
    destruct sub as [| sub_entries]; cbn [ProjectTree.is_directory andb negb snd fst].
    + cbn. f_equal. exact IHrest.
    + destruct (ProjectTree.hidden name); cbn; exact IHrest.
  - induction entries as [| [name sub] rest IHrest]; [reflexivity |].
    inversion IH as [| ? ? Hsub Hrest]; subst. cbn [snd] in Hsub.
    destruct sub as [| sub_entries]; cbn [ProjectTree.is_directory andb negb].
    + f_equal. apply IHrest, Hrest.
    + rewrite shown_hidden.
      destruct (ProjectTree.hidden name) eqn:Hhidden; cbn [negb].
      * cbn [app]. apply IHrest, Hrest.
      * change (ProjectTree.is_directory
                  (ProjectTree.visible (ProjectTree.Directory sub_entries))) with true.
        cbn [andb]. rewrite shown_hidden, Hhidden. cbn [negb].
        rewrite Hsub. f_equal. apply IHrest, Hrest.
Qed.

(** Taking a hidden directory out of a listing leaves the visible part as
    it was. *)
Lemma visible_without (before after below : list (string * ProjectTree.Node))
    (name : string) :
  ProjectTree.hidden name = true ->
  ProjectTree.visible
    (ProjectTree.Directory (before ++ (name, ProjectTree.Directory below) :: after))
  = ProjectTree.visible (ProjectTree.Directory (before ++ after)).
Proof.
  intros Hhidden. cbn [ProjectTree.visible]. f_equal.
  induction before as [| [name' sub] rest IH]; cbn [app].
  - cbn [ProjectTree.is_directory andb]. rewrite Hhidden. reflexivity.
  - destruct (ProjectTree.is_directory sub && ProjectTree.hidden name');
      [exact IH | f_equal; exact IH].
Qed.

Lemma scan_directory_visible (env : Env) (tree : ProjectTree.Node)
    (self : FileUtils.ProjectStructure) :
  ProjectTree.scan_directory env tree self
  = ProjectTree.scan_directory env (ProjectTree.visible tree) self.
Proof.
  unfold ProjectTree.scan_directory, bind, gets. rewrite walk_visible. reflexivity.
Qed.

Lemma get_tree_cases (env : Env) (tree : ProjectTree.Node) (prefix : string)
    (self : FileUtils.ProjectStructure) :
  (FileUtils.file_map self = [] ->
   ProjectTree.get_tree env tree prefix self
   = bind (ProjectTree.scan_directory env tree)
          (fun file_map =>
             ret (map (fun path => prefix +:+ path)
                      (ProjectTree.sorted (map fst file_map)))) self)
  /\ (FileUtils.file_map self <> [] ->
      ProjectTree.get_tree env tree prefix self
      = (Returned (map (fun path => prefix +:+ path)
                       (ProjectTree.sorted (map fst (FileUtils.file_map self)))),
         self, [])).
Proof.
  split; intros Hmap.
  - unfold ProjectTree.get_tree, ProjectTree.scan_directory, bind, gets, modify, ret.
    rewrite Hmap.
    destruct (ProjectTree.scan_walk env self
                (ProjectTree.walk (FileUtils.root_path self) tree) [] self)
      as [[[file_map | e] s] o]; cbn; rewrite ?app_nil_r; reflexivity.
  - unfold ProjectTree.get_tree, bind, gets, ret.
    destruct (FileUtils.file_map self) as [| entry rest] eqn:Hcached; [congruence |].
    cbn. rewrite Hcached. reflexivity.
Qed.

(** X20: the scan never looks below a directory whose name begins with a
    dot, at any depth: [scan_directory] and [get_tree] give the same
    answer, the same file map and the same warnings on a directory and on
    what is left of it when every such directory is taken away; so a
    directory whose name begins with a dot can be added or removed,
    whatever it holds, without any change to the scan.  The test is made
    of directories only: a file at the top that the guard accepts is put
    in the map whatever its name. *)
Theorem scan_skips_hidden_directories (env : Env) (tree : ProjectTree.Node)
    (self : FileUtils.ProjectStructure) :
  ProjectTree.scan_directory env tree self
  = ProjectTree.scan_directory env (ProjectTree.visible tree) self
  /\ (forall prefix : string,
        ProjectTree.get_tree env tree prefix self
        = ProjectTree.get_tree env (ProjectTree.visible tree) prefix self)
  /\ (forall (before after below : list (string * ProjectTree.Node)) (name : string),
        ProjectTree.hidden name = true ->
        ProjectTree.scan_directory env
          (ProjectTree.Directory (before ++ (name, ProjectTree.Directory below) :: after))
          self
        = ProjectTree.scan_directory env (ProjectTree.Directory (before ++ after)) self)
  /\ (forall name : string,
        let full_path := PosixPath.join (FileUtils.root_path self) name in
        let rel_path := ProjectTree.relpath env full_path (FileUtils.root_path self) in
        String.prefix (FileUtils.allowed_root (FileUtils.path_guard self))
          (PosixPath.abspath env full_path) = true ->
        ProjectTree.scan_directory env
          (ProjectTree.Directory [(name, ProjectTree.File)]) self
        = (Returned [(rel_path, full_path)],
           ProjectTree.set_file_map [(rel_path, full_path)] self, [])).
Proof.
  split; [apply scan_directory_visible |]. split; [| split].
  - intros prefix.
    destruct (get_tree_cases env tree prefix self) as [Hempty1 Hcached1].
    destruct (get_tree_cases env (ProjectTree.visible tree) prefix self)
      as [Hempty2 Hcached2].
    destruct (FileUtils.file_map self) as [| entry rest] eqn:Hmap.
    + rewrite Hempty1, Hempty2 by reflexivity. unfold bind.
      rewrite scan_directory_visible. reflexivity.
    + rewrite Hcached1, Hcached2 by discriminate. reflexivity.
  - intros before after below name Hhidden.
    rewrite scan_directory_visible, (visible_without before after below name Hhidden).
    symmetry. apply scan_directory_visible.
  - intros name full_path rel_path Hsafe. subst full_path rel_path.
    unfold ProjectTree.scan_directory, bind, gets, modify, ret.
    cbn -[PosixPath.abspath PosixPath.join ProjectTree.relpath String.prefix].
    unfold bind, ret, ProjectTree.scan_file, bind, on_object, FileUtils.is_safe_path,
      gets, PyString.startswith.
    cbn -[PosixPath.abspath PosixPath.join ProjectTree.relpath String.prefix].
    rewrite Hsafe. reflexivity.
Qed.

Lemma scan_skips_hidden_directories_witness :
  ProjectTree.hidden ".git" = true
  /\ result_of (ProjectTree.scan_directory Sample.env Sample.dotted_project
                  Sample.structure)
     = Returned [(".env", "/ws/.env"); ("app.py", "/ws/app.py")]
  /\ ProjectTree.scan_directory Sample.env Sample.dotted_project Sample.structure
     = ProjectTree.scan_directory Sample.env
         (ProjectTree.Directory [(".env", ProjectTree.File); ("app.py", ProjectTree.File)])
         Sample.structure
  /\ ProjectTree.scan_directory Sample.env
       (ProjectTree.Directory [(".env", ProjectTree.File)]) Sample.structure
     = (Returned [(".env", "/ws/.env")],
        ProjectTree.set_file_map [(".env", "/ws/.env")] Sample.structure, []).
Proof.
  destruct (scan_skips_hidden_directories Sample.env Sample.dotted_project
              Sample.structure) as (Hvisible & _ & Hwithout & Hfile).
  split; [reflexivity |]. split; [rewrite Hvisible; reflexivity |]. split.
  - apply (Hwithout [(".env", ProjectTree.File)] [("app.py", ProjectTree.File)]
             [("config", ProjectTree.File)] ".git"). reflexivity.
  - rewrite (Hfile ".env" eq_refl). reflexivity.
Defined.

Lemma assign_keys (key value : string) (d : list (string * string)) (x : string) :
  In x (map fst (ProjectTree.assign key value d)) <-> x = key \/ In x (map fst d).
Proof.
  induction d as [| [k v] rest IH]; cbn [ProjectTree.assign map fst In].
  - split; [intros [<- | []]; auto | intros [-> | []]; auto].
  - destruct (String.eqb k key) eqn:Hk; cbn [map fst In].
    + apply String.eqb_eq in Hk. subst k. intuition congruence.
    + rewrite IH. intuition congruence.
Qed.

Lemma assign_keeps (authorized : string -> Prop) (key value : string)
    (d : list (string * string)) :
  authorized value ->
  Forall (fun entry => authorized (snd entry)) d /\ NoDup (map fst d) ->
  Forall (fun entry => authorized (snd entry)) (ProjectTree.assign key value d)
  /\ NoDup (map fst (ProjectTree.assign key value d)).
Proof.
  intros Hvalue. induction d as [| [k v] rest IH]; intros [Hall Hkeys].
  - cbn. split; repeat constructor; try exact Hvalue. apply not_elem_of_nil.
  - cbn [ProjectTree.assign]. inversion Hall as [| ? ? Hv Hrest]; subst.
    cbn [map fst] in Hkeys. apply NoDup_cons in Hkeys as [Hfresh Hkeys].
    destruct (String.eqb k key) eqn:Hk.
    + split; [constructor; [exact Hvalue | exact Hrest] |].
      cbn [map fst]. apply NoDup_cons_2; assumption.
    + destruct (IH (conj Hrest Hkeys)) as [Hall' Hkeys'].
      split; [constructor; assumption |].
      cbn [map fst]. apply NoDup_cons_2; [| exact Hkeys'].
      rewrite list_elem_of_In, assign_keys. intros [-> | Hin].
      * rewrite String.eqb_refl in Hk. discriminate Hk.
      * apply Hfresh, list_elem_of_In, Hin.
Qed.

(** What holds of the map being built and of the records written, at every
    point of the scan. *)
Lemma scan_file_keeps (env : Env) (self s : FileUtils.ProjectStructure) (root file : string)
    (file_map : list (string * string)) :
  Forall (fun entry =>
            String.prefix (FileUtils.allowed_root (FileUtils.path_guard self))
              (PosixPath.abspath env (snd entry)) = true) file_map
  /\ NoDup (map fst file_map) ->
  exists file_map1 o,
    ProjectTree.scan_file env self root file file_map s = (Returned file_map1, s, o)
    /\ (Forall (fun entry =>
                  String.prefix (FileUtils.allowed_root (FileUtils.path_guard self))
                    (PosixPath.abspath env (snd entry)) = true) file_map1
        /\ NoDup (map fst file_map1))
    /\ Forall (fun record => exists msg, record = Log FileUtils.logger WARNING msg) o.
Proof.
  intros Hinv.
  unfold ProjectTree.scan_file, bind, on_object, FileUtils.is_safe_path, gets,
    PyString.startswith.
  cbn.
  destruct (String.prefix _ (PosixPath.abspath env (PosixPath.join root file))) eqn:Hsafe;
    cbn.
  - do 2 eexists. split; [reflexivity |]. split; [| constructor].
    apply (assign_keeps
             (fun value =>
                String.prefix (FileUtils.allowed_root (FileUtils.path_guard self))
                  (PosixPath.abspath env value) = true)); assumption.
  - do 2 eexists. split; [reflexivity |]. split; [exact Hinv |].
    repeat constructor. eexists. reflexivity.
Qed.

Lemma scan_files_keeps (env : Env) (self s : FileUtils.ProjectStructure) (root : string)
    (files : list string) (file_map : list (string * string)) :
  Forall (fun entry =>
            String.prefix (FileUtils.allowed_root (FileUtils.path_guard self))
              (PosixPath.abspath env (snd entry)) = true) file_map
  /\ NoDup (map fst file_map) ->
  exists file_map1 o,
    ProjectTree.scan_files env self root files file_map s = (Returned file_map1, s, o)
    /\ (Forall (fun entry =>
                  String.prefix (FileUtils.allowed_root (FileUtils.path_guard self))
                    (PosixPath.abspath env (snd entry)) = true) file_map1
        /\ NoDup (map fst file_map1))
    /\ Forall (fun record => exists msg, record = Log FileUtils.logger WARNING msg) o.
Proof.
  revert file_map. induction files as [| file rest IH]; intros file_map Hinv.
  - do 2 eexists. split; [reflexivity |]. split; [exact Hinv | constructor].
  - destruct (scan_file_keeps env self s root file file_map Hinv)
      as (file_map1 & o1 & Hfile & Hinv1 & Ho1).
    destruct (IH file_map1 Hinv1) as (file_map2 & o2 & Hrest & Hinv2 & Ho2).
    exists file_map2, (o1 ++ o2). cbn [ProjectTree.scan_files].
    rewrite (bind_returned _ _ _ _ _ _ Hfile), Hrest.
    split; [reflexivity |]. split; [exact Hinv2 | apply Forall_app; split; assumption].
Qed.

Lemma scan_walk_keeps (env : Env) (self s : FileUtils.ProjectStructure)
    (yielded : list (string * list string)) (file_map : list (string * string)) :
  Forall (fun entry =>
            String.prefix (FileUtils.allowed_root (FileUtils.path_guard self))
              (PosixPath.abspath env (snd entry)) = true) file_map
  /\ NoDup (map fst file_map) ->
  exists file_map1 o,
    ProjectTree.scan_walk env self yielded file_map s = (Returned file_map1, s, o)
    /\ (Forall (fun entry =>
                  String.prefix (FileUtils.allowed_root (FileUtils.path_guard self))
                    (PosixPath.abspath env (snd entry)) = true) file_map1
        /\ NoDup (map fst file_map1))
    /\ Forall (fun record => exists msg, record = Log FileUtils.logger WARNING msg) o.
Proof.
  revert file_map. induction yielded as [| [root files] rest IH]; intros file_map Hinv.
  - do 2 eexists. split; [reflexivity |]. split; [exact Hinv | constructor].
  - destruct (scan_files_keeps env self s root files file_map Hinv)
      as (file_map1 & o1 & Hfiles & Hinv1 & Ho1).
    destruct (IH file_map1 Hinv1) as (file_map2 & o2 & Hrest & Hinv2 & Ho2).
    exists file_map2, (o1 ++ o2). cbn [ProjectTree.scan_walk].
    rewrite (bind_returned _ _ _ _ _ _ Hfiles), Hrest.
    split; [reflexivity |]. split; [exact Hinv2 | apply Forall_app; split; assumption].
Qed.

(** X21: [scan_directory] returns for every directory.  The map it returns
    is the one it stores; every path in it is one the guard accepts and no
    key occurs twice.  The only records written are the guard's warnings
    for the files left out, and the root and the guard are left as they
    were. *)
Theorem scan_directory_authorized (env : Env) (tree : ProjectTree.Node)
    (self : FileUtils.ProjectStructure) :
  exists file_map o,
    ProjectTree.scan_directory env tree self
    = (Returned file_map, ProjectTree.set_file_map file_map self, o)
    /\ Forall (fun entry =>
                 String.prefix (FileUtils.allowed_root (FileUtils.path_guard self))
                   (PosixPath.abspath env (snd entry)) = true) file_map
    /\ NoDup (map fst file_map)
    /\ Forall (fun record => exists msg, record = Log FileUtils.logger WARNING msg) o.
Proof.
  destruct (scan_walk_keeps env self self
              (ProjectTree.walk (FileUtils.root_path self) tree) []
              (conj (List.Forall_nil _) (NoDup_nil_2 (A := string))))
    as (file_map & o & Hwalk & [Hall Hkeys] & Ho).
  exists file_map, o.
  split; [| split; [exact Hall | split; [exact Hkeys | exact Ho]]].
  unfold ProjectTree.scan_directory.
  erewrite bind_returned by reflexivity. cbn [result_of state_of output_of fst snd].
  rewrite (bind_returned _ _ _ _ _ _ Hwalk). cbn. rewrite app_nil_r. reflexivity.
Qed.

Lemma scan_directory_authorized_witness :
  exists file_map o,
    ProjectTree.scan_directory Sample.env Sample.project Sample.structure
    = (Returned file_map, ProjectTree.set_file_map file_map Sample.structure, o)
    /\ length file_map = 3%nat.
Proof.
  destruct (scan_directory_authorized Sample.env Sample.project Sample.structure)
    as (file_map & o & Hscan & _).
  exists file_map, o. split; [exact Hscan |].
  assert (Hmap : result_of (ProjectTree.scan_directory Sample.env Sample.project
                              Sample.structure) = Returned file_map)
    by (rewrite Hscan; reflexivity).
  vm_compute in Hmap. injection Hmap as <-. reflexivity.
Defined.

(** X22: [get_tree] scans only while the stored map is empty.  Once the
    map holds an entry, the listing is made from the stored map alone,
    sorted and prefixed: it writes nothing, changes nothing and is the
    same whatever the directory holds by then.  With an empty map, every
    call scans again and stores what it finds. *)
Theorem get_tree_cache (env : Env) (tree : ProjectTree.Node) (prefix : string)
    (self : FileUtils.ProjectStructure) :
  (FileUtils.file_map self <> [] ->
   forall other : ProjectTree.Node,
     ProjectTree.get_tree env other prefix self
     = (Returned (map (fun path => prefix +:+ path)
                      (ProjectTree.sorted (map fst (FileUtils.file_map self)))),
        self, []))
  /\ (FileUtils.file_map self = [] ->
      exists file_map o,
        ProjectTree.scan_directory env tree self
        = (Returned file_map, ProjectTree.set_file_map file_map self, o)
        /\ ProjectTree.get_tree env tree prefix self
           = (Returned (map (fun path => prefix +:+ path)
                            (ProjectTree.sorted (map fst file_map))),
              ProjectTree.set_file_map file_map self, o)).
Proof.
  split.
  - intros Hcached other. apply (proj2 (get_tree_cases env other prefix self)), Hcached.
  - intros Hempty.
    destruct (scan_walk_keeps env self self
                (ProjectTree.walk (FileUtils.root_path self) tree) []
                (conj (List.Forall_nil _) (NoDup_nil_2 (A := string))))
      as (file_map & o & Hwalk & _).
    assert (Hscan : ProjectTree.scan_directory env tree self
                    = (Returned file_map, ProjectTree.set_file_map file_map self, o)).
    { unfold ProjectTree.scan_directory.
      erewrite bind_returned by reflexivity. cbn [result_of state_of output_of fst snd].
      rewrite (bind_returned _ _ _ _ _ _ Hwalk). cbn. rewrite app_nil_r. reflexivity. }
    exists file_map, o. split; [exact Hscan |].
    rewrite (proj1 (get_tree_cases env tree prefix self) Hempty).
    rewrite (bind_returned _ _ _ _ _ _ Hscan). cbn. rewrite app_nil_r. reflexivity.
Qed.

Lemma get_tree_cache_witness :
  FileUtils.file_map
    (state_of (ProjectTree.scan_directory Sample.env Sample.project Sample.structure)) <> []
  /\ result_of
       (ProjectTree.get_tree Sample.env Sample.grown_project ""
          (state_of (ProjectTree.scan_directory Sample.env Sample.project Sample.structure)))
     = Returned ["README"; "main.py"; "src/core.py"]
  /\ FileUtils.file_map Sample.structure = []
  /\ result_of (ProjectTree.get_tree Sample.env Sample.grown_project "" Sample.structure)
     = Returned ["README"; "main.py"; "new.py"; "src/core.py"].
Proof.
  assert (Hcached : FileUtils.file_map
                      (state_of (ProjectTree.scan_directory Sample.env Sample.project
                                   Sample.structure)) <> [])
    by (vm_compute; discriminate).
  split; [exact Hcached |].
  destruct (get_tree_cache Sample.env Sample.grown_project ""
              (state_of (ProjectTree.scan_directory Sample.env Sample.project
                           Sample.structure))) as [Hstale _].
  split; [rewrite (Hstale Hcached Sample.grown_project); reflexivity |].
  split; [reflexivity |].
  destruct (get_tree_cache Sample.env Sample.grown_project "" Sample.structure)
    as [_ Hfresh].
  destruct (Hfresh eq_refl) as (file_map & o & Hscan & Htree).
  rewrite Htree. cbn [result_of fst].
  assert (Hmap : result_of (ProjectTree.scan_directory Sample.env Sample.grown_project
                              Sample.structure) = Returned file_map)
    by (rewrite Hscan; reflexivity).
  vm_compute in Hmap. injection Hmap as <-. reflexivity.
Defined.

(** *** The dashboard thread *)

Lemma set_dashboard_same (self : Orchestrator.DavidAI) :
  Orchestrator.set_dashboard (Orchestrator.dashboard self) self = self.
Proof.
  destruct self. reflexivity.
Qed.

(** A dashboard thread that has returned stays so, silently. *)
Lemma tick_dashboard_done (env : Env) (tid : nat) (w : Orchestrator.World) :
  Orchestrator.threads w !! tid
  = Some (Orchestrator.DashboardThread CommandCenter.DashDone) ->
  Orchestrator.tick env tid w = (Returned tt, w, []).
Proof.
  intros Htid. unfold Orchestrator.tick. rewrite Htid.
  cbn. rewrite set_dashboard_same, (list_insert_id _ _ _ Htid).
  destruct w. reflexivity.
Qed.

(** The test of [render_loop] on a dashboard that is switched off. *)
Lemma tick_dashboard_off (env : Env) (tid : nat) (w : Orchestrator.World) :
  Orchestrator.threads w !! tid
  = Some (Orchestrator.DashboardThread CommandCenter.DashLoop) ->
  CommandCenter.is_running (Orchestrator.dashboard (Orchestrator.system w)) = false ->
  Orchestrator.tick env tid w
  = (Returned tt,
     Orchestrator.set_threads
       (<[tid := Orchestrator.DashboardThread CommandCenter.DashDone]>
          (Orchestrator.threads w)) w,
     []).
Proof.
  intros Htid Hoff. unfold Orchestrator.tick. rewrite Htid.
  cbn. unfold bind, Orchestrator.on_dashboard, zoom, gets. cbn. rewrite Hoff. cbn.
  rewrite set_dashboard_same. reflexivity.
Qed.

(** The test of [render_loop] on a dashboard that is switched on. *)
Lemma tick_dashboard_on (env : Env) (tid : nat) (w : Orchestrator.World) :
  Orchestrator.threads w !! tid
  = Some (Orchestrator.DashboardThread CommandCenter.DashLoop) ->
  CommandCenter.is_running (Orchestrator.dashboard (Orchestrator.system w)) = true ->
  Orchestrator.tick env tid w
  = (Returned tt, w,
     output_of (CommandCenter.render env (Orchestrator.dashboard (Orchestrator.system w)))).
Proof.
  intros Htid Hon. unfold Orchestrator.tick. rewrite Htid.
  destruct (render_running env _ Hon) as (header & _ & _ & _ & Hrender).
  cbn [Orchestrator.thread_step CommandCenter.start_step].
  unfold bind, Orchestrator.on_dashboard, zoom, gets. cbv beta iota zeta.
  rewrite Hon. cbv beta iota zeta. rewrite Hrender.
  cbn [fst snd output_of ret app].
  rewrite set_dashboard_same, (list_insert_id _ _ _ Htid), !app_nil_r.
  destruct w. reflexivity.
Qed.

(** X23: whether a pause ends the dashboard thread depends on the
    schedule.  [pause_cycle] switches the dashboard off.  When the
    dashboard thread tests its loop before the resume, it returns, and the
    thread is over: the resume switches the dashboard on again but starts
    no thread, so nothing is rendered from then on.  When the resume comes
    before the thread's next test, the thread stays in its loop and
    renders as before. *)
Theorem pause_can_end_dashboard_thread (env1 env2 env3 : Env) (tid : nat)
    (w : Orchestrator.World) :
  Orchestrator.threads w !! tid
  = Some (Orchestrator.DashboardThread CommandCenter.DashLoop) ->
  Orchestrator.is_paused (Orchestrator.system w) = false ->
  let paused := state_of (Orchestrator.perform env1 Orchestrator.Pause w) in
  (let ended := state_of (Orchestrator.tick env2 tid paused) in
   let resumed := state_of (Orchestrator.perform env3 Orchestrator.Pause ended) in
   output_of (Orchestrator.tick env2 tid paused) = []
   /\ Orchestrator.threads ended !! tid
      = Some (Orchestrator.DashboardThread CommandCenter.DashDone)
   /\ Orchestrator.is_paused (Orchestrator.system resumed) = false
   /\ CommandCenter.is_running (Orchestrator.dashboard (Orchestrator.system resumed)) = true
   /\ length (Orchestrator.threads resumed) = length (Orchestrator.threads w)
   /\ forall env : Env, Orchestrator.tick env tid resumed = (Returned tt, resumed, []))
  /\ (let resumed := state_of (Orchestrator.perform env3 Orchestrator.Pause paused) in
      Orchestrator.threads resumed = Orchestrator.threads w
      /\ Orchestrator.is_paused (Orchestrator.system resumed) = false
      /\ CommandCenter.is_running (Orchestrator.dashboard (Orchestrator.system resumed))
         = true
      /\ forall env : Env,
           state_of (Orchestrator.tick env tid resumed) = resumed
           /\ In (Print " [SYSTEM STATUS] RUNNING" Agents.newline)
                 (output_of (Orchestrator.tick env tid resumed))).
Proof.
  intros Htid Hpaused. cbn zeta.
  assert (Hlen : (tid < length (Orchestrator.threads w))%nat)
    by (apply lookup_lt_is_Some; eauto).
  remember (state_of (Orchestrator.perform env1 Orchestrator.Pause w)) as paused eqn:Ep.
  assert (Hp : Orchestrator.threads paused = Orchestrator.threads w
               /\ Orchestrator.is_paused (Orchestrator.system paused) = true
               /\ CommandCenter.is_running
                    (Orchestrator.dashboard (Orchestrator.system paused)) = false).
  { subst paused. cbn -[Nat.ltb]. rewrite Hpaused. cbn -[Nat.ltb].
    repeat split; try reflexivity; destruct (_ <? _)%nat; reflexivity. }
  destruct Hp as (Hthreads & Hflag & Hoff).
  assert (Htid' : Orchestrator.threads paused !! tid
                  = Some (Orchestrator.DashboardThread CommandCenter.DashLoop))
    by (rewrite Hthreads; exact Htid).
  clear Ep.
  assert (Hresume : forall w0,
             Orchestrator.is_paused (Orchestrator.system w0) = true ->
             Orchestrator.threads
               (state_of (Orchestrator.perform env3 Orchestrator.Pause w0))
             = Orchestrator.threads w0
             /\ Orchestrator.is_paused
                  (Orchestrator.system
                     (state_of (Orchestrator.perform env3 Orchestrator.Pause w0)))
                = false
             /\ CommandCenter.is_running
                  (Orchestrator.dashboard
                     (Orchestrator.system
                        (state_of (Orchestrator.perform env3 Orchestrator.Pause w0))))
                = true).
  { intros w0 Hflag0. cbn -[Nat.ltb]. rewrite Hflag0. cbn -[Nat.ltb].
    repeat split; try reflexivity; destruct (_ <? _)%nat; reflexivity. }
  split.
  - rewrite (tick_dashboard_off env2 tid paused Htid' Hoff).
    cbn [state_of output_of fst snd].
    remember (Orchestrator.set_threads _ paused) as ended eqn:Ee.
    assert (He : Orchestrator.threads ended !! tid
                 = Some (Orchestrator.DashboardThread CommandCenter.DashDone)).
    { subst ended. cbn. apply list_lookup_insert_eq. rewrite Hthreads. exact Hlen. }
    assert (Hflag1 : Orchestrator.is_paused (Orchestrator.system ended) = true)
      by (subst ended; exact Hflag).
    destruct (Hresume ended Hflag1) as (Hthreads' & Hflag' & Hon).
    split; [reflexivity |]. split; [exact He |]. split; [exact Hflag' |].
    split; [exact Hon |]. split.
    + rewrite Hthreads'. subst ended. cbn. rewrite length_insert, Hthreads. reflexivity.
    + intros env. apply tick_dashboard_done. rewrite Hthreads'. exact He.
  - destruct (Hresume paused Hflag) as (Hthreads' & Hflag' & Hon).
    split; [rewrite Hthreads'; exact Hthreads |]. split; [exact Hflag' |].
    split; [exact Hon |].
    intros env.
    assert (Hloop : Orchestrator.threads
                      (state_of (Orchestrator.perform env3 Orchestrator.Pause paused))
                    !! tid
                    = Some (Orchestrator.DashboardThread CommandCenter.DashLoop))
      by (rewrite Hthreads'; exact Htid').
    rewrite (tick_dashboard_on env tid _ Hloop Hon).
    split; [reflexivity |]. cbn [output_of snd].
    destruct (render_running env _ Hon) as (header & Hlength & Hstatus & _ & ->).
    cbn [output_of snd]. apply in_or_app. left.
    apply list_elem_of_In, (list_elem_of_lookup_2 _ 4%nat), Hstatus.
Qed.

Lemma pause_can_end_dashboard_thread_witness :
  Orchestrator.threads Sample.displayed_world !! 0%nat
  = Some (Orchestrator.DashboardThread CommandCenter.DashLoop)
  /\ Orchestrator.is_paused (Orchestrator.system Sample.displayed_world) = false
  /\ (let paused :=
        state_of (Orchestrator.perform Sample.env Orchestrator.Pause
                    Sample.displayed_world) in
      let ended := state_of (Orchestrator.tick Sample.env 0 paused) in
      let resumed := state_of (Orchestrator.perform Sample.late Orchestrator.Pause ended) in
      forall env : Env, Orchestrator.tick env 0 resumed = (Returned tt, resumed, []))
  /\ (let paused :=
        state_of (Orchestrator.perform Sample.env Orchestrator.Pause
                    Sample.displayed_world) in
      let resumed := state_of (Orchestrator.perform Sample.late Orchestrator.Pause paused) in
      forall env : Env,
        In (Print " [SYSTEM STATUS] RUNNING" Agents.newline)
          (output_of (Orchestrator.tick env 0 resumed))).
Proof.
  assert (Htid : Orchestrator.threads Sample.displayed_world !! 0%nat
                 = Some (Orchestrator.DashboardThread CommandCenter.DashLoop))
    by reflexivity.
  assert (Hpaused : Orchestrator.is_paused (Orchestrator.system Sample.displayed_world)
                    = false)
    by reflexivity.
  split; [exact Htid |]. split; [exact Hpaused |].
  destruct (pause_can_end_dashboard_thread Sample.env Sample.env Sample.late 0
              Sample.displayed_world Htid Hpaused)
    as ((_ & _ & _ & _ & _ & Hsilent) & (_ & _ & _ & Hrenders)).
  split; [exact Hsilent |].
  intros env. apply Hrenders.
Defined.

(** X24: a shutdown that comes before the dashboard thread has begun does
    not stop it.  [Dashboard.start] switches the dashboard on when the
    thread begins, after [stop] has switched it off, and nothing switches
    it off again: at every later test of [render_loop] the thread is still
    in its loop and renders, with the status line RUNNING, although the
    system is stopped. *)
Theorem shutdown_before_dashboard_begins (tid : nat) (w : Orchestrator.World)
    (env : Env) (envs : list Env) :
  Orchestrator.threads w !! tid
  = Some (Orchestrator.DashboardThread CommandCenter.DashNew) ->
  let stopped := state_of (Orchestrator.perform env Orchestrator.Shutdown w) in
  let later :=
    state_of (Orchestrator.perform_all
                (map (fun env' => (env', Orchestrator.Tick tid)) (env :: envs)) stopped) in
  CommandCenter.is_running (Orchestrator.dashboard (Orchestrator.system stopped)) = false
  /\ Orchestrator.is_running (Orchestrator.system later) = false
  /\ CommandCenter.is_running (Orchestrator.dashboard (Orchestrator.system later)) = true
  /\ Orchestrator.threads later !! tid
     = Some (Orchestrator.DashboardThread CommandCenter.DashLoop)
  /\ forall env' : Env,
       state_of (Orchestrator.tick env' tid later) = later
       /\ In (Print " [SYSTEM STATUS] RUNNING" Agents.newline)
             (output_of (Orchestrator.tick env' tid later)).
Proof.
  intros Htid. cbn zeta.
  assert (Hlen : (tid < length (Orchestrator.threads w))%nat)
    by (apply lookup_lt_is_Some; eauto).
  split; [reflexivity |].
  cbn [map Orchestrator.perform_all].
  assert (Hfirst :
            exists begun,
              Orchestrator.perform env (Orchestrator.Tick tid)
                (state_of (Orchestrator.perform env Orchestrator.Shutdown w))
              = (Returned tt, begun, [Log CommandCenter.logger INFO "Dashboard started."])
              /\ Orchestrator.is_running (Orchestrator.system begun) = false
              /\ CommandCenter.is_running (Orchestrator.dashboard (Orchestrator.system begun))
                 = true
              /\ Orchestrator.threads begun !! tid
                 = Some (Orchestrator.DashboardThread CommandCenter.DashLoop)).
  { eexists. cbn [Orchestrator.perform]. unfold Orchestrator.tick.
    cbn. rewrite Htid. cbn. split; [reflexivity |]. cbn.
    repeat split. apply list_lookup_insert_eq. exact Hlen. }
  destruct Hfirst as (begun & Hfirst & Hsystem & Hon & Hloop).
  rewrite (bind_returned _ _ _ _ _ _ Hfirst). cbn [state_of fst snd].
  clear Hfirst.
  assert (Hrest : state_of (Orchestrator.perform_all
                              (map (fun env' => (env', Orchestrator.Tick tid)) envs) begun)
                  = begun).
  { induction envs as [| env1 rest IH]; [reflexivity |].
    cbn [map Orchestrator.perform_all Orchestrator.perform].
    rewrite (bind_returned _ _ _ _ _ _ (tick_dashboard_on env1 tid begun Hloop Hon)).
    cbn [state_of fst snd]. exact IH. }
  rewrite Hrest.
  split; [exact Hsystem |]. split; [exact Hon |]. split; [exact Hloop |].
  intros env'. rewrite (tick_dashboard_on env' tid begun Hloop Hon).
  split; [reflexivity |]. cbn [output_of snd].
  destruct (render_running env' _ Hon) as (header & Hlength & Hstatus & _ & ->).
  cbn [output_of snd]. apply in_or_app. left.
  apply list_elem_of_In, (list_elem_of_lookup_2 _ 4%nat), Hstatus.
Qed.

Lemma shutdown_before_dashboard_begins_witness :
  Orchestrator.threads Sample.working_world !! 0%nat
  = Some (Orchestrator.DashboardThread CommandCenter.DashNew)
  /\ let stopped :=
       state_of (Orchestrator.perform Sample.env Orchestrator.Shutdown Sample.working_world) in
     let later :=
       state_of (Orchestrator.perform_all
                   [(Sample.env, Orchestrator.Tick 0%nat);
                    (Sample.late, Orchestrator.Tick 0%nat);
                    (Sample.late, Orchestrator.Tick 0%nat)] stopped) in
     Orchestrator.is_running (Orchestrator.system later) = false
     /\ Orchestrator.threads later !! 0%nat
        = Some (Orchestrator.DashboardThread CommandCenter.DashLoop).
Proof.
  assert (Htid : Orchestrator.threads Sample.working_world !! 0%nat
                 = Some (Orchestrator.DashboardThread CommandCenter.DashNew))
    by reflexivity.
  split; [exact Htid |].
  destruct (shutdown_before_dashboard_begins 0 Sample.working_world Sample.env
              [Sample.late; Sample.late] Htid) as (_ & Hsystem & _ & Hloop & _).
  split; [exact Hsystem | exact Hloop].
Defined.

(** ** The interactive shell *)



Lemma yields_any {S A} (P : A -> Prop) (m : M S A) :
  Shell.yields P m -> Shell.yields (fun _ => True) m.
Proof.
  intros Hm s. destruct (Hm s) as (a & s1 & o & Hrun & _). exists a, s1, o. auto.
Qed.


















Lemma handler_ignores_arguments (env : Env) (tree : ProjectTree.Node) (cmd : string)
    (handler : list string -> M Orchestrator.World Shell.Next) (args1 args2 : list string) :
  Shell.handler_of cmd (Shell.command_map env tree) = Some handler ->
  handler args1 = handler args2.
Proof.
  unfold Shell.command_map. cbn [Shell.handler_of].
  repeat match goal with
         | |- context [if ?test then _ else _] => destruct test
         end;
    intros [= <-]; reflexivity.
Qed.

(** A line whose first word names a command runs its handler. *)
Lemma run_step_command (env : Env) (tree : ProjectTree.Node) (text first : string)
    (args : list string) (cmd : string)
    (handler : list string -> M Orchestrator.World Shell.Next) :
  Shell.split (Shell.strip text) = first :: args ->
  Shell.lower first = cmd ->
  Shell.handler_of cmd (Shell.command_map env tree) = Some handler ->
  Shell.run_step env tree (Shell.Line text) = handler args.
Proof.
  intros Hsplit Hlower Hhandler. unfold Shell.run_step.
  rewrite Hsplit. cbn zeta. rewrite Hlower, Hhandler. reflexivity.
Qed.

(** X25: what the shell reads of a line of ASCII characters.  A line of
    white space alone does nothing.  A first word that, in lower case,
    names no command changes nothing and is reported, in lower case, as
    unknown.  Two lines whose first words agree up to case do the same:
    the case of the command and every further word are ignored. *)
Theorem run_step_reads_command (env : Env) (tree : ProjectTree.Node)
    (w : Orchestrator.World) :
  (forall text : string,
      Shell.ascii_text text = true ->
      Shell.split (Shell.strip text) = [] ->
      Shell.run_step env tree (Shell.Line text) w = (Returned Shell.Prompt, w, []))
  /\ (forall (text first : string) (args : list string),
        Shell.ascii_text text = true ->
        Shell.split (Shell.strip text) = first :: args ->
        ~ In (Shell.lower first) ["start"; "pause"; "status"; "inspect"; "exit"; "help"] ->
        Shell.run_step env tree (Shell.Line text) w
        = (Returned Shell.Prompt, w,
           [Print ("Unknown command: " +:+ Shell.lower first) Agents.newline]))
  /\ (forall (text1 text2 first1 first2 : string) (args1 args2 : list string),
        Shell.ascii_text text1 = true ->
        Shell.ascii_text text2 = true ->
        Shell.split (Shell.strip text1) = first1 :: args1 ->
        Shell.split (Shell.strip text2) = first2 :: args2 ->
        Shell.lower first1 = Shell.lower first2 ->
        Shell.run_step env tree (Shell.Line text1) w
        = Shell.run_step env tree (Shell.Line text2) w).
Proof.
  split; [| split].
  - intros text _ Hblank. unfold Shell.run_step. rewrite Hblank. reflexivity.
  - intros text first args _ Hsplit Hunknown. unfold Shell.run_step.
    rewrite Hsplit. cbn zeta.
    assert (Hnone : Shell.handler_of (Shell.lower first) (Shell.command_map env tree) = None).
    { unfold Shell.command_map. cbn [Shell.handler_of].
      repeat match goal with
             | |- context [String.eqb ?name (Shell.lower first)] =>
                 let Hname := fresh "Hname" in
                 destruct (String.eqb name (Shell.lower first)) eqn:Hname;
                 [apply String.eqb_eq in Hname; exfalso; apply Hunknown;
                  rewrite <- Hname; cbn; tauto |]
             end.
      reflexivity. }
    rewrite Hnone. reflexivity.
  - intros text1 text2 first1 first2 args1 args2 _ _ Hsplit1 Hsplit2 Hlower.
    unfold Shell.run_step. rewrite Hsplit1, Hsplit2. cbn zeta. rewrite Hlower.
    destruct (Shell.handler_of (Shell.lower first2) (Shell.command_map env tree))
      as [handler |] eqn:Hhandler; [| reflexivity].
    rewrite (handler_ignores_arguments env tree _ handler args1 args2 Hhandler).
    reflexivity.
Qed.

Lemma run_step_reads_command_witness :
  Shell.run_step Sample.env Sample.project (Shell.Line "   ") Sample.displayed_world
  = (Returned Shell.Prompt, Sample.displayed_world, [])
  /\ output_of
       (Shell.run_step Sample.env Sample.project (Shell.Line "Fly away")
          Sample.displayed_world)
     = [Print "Unknown command: fly" Agents.newline]
  /\ Shell.run_step Sample.env Sample.project (Shell.Line "  STATUS now")
       Sample.displayed_world
     = Shell.run_step Sample.env Sample.project (Shell.Line "status") Sample.displayed_world.
Proof.
  destruct (run_step_reads_command Sample.env Sample.project Sample.displayed_world)
    as (Hblank & Hunknown & Hsame).
  split; [apply Hblank; reflexivity |].
  split.
  - rewrite (Hunknown "Fly away" "Fly" ["away"] eq_refl eq_refl); [reflexivity |].
    cbn. intros Hin. repeat (destruct Hin as [Hin | Hin]; [discriminate Hin |]).
    exact Hin.
  - apply (Hsame "  STATUS now" "status" "STATUS" "status" ["now"] []); reflexivity.
Defined.

(** The test of the loop of [_run_cycle] on a stopped system. *)
Lemma tick_cycle_stopped (env : Env) (tid : nat) (start_time : Z) (w : Orchestrator.World) :
  Orchestrator.threads w !! tid
  = Some (Orchestrator.MainLoopThread (Orchestrator.CycleLoop start_time)) ->
  Orchestrator.is_running (Orchestrator.system w) = false ->
  Orchestrator.tick env tid w
  = (Returned tt,
     Orchestrator.set_threads
       (<[tid := Orchestrator.MainLoopThread Orchestrator.CycleDone]>
          (Orchestrator.threads w)) w,
     []).
Proof.
  intros Htid Hstopped. unfold Orchestrator.tick. rewrite Htid.
  cbn [Orchestrator.thread_step Orchestrator._run_cycle_step].
  unfold bind, gets. cbv beta iota zeta. rewrite Hstopped. reflexivity.
Qed.

Lemma shutdown_run (w : Orchestrator.World) :
  Orchestrator.on_system Orchestrator.shutdown w
  = (Returned tt,
     Orchestrator.set_system
       (Orchestrator.set_dashboard
          (CommandCenter.set_is_running false
             (Orchestrator.dashboard (Orchestrator.system w)))
          (Orchestrator.set_is_running false (Orchestrator.system w))) w,
     [Log CommandCenter.logger INFO "Dashboard stopped.";
      Log Orchestrator.logger INFO "DavidAI shutting down."]).
Proof. reflexivity. Qed.

(** X26: the three ways out of the shell.  The command [exit], the end of
    the input and an interrupt each call [shutdown] and leave [run] with
    [SystemExit(0)]; the last two print a line first.  No thread is
    waited for or changed by the call, but both flags are off, so a cycle
    thread and a dashboard thread that are in their loops each return,
    silently, at their next test. *)
Theorem shell_exit (env : Env) (tree : ProjectTree.Node) (input : Shell.Input)
    (w : Orchestrator.World) :
  Shell.leaves input = true ->
  let after := state_of (Orchestrator.perform env Orchestrator.Shutdown w) in
  Shell.run_step env tree input w
  = (Returned (Shell.SystemExit 0), after,
     match input with
     | Shell.Line _ => []
     | _ => [Print (Agents.newline +:+ "Exiting...") Agents.newline]
     end
     ++ [Log CommandCenter.logger INFO "Dashboard stopped.";
         Log Orchestrator.logger INFO "DavidAI shutting down."])
  /\ Orchestrator.is_running (Orchestrator.system after) = false
  /\ CommandCenter.is_running (Orchestrator.dashboard (Orchestrator.system after)) = false
  /\ Orchestrator.threads after = Orchestrator.threads w
  /\ (forall (tid : nat) (start_time : Z) (env' : Env),
        Orchestrator.threads w !! tid
        = Some (Orchestrator.MainLoopThread (Orchestrator.CycleLoop start_time)) ->
        Orchestrator.tick env' tid after
        = (Returned tt,
           Orchestrator.set_threads
             (<[tid := Orchestrator.MainLoopThread Orchestrator.CycleDone]>
                (Orchestrator.threads w)) after,
           []))
  /\ (forall (tid : nat) (env' : Env),
        Orchestrator.threads w !! tid
        = Some (Orchestrator.DashboardThread CommandCenter.DashLoop) ->
        Orchestrator.tick env' tid after
        = (Returned tt,
           Orchestrator.set_threads
             (<[tid := Orchestrator.DashboardThread CommandCenter.DashDone]>
                (Orchestrator.threads w)) after,
           [])).
Proof.
  intros Hleaves. cbn zeta. cbn [Orchestrator.perform].
  rewrite shutdown_run. cbn [state_of fst snd].
  split; [| split; [reflexivity | split; [reflexivity | split; [reflexivity | split]]]].
  - destruct input as [text | |]; cbn [Shell.leaves] in Hleaves.
    + destruct (Shell.split (Shell.strip text)) as [| first args] eqn:Hsplit;
        [discriminate Hleaves |].
      apply String.eqb_eq in Hleaves.
      rewrite (run_step_command env tree text first args "exit" Shell.cmd_exit
                 Hsplit Hleaves eq_refl).
      reflexivity.
    + reflexivity.
    + reflexivity.
  - intros tid start_time env' Htid.
    match goal with
    | |- Orchestrator.tick _ _ ?after = _ =>
        rewrite (tick_cycle_stopped env' tid start_time after Htid eq_refl)
    end.
    reflexivity.
  - intros tid env' Htid.
    match goal with
    | |- Orchestrator.tick _ _ ?after = _ =>
        rewrite (tick_dashboard_off env' tid after Htid eq_refl)
    end.
    reflexivity.
Qed.

Lemma shell_exit_witness :
  Shell.leaves (Shell.Line " Exit now") = true
  /\ Shell.leaves Shell.EOFError = true
  /\ result_of (Shell.run_step Sample.env Sample.project (Shell.Line " Exit now")
                  Sample.displayed_world)
     = Returned (Shell.SystemExit 0)
  /\ output_of (Shell.run_step Sample.late Sample.project Shell.EOFError
                  Sample.displayed_world)
     = [Print (Agents.newline +:+ "Exiting...") Agents.newline;
        Log CommandCenter.logger INFO "Dashboard stopped.";
        Log Orchestrator.logger INFO "DavidAI shutting down."]
  /\ Orchestrator.threads
       (state_of
          (Orchestrator.tick Sample.late 1
             (state_of (Shell.run_step Sample.env Sample.project (Shell.Line " Exit now")
                          Sample.displayed_world))))
     !! 1%nat
     = Some (Orchestrator.MainLoopThread Orchestrator.CycleDone).
Proof.
  assert (Hline : Shell.leaves (Shell.Line " Exit now") = true) by reflexivity.
  assert (Heof : Shell.leaves Shell.EOFError = true) by reflexivity.
  destruct (shell_exit Sample.env Sample.project (Shell.Line " Exit now")
              Sample.displayed_world Hline) as (Hstep & _ & _ & _ & Hcycle & _).
  destruct (shell_exit Sample.late Sample.project Shell.EOFError
              Sample.displayed_world Heof) as (Hstep' & _).
  split; [exact Hline |]. split; [exact Heof |].
  split; [rewrite Hstep; reflexivity |].
  split; [rewrite Hstep'; reflexivity |].
  rewrite Hstep. cbn [state_of fst snd].
  rewrite (Hcycle 1%nat 1000 Sample.late eq_refl). reflexivity.
Defined.

Lemma shell_log_message_run (env : Env) (source message : string)
    (w : Orchestrator.World) :
  Shell.log_message env source message w
  = (Returned tt,
     Orchestrator.set_system
       (Orchestrator.set_dashboard
          (CommandCenter.set_logs
             (let lines := CommandCenter.logs (Orchestrator.dashboard (Orchestrator.system w))
                           ++ [DashboardHistory.formatted (env, source, message)] in
              if (50 <? length lines)%nat then tail lines else lines)
             (Orchestrator.dashboard (Orchestrator.system w)))
          (Orchestrator.system w)) w,
     [Print (DashboardHistory.formatted (env, source, message)) Agents.newline]).
Proof.
  unfold Shell.log_message, Orchestrator.on_system, Orchestrator.on_dashboard.
  apply zoom_run, zoom_run, log_message_effect.
Qed.

(** The line [log_message] has added is the last of the log. *)
Lemma last_kept (lines : list string) (line : string) :
  last (let all := lines ++ [line] in if (50 <? length all)%nat then tail all else all)
  = Some line.
Proof.
  cbn zeta. destruct (50 <? length (lines ++ [line]))%nat eqn:Hfull.
  - destruct lines as [| first rest]; [discriminate Hfull |].
    cbn [app tail]. apply last_snoc.
  - apply last_snoc.
Qed.

Lemma pause_cycle_run (env : Env) (self : Orchestrator.DavidAI) :
  let paused := negb (Orchestrator.is_paused self) in
  let message := "Cycle " +:+ (if paused then "Paused" else "Resumed") +:+ "." in
  Orchestrator.pause_cycle env self
  = (Returned tt,
     Orchestrator.set_dashboard
       (CommandCenter.set_is_running (negb paused)
          (CommandCenter.set_logs
             (let lines := CommandCenter.logs (Orchestrator.dashboard self)
                           ++ [DashboardHistory.formatted (env, "SYSTEM", message)] in
              if (50 <? length lines)%nat then tail lines else lines)
             (Orchestrator.dashboard self)))
       (Orchestrator.set_is_paused paused self),
     [Print (DashboardHistory.formatted (env, "SYSTEM", message)) Agents.newline]).
Proof.
  cbn zeta. unfold Orchestrator.pause_cycle.
  erewrite bind_returned by reflexivity. cbn [result_of state_of output_of fst snd app].
  erewrite bind_returned by reflexivity. cbn [result_of state_of output_of fst snd app].
  erewrite (bind_returned (Orchestrator.on_dashboard _))
    by (apply zoom_run, log_message_effect).
  cbn [result_of state_of output_of fst snd app].
  erewrite bind_returned by reflexivity. cbn [result_of state_of output_of fst snd app].
  reflexivity.
Qed.

(** X27: the shell's own messages do not depend on what the call did.
    [start] typed while the system runs starts no thread and changes no
    flag, yet the log gets the line [System started.]; [pause] typed while
    the system is paused resumes it and switches the dashboard on, and the
    log gets [Cycle Resumed.] followed by [System paused.]. *)
Theorem shell_messages_fixed (env : Env) (tree : ProjectTree.Node) (text first : string)
    (args : list string) (w : Orchestrator.World) :
  Shell.split (Shell.strip text) = first :: args ->
  let r := Shell.run_step env tree (Shell.Line text) w in
  let last_line :=
    last (CommandCenter.logs (Orchestrator.dashboard (Orchestrator.system (state_of r)))) in
  (Shell.lower first = "start" ->
   Orchestrator.is_running (Orchestrator.system w) = true ->
   result_of r = Returned Shell.Prompt
   /\ output_of r
      = [Print (DashboardHistory.formatted (env, "USER", "System started.")) Agents.newline]
   /\ Orchestrator.threads (state_of r) = Orchestrator.threads w
   /\ Orchestrator.is_paused (Orchestrator.system (state_of r))
      = Orchestrator.is_paused (Orchestrator.system w)
   /\ last_line = Some (DashboardHistory.formatted (env, "USER", "System started.")))
  /\ (Shell.lower first = "pause" ->
      Orchestrator.is_paused (Orchestrator.system w) = true ->
      result_of r = Returned Shell.Prompt
      /\ output_of r
         = [Print (DashboardHistory.formatted (env, "SYSTEM", "Cycle Resumed."))
              Agents.newline;
            Print (DashboardHistory.formatted (env, "USER", "System paused."))
              Agents.newline]
      /\ Orchestrator.is_paused (Orchestrator.system (state_of r)) = false
      /\ CommandCenter.is_running
           (Orchestrator.dashboard (Orchestrator.system (state_of r))) = true
      /\ last_line = Some (DashboardHistory.formatted (env, "USER", "System paused."))).
Proof.
  intros Hsplit. cbn zeta. split.
  - intros Hstart Hrunning.
    rewrite (run_step_command env tree text first args "start" (Shell.cmd_start env)
               Hsplit Hstart eq_refl).
    unfold Shell.cmd_start.
    assert (Hcall : Orchestrator.start_cycle env w = (Returned tt, w, [])).
    { unfold Orchestrator.start_cycle, bind, gets. rewrite Hrunning. reflexivity. }
    rewrite (bind_returned _ _ _ _ _ _ Hcall).
    rewrite (bind_returned _ _ _ _ _ _ (shell_log_message_run env _ _ w)).
    cbn [result_of state_of output_of fst snd app ret
         Orchestrator.system Orchestrator.set_system Orchestrator.threads
         Orchestrator.dashboard Orchestrator.set_dashboard Orchestrator.is_paused
         CommandCenter.logs CommandCenter.set_logs].
    repeat split. apply last_kept.
  - intros Hpause Hpaused.
    rewrite (run_step_command env tree text first args "pause" (Shell.cmd_pause env)
               Hsplit Hpause eq_refl).
    unfold Shell.cmd_pause.
    erewrite (bind_returned (Orchestrator.on_system _))
      by (apply zoom_run, pause_cycle_run).
    rewrite Hpaused. cbn [negb].
    cbn [result_of state_of output_of fst snd].
    erewrite bind_returned by apply shell_log_message_run.
    cbn [result_of state_of output_of fst snd app ret
         Orchestrator.system Orchestrator.set_system Orchestrator.threads
         Orchestrator.dashboard Orchestrator.set_dashboard Orchestrator.is_paused
         Orchestrator.set_is_paused
         CommandCenter.logs CommandCenter.set_logs CommandCenter.is_running
         CommandCenter.set_is_running].
    repeat split. apply last_kept.
Qed.

Lemma shell_messages_fixed_witness :
  output_of (Shell.run_step Sample.late Sample.project (Shell.Line "start")
               Sample.displayed_world)
  = [Print "[21:30:01] [USER] System started." Agents.newline]
  /\ output_of (Shell.run_step Sample.late Sample.project (Shell.Line "PAUSE")
                  Sample.paused_world)
     = [Print "[21:30:01] [SYSTEM] Cycle Resumed." Agents.newline;
        Print "[21:30:01] [USER] System paused." Agents.newline].
Proof.
  split.
  - destruct (shell_messages_fixed Sample.late Sample.project "start" "start" []
                Sample.displayed_world eq_refl) as [Hstart _].
    destruct (Hstart eq_refl eq_refl) as (_ & Houtput & _).
    rewrite Houtput. reflexivity.
  - destruct (shell_messages_fixed Sample.late Sample.project "PAUSE" "PAUSE" []
                Sample.paused_world eq_refl) as [_ Hpause].
    destruct (Hpause eq_refl eq_refl) as (_ & Houtput & _).
    rewrite Houtput. reflexivity.
Defined.

Lemma append_assoc (a b c : string) : (a +:+ b) +:+ c = a +:+ b +:+ c.
Proof.
  induction a as [| x a IH]; [reflexivity |].
  change (String x ((a +:+ b) +:+ c) = String x (a +:+ b +:+ c)).
  rewrite IH. reflexivity.
Qed.

Lemma get_status_run (w : Orchestrator.World) :
  Orchestrator.on_system Orchestrator.get_status w
  = (Returned
       [("running", PBool (Orchestrator.is_running (Orchestrator.system w)));
        ("paused", PBool (Orchestrator.is_paused (Orchestrator.system w)));
        ("agents_active",
         PInt (Z.of_nat
                 (length (List.filter (fun ant => Agents.is_active (Agents.ant_base ant))
                            (Orchestrator.ants (Orchestrator.system w))))));
        ("knowledge_base_size",
         PInt (Z.of_nat
                 (length (Agents.ledger
                            (Orchestrator.knowledge_curator (Orchestrator.system w))))))],
     w, []).
Proof.
  destruct w as [self threads]. destruct self. reflexivity.
Qed.

(** X28: [status] writes one line to the dashboard log and changes
    nothing else.  The line is the [dict] of [get_status] as Python prints
    it: the two flags as [True] or [False], the number of workers marked
    active and the length of the ledger, under the keys [running],
    [paused], [agents_active] and [knowledge_base_size], in this order. *)
Theorem status_command (env : Env) (tree : ProjectTree.Node) (text first : string)
    (args : list string) (w : Orchestrator.World) :
  Shell.split (Shell.strip text) = first :: args ->
  Shell.lower first = "status" ->
  let self := Orchestrator.system w in
  let flag := fun b : bool => if b then "True" else "False" in
  let line :=
    "Status: {'running': " +:+ flag (Orchestrator.is_running self)
    +:+ ", 'paused': " +:+ flag (Orchestrator.is_paused self)
    +:+ ", 'agents_active': "
    +:+ pretty (Z.of_nat
                  (length (List.filter (fun ant => Agents.is_active (Agents.ant_base ant))
                             (Orchestrator.ants self))))
    +:+ ", 'knowledge_base_size': "
    +:+ pretty (Z.of_nat (length (Agents.ledger (Orchestrator.knowledge_curator self))))
    +:+ "}" in
  Shell.run_step env tree (Shell.Line text) w
  = (Returned Shell.Prompt,
     state_of (Shell.log_message env "SYSTEM" line w),
     [Print (DashboardHistory.formatted (env, "SYSTEM", line)) Agents.newline])
  /\ Orchestrator.threads (state_of (Shell.run_step env tree (Shell.Line text) w))
     = Orchestrator.threads w
  /\ Orchestrator.set_dashboard (Orchestrator.dashboard self)
       (Orchestrator.system (state_of (Shell.run_step env tree (Shell.Line text) w)))
     = self
  /\ CommandCenter.metrics
       (Orchestrator.dashboard
          (Orchestrator.system (state_of (Shell.run_step env tree (Shell.Line text) w))))
     = CommandCenter.metrics (Orchestrator.dashboard self)
  /\ CommandCenter.is_running
       (Orchestrator.dashboard
          (Orchestrator.system (state_of (Shell.run_step env tree (Shell.Line text) w))))
     = CommandCenter.is_running (Orchestrator.dashboard self).
Proof.
  intros Hsplit Hstatus. cbn zeta.
  rewrite (run_step_command env tree text first args "status" (Shell.cmd_status env)
             Hsplit Hstatus eq_refl).
  unfold Shell.cmd_status.
  rewrite (bind_returned _ _ _ _ _ _ (get_status_run w)).
  cbn [app].
  match goal with
  | |- context [Py.str (PDict ?status)] =>
      match goal with
      | |- context [Shell.log_message env "SYSTEM" ?line w] =>
          replace ("Status: " +:+ Py.str (PDict status)) with line
      end
  end.
  2: { cbn [Py.str Py.repr map fst snd PyString.join].
       generalize (pretty (Z.of_nat
                             (length (Agents.ledger
                                        (Orchestrator.knowledge_curator
                                           (Orchestrator.system w)))))).
       generalize (pretty (Z.of_nat
                             (length
                                (List.filter
                                   (fun ant => Agents.is_active (Agents.ant_base ant))
                                   (Orchestrator.ants (Orchestrator.system w)))))).
       intros active size.
       rewrite !append_assoc.
       destruct (Orchestrator.is_running (Orchestrator.system w)),
         (Orchestrator.is_paused (Orchestrator.system w)); reflexivity. }
  erewrite bind_returned by apply shell_log_message_run.
  rewrite shell_log_message_run.
  cbn [result_of state_of output_of fst snd app ret
       Orchestrator.system Orchestrator.set_system Orchestrator.threads
       Orchestrator.dashboard Orchestrator.set_dashboard
       CommandCenter.metrics CommandCenter.is_running CommandCenter.set_logs].
  repeat split. destruct (Orchestrator.system w). reflexivity.
Qed.

Lemma status_command_witness :
  output_of (Shell.run_step Sample.env Sample.project (Shell.Line "  STATUS now")
               Sample.displayed_world)
  = [Print ("[09:30:00] [SYSTEM] Status: {'running': True, 'paused': False, "
            +:+ "'agents_active': 0, 'knowledge_base_size': 1}")
       Agents.newline].
Proof.
  destruct (status_command Sample.env Sample.project "  STATUS now" "STATUS" ["now"]
              Sample.displayed_world eq_refl eq_refl) as (Hstep & _).
  rewrite Hstep. reflexivity.
Defined.









